(** * ComfyUI on-demand loaders: a shallow embedding of [nodes.py]

    The development follows the source file top to bottom:

    - [Py]       : the fragments of Python and of its libraries the nodes
                   rely on (truthiness, [str.strip], [os.path.join],
                   [int], the exception classes and [re.search]);
    - [Effects]  : the state the nodes act on (file system, log, network
                   calls, progress bar) and a state-and-exception monad;
    - [Nodes]    : [load_config] and the three node classes
                   [OnDemandLoraLoader], [OnDemandUNETLoader] and
                   [OnDemandCheckpointLoader];
    - [Obs]      : what is observed of a run (requests sent, bodies read,
                   files opened) and the vocabulary of the statements;
    - [Sample]   : a host, a table and a few servers to run the nodes on;
    - the runs of the nodes path by path, and the properties of name
      resolution, of the fallback table, of the file name pattern, of the
      presence guard, of failures and of the bearer token.

    The host's loaders, [requests.get], the file system, [tqdm] and
    [json.load] are outside the repository: the loaders are the fields of
    the class [Host], the answers of the network and the failures of the
    file system and of the progress bar are fields of an [environment],
    [json.load] is a parameter of [load_config].  Creating the model
    directory, advancing and closing the progress bar and closing the
    file are taken to succeed, and the iteration over the body of a
    response is taken to end.

    Python [str] values are modelled by [string]; a character is a code
    point below 256, which is exact for HTTP header values (decoded as
    latin-1 by the HTTP client) and for ASCII URLs and names.  Paths are
    POSIX paths. *)

From Stdlib Require Import String Ascii List ZArith Bool Lia.
From stdpp Require Import base option gmap strings list.

Local Open Scope string_scope.
Local Open Scope list_scope.
Local Open Scope Z_scope.

(** ** Python fragments *)
Module Py.

(** The double quote character, code point 34. *)
Definition dquote : ascii := "034"%char.

(** Truthiness of a [str]: every string but the empty one. *)
Definition truthy (s : string) : bool :=
  match s with
  | EmptyString => false
  | String _ _ => true
  end.

(** Truthiness of a value that is [None] or a [str]. *)
Definition truthy_opt (o : option string) : bool :=
  match o with
  | None => false
  | Some s => truthy s
  end.

(** [a or b] on values that are [None] or a [str]: the first operand when
    it is truthy, the second operand otherwise. *)
Definition py_or (a b : option string) : option string :=
  if truthy_opt a then a else b.

(** [s.startswith(p)]. *)
Definition startswith (s p : string) : bool := String.prefix p s.

(** [":" in s]. *)
Fixpoint has_colon (s : string) : bool :=
  match s with
  | EmptyString => false
  | String c s' => Ascii.eqb c ":" || has_colon s'
  end.

(** [c.isspace()] for a code point below 256. *)
Definition isspace (c : ascii) : bool :=
  let n := nat_of_ascii c in
  ((9 <=? n) && (n <=? 13) || (28 <=? n) && (n <=? 32)
   || (n =? 133) || (n =? 160))%nat.

(** [s.lstrip()]. *)
Fixpoint lstrip (s : string) : string :=
  match s with
  | EmptyString => EmptyString
  | String c s' => if isspace c then lstrip s' else s
  end.

(** [s.rstrip()]: a character is dropped when it is a space and
    everything after it has been dropped. *)
Fixpoint rstrip (s : string) : string :=
  match s with
  | EmptyString => EmptyString
  | String c s' =>
      match rstrip s' with
      | EmptyString => if isspace c then EmptyString else String c EmptyString
      | r => String c r
      end
  end.

(** [s.strip()]. *)
Definition strip (s : string) : string := rstrip (lstrip s).

(** [s.endswith("/")]. *)
Fixpoint ends_with_slash (s : string) : bool :=
  match s with
  | EmptyString => false
  | String c EmptyString => Ascii.eqb c "/"
  | String _ s' => ends_with_slash s'
  end.

(** The exception classes that occur.  [KeyboardInterrupt] stands for the
    classes that derive from [BaseException] but not from [Exception]. *)
Inductive exn_class : Type :=
| FileNotFoundError
| JSONDecodeError
| KeyError
| TypeError
| ValueError
| OverflowError
| AttributeError
| OSError
| HTTPError
| MissingSchema
| ConnectionError
| ChunkedEncodingError
| KeyboardInterrupt.

(** A raised exception: its class and [str(e)]. *)
Record exn : Type := Exn { exn_cls : exn_class; exn_msg : string }.

(** [isinstance(e, Exception)]. *)
Definition is_Exception (e : exn) : bool :=
  match exn_cls e with
  | KeyboardInterrupt => false
  | _ => true
  end.

(** [isinstance(e, requests.exceptions.RequestException)]. *)
Definition is_RequestException (e : exn) : bool :=
  match exn_cls e with
  | HTTPError | MissingSchema | ConnectionError | ChunkedEncodingError => true
  | _ => false
  end.

(** The result of evaluating a Python expression or call. *)
Inductive outcome (A : Type) : Type :=
| Returned (a : A)
| Raised (e : exn).
Arguments Returned {A} a.
Arguments Raised {A} e.

(** [os.path.join(a, b)] of [posixpath]; [b] may be [None], which
    [os.fspath] rejects with a [TypeError]. *)
Definition os_path_join (a : string) (b : option string) : outcome string :=
  match b with
  | None =>
      Raised (Exn TypeError
                "expected str, bytes or os.PathLike object, not NoneType")
  | Some b =>
      Returned
        (if startswith b "/" then b
         else if negb (truthy a) || ends_with_slash a then a +:+ b
         else a +:+ "/" +:+ b)
  end.

(** [os.path.dirname] is only applied to [__file__]; the directory of the
    module is taken as given. *)

(** *** [int(s)] for a decimal literal *)

Definition digit_val (c : ascii) : option Z :=
  let n := nat_of_ascii c in
  if ((48 <=? n) && (n <=? 57))%nat then Some (Z.of_nat n - 48) else None.

(** The white space [int] skips around the literal.  It is not that of
    [str.strip]: below 127 it is the white space of C (code points 9 to
    13 and 32), so the separators 28 to 31 are not skipped; the code
    points 133 and 160 are turned into spaces before the literal is
    read. *)
Definition int_isspace (c : ascii) : bool :=
  let n := nat_of_ascii c in
  ((9 <=? n) && (n <=? 13) || (n =? 32) || (n =? 133) || (n =? 160))%nat.

Fixpoint int_lstrip (s : string) : string :=
  match s with
  | EmptyString => EmptyString
  | String c s' => if int_isspace c then int_lstrip s' else s
  end.

Fixpoint int_blank (s : string) : bool :=
  match s with
  | EmptyString => true
  | String c s' => int_isspace c && int_blank s'
  end.

(** The run of digits, with single underscores between them, at the
    start of [s]: its value, the number of its digits and what follows
    it.  [prev] tells whether the previous character was an underscore;
    two underscores in a row and an underscore at the end of the run are
    rejected. *)
Fixpoint int_scan (s : string) (acc digits : Z) (prev : bool)
  : option (Z * Z * string) :=
  match s with
  | EmptyString => if prev then None else Some (acc, digits, s)
  | String c s' =>
      match digit_val c with
      | Some d => int_scan s' (10 * acc + d) (digits + 1) false
      | None =>
          if Ascii.eqb c "_" then
            if prev then None else int_scan s' acc digits true
          else if prev then None else Some (acc, digits, s)
      end
  end.

(** [sys.int_info.default_max_str_digits]: the longest run of digits
    [int] converts. *)
Definition int_max_str_digits : Z := 4300.

(** [int(s)] on a [str]: white space, an optional sign, a run of decimal
    digits that does not start with an underscore and is not longer than
    the limit, white space.  Of the message about the limit the number of
    digits is left out. *)
Definition py_int (s : string) : outcome Z :=
  let bad := Raised (Exn ValueError
                       ("invalid literal for int() with base 10: '" +:+ s
                        +:+ "'")) in
  let signed (negative : bool) (r : string) : outcome Z :=
    match r with
    | String "_" _ => bad
    | _ =>
        match int_scan r 0 0 false with
        | None => bad
        | Some (n, digits, rest) =>
            if int_max_str_digits <? digits then
              Raised (Exn ValueError
                        ("Exceeds the limit (4300 digits) for integer "
                         +:+ "string conversion"))
            else if (digits =? 0) || negb (int_blank rest) then bad
            else Returned (if negative then - n else n)
        end
    end in
  match int_lstrip s with
  | String "-" r => signed true r
  | String "+" r => signed false r
  | r => signed false r
  end.

(** *** Regular expressions

    The fragment of [re] that the pattern of the nodes uses, matched by
    backtracking with greedy quantifiers as [re] does.  A matcher takes
    the rest of the subject, the text captured by group 1 so far and a
    continuation to run on what is left. *)
Inductive regex : Type :=
| RChar (c : ascii)                 (* the literal character c *)
| RSeq (r1 r2 : regex)              (* r1r2 *)
| ROpt (r : regex)                  (* r? *)
| RPlusNot (c : ascii)              (* [^c]+ *)
| RGroup (r : regex).               (* (r), group 1 *)

Section Match.
Context {R : Type}.

(** [[^c]*], greedy: take one more character when possible, give it
    back when the continuation fails. *)
Fixpoint star_not (c : ascii) (s : string)
         (k : string -> option R) : option R :=
  match s with
  | String x s' =>
      if Ascii.eqb x c then k s
      else match star_not c s' k with
           | Some r => Some r
           | None => k s
           end
  | EmptyString => k s
  end.

Fixpoint rmatch (r : regex) (s : string) (g : option string)
         (k : string -> option string -> option R) : option R :=
  match r with
  | RChar c =>
      match s with
      | String x s' => if Ascii.eqb x c then k s' g else None
      | EmptyString => None
      end
  | RSeq r1 r2 => rmatch r1 s g (fun s' g' => rmatch r2 s' g' k)
  | ROpt r1 =>
      match rmatch r1 s g k with
      | Some x => Some x
      | None => k s g
      end
  | RPlusNot c =>
      match s with
      | String x s' =>
          if Ascii.eqb x c then None else star_not c s' (fun s'' => k s'' g)
      | EmptyString => None
      end
  | RGroup r1 =>
      rmatch r1 s g
        (fun s' _ =>
           k s' (Some (substring 0 (String.length s - String.length s') s)))
  end.
End Match.

(** A literal word. *)
Fixpoint RLit (w : string) (r : regex) : regex :=
  match w with
  | EmptyString => r
  | String c w' => RSeq (RChar c) (RLit w' r)
  end.

(** [re.search(r, s)]: the match at the leftmost position where [r]
    matches; the result is what group 1 captured. *)
Fixpoint re_search (r : regex) (s : string) : option (option string) :=
  match rmatch r s None (fun _ g => Some g) with
  | Some g => Some g
  | None =>
      match s with
      | EmptyString => None
      | String _ s' => re_search r s'
      end
  end.

End Py.

(** ** The state the nodes act on *)
Module Effects.
Import Py.

Inductive level : Type := INFO | WARNING | ERROR.

(** What [requests.get] hands back, as far as the nodes look at it. *)
Record response : Type := Response {
  status_code : Z;
  (** [response.headers.get('Content-Disposition')] *)
  content_disposition : option string;
  (** [response.headers.get('content-length')] *)
  content_length : option string;
  (** [response.iter_content(block_size)]: the chunks it yields, and the
      exception it raises after them, if any. *)
  iter_content : Z -> list string * option exn
}.

(** The effects of a call, in the order they happen; [EGet] is a call of
    [requests.get]. *)
Inductive event : Type :=
| ELog (lvl : level) (msg : string)
| EMakedirs (path : string)
| EGet (url : string) (headers : option (gmap string string))
| EIterContent (block_size : Z)
| EOpen (path : string)
| EWrite (path : string) (data : string)
| EProgressNew (total : Z)
| EProgressUpdate (n : Z)
| EProgressClose.

(** The mutable state: the regular files and their contents, and the
    effects so far (oldest first). *)
Record world : Type := World {
  files : gmap string string;
  trace : list event
}.

(** What the nodes read but do not change. *)
Record environment : Type := Environment {
  (** [os.environ] *)
  environ : gmap string string;
  (** [os.path.dirname(__file__)] *)
  module_dir : string;
  (** [folder_paths.models_dir] *)
  models_dir : string;
  (** the paths that are directories once the model directories have
      been created *)
  is_dir : string -> bool;
  (** what sending a GET of a url with these headers, following
      redirects, comes to: a response, or the exception of the transport *)
  http_get : string -> option (gmap string string) -> outcome response;
  (** the exception [open(path, mode)] raises for a reason other than a
      missing file, if any *)
  open_error : string -> option exn;
  (** the exception [f.write(data)] raises on the file at [path], if any *)
  write_error : string -> string -> option exn;
  (** the exception [tqdm(total=total, unit='iB', unit_scale=True)]
      raises, if any: the bar writes its first status line, with the
      total in it, when it is created *)
  tqdm_error : Z -> option exn
}.

(** State and exceptions: a computation takes the world and gives back an
    outcome and the world it leaves, also when it raises. *)
Definition M (A : Type) : Type := world -> outcome A * world.

Definition ret {A} (a : A) : M A := fun w => (Returned a, w).

Definition raise {A} (e : exn) : M A := fun w => (Raised e, w).

Definition bind {A B} (m : M A) (k : A -> M B) : M B :=
  fun w =>
    match m w with
    | (Returned a, w') => k a w'
    | (Raised e, w') => (Raised e, w')
    end.

(** [try: m  except ... as e: h e]; a handler re-raises what it does not
    catch. *)
Definition try_except {A} (m : M A) (h : exn -> M A) : M A :=
  fun w =>
    match m w with
    | (Returned a, w') => (Returned a, w')
    | (Raised e, w') => h e w'
    end.

Definition lift {A} (o : outcome A) : M A := fun w => (o, w).

Definition emit (e : event) : M unit :=
  fun w => (Returned tt, World (files w) (trace w ++ [e])).

Definition get_files : M (gmap string string) :=
  fun w => (Returned (files w), w).

Definition put_file (path content : string) : M unit :=
  fun w => (Returned tt, World (<[path := content]> (files w)) (trace w)).

(** [logger.info], [logger.warning], [logger.error]. *)
Definition log (lvl : level) (msg : string) : M unit := emit (ELog lvl msg).

(** [os.path.exists(path)]. *)
Definition path_exists (env : environment) (path : string) : M bool :=
  fun w =>
    (Returned (is_dir env path || bool_decide (is_Some (files w !! path))), w).

(** [with open(path, 'r') as f: f.read()]. *)
Definition open_r (env : environment) (path : string) : M string :=
  fun w =>
    match open_error env path with
    | Some e => (Raised e, w)
    | None =>
        match files w !! path with
        | Some content => (Returned content, w)
        | None =>
            (Raised (Exn FileNotFoundError
                       ("No such file or directory: " +:+ path)), w)
        end
    end.

(** [open(path, 'wb')]: the file is created or truncated. *)
Definition open_wb (env : environment) (path : string) : M unit :=
  match open_error env path with
  | Some e => raise e
  | None => bind (emit (EOpen path)) (fun _ => put_file path EmptyString)
  end.

(** [f.write(data)] on the file opened at [path]. *)
Definition write (env : environment) (path data : string) : M unit :=
  match write_error env path data with
  | Some e => raise e
  | None =>
      bind (emit (EWrite path data))
        (fun _ w =>
           put_file path (default EmptyString (files w !! path) +:+ data) w)
  end.

(** [tqdm(total=total, unit='iB', unit_scale=True)]. *)
Definition tqdm_new (env : environment) (total : Z) : M unit :=
  match tqdm_error env total with
  | Some e => raise e
  | None => emit (EProgressNew total)
  end.

(** [requests.get(url, stream=True, allow_redirects=True,
    headers=headers)].  A url without a colon has no scheme: preparing
    the request rejects it with [MissingSchema] and nothing is sent.  Any
    other url is up to the environment. *)
Definition requests_get (env : environment) (url : string)
           (headers : option (gmap string string)) : outcome response :=
  if has_colon url then http_get env url headers
  else Raised (Exn MissingSchema
                 ("Invalid URL '" +:+ url
                  +:+ "': No scheme supplied. Perhaps you meant https://"
                  +:+ url +:+ "?")).

(** [response.raise_for_status()]: an [HTTPError] for a status from 400
    to 599; of its message only the kind of error is kept. *)
Definition raise_for_status (r : response) : M unit :=
  if (400 <=? status_code r) && (status_code r <? 500) then
    raise (Exn HTTPError "Client Error")
  else if (500 <=? status_code r) && (status_code r <? 600) then
    raise (Exn HTTPError "Server Error")
  else ret tt.

End Effects.

Declare Scope py_scope.
Delimit Scope py_scope with py.
Notation "x <~ m ;; k" := (Effects.bind m (fun x => k))
  (at level 20, m at level 99, k at level 200, only parsing) : py_scope.
Notation "'exec' m ;; k" := (Effects.bind m (fun _ => k))
  (at level 20, m at level 99, k at level 200, only parsing) : py_scope.

(** ** The nodes *)
Module Nodes.
Import Py Effects.
Local Open Scope py_scope.

(** A record of the configuration table: [{"name": ..., "url": ...}]. *)
Record entry : Type := Entry { name : string; url : string }.

(** The configuration table, from category to records, is a
    [gmap string (list entry)]. *)

(** The host's loader classes [LoraLoader], [UNETLoader] and
    [CheckpointLoaderSimple]: what they return for the files on disk and
    their arguments. *)
Class Host : Type := {
  Model : Type;
  Clip : Type;
  Strength : Type;
  UnetOut : Type;
  CkptOut : Type;
  load_lora : gmap string string -> Model -> option Clip -> option string ->
              Strength -> Strength -> outcome (Model * option Clip);
  load_unet : gmap string string -> option string -> string -> outcome UnetOut;
  load_checkpoint : gmap string string -> option string -> outcome CkptOut
}.

(** *** [load_config] *)

Definition default_config : gmap string (list entry) :=
  {[ "loras" := [ Entry "Lora n1" "not_valid_url";
                  Entry "Lora n2" "not_valid_url" ] ]}.

Section LoadConfig.
(** [json.load] on the text of the file; a table that loads is taken to
    have the shape above. *)
Variable json_load : string -> outcome (gmap string (list entry)).

Definition load_config (env : environment) (config_filename : string)
  : M (gmap string (list entry)) :=
  config_path <~ lift (os_path_join (module_dir env) (Some config_filename)) ;;
  try_except
    (text <~ open_r env config_path ;;
     config <~ lift (json_load text) ;;
     exec log INFO
       ("Successfully loaded configuration from " +:+ config_filename) ;;
     ret config)
    (fun e =>
       match exn_cls e with
       | FileNotFoundError =>
           exec log WARNING
             ("Configuration file '" +:+ config_path +:+
              "' not found. Using default fallback configuration.") ;;
           ret default_config
       | JSONDecodeError =>
           exec log ERROR
             ("Error decoding JSON from '" +:+ config_path +:+
              "'. Using default fallback configuration.") ;;
           ret default_config
       | _ =>
           if is_Exception e then
             exec log ERROR
               ("An unexpected error occurred while loading '" +:+ config_path
                +:+ "': " +:+ exn_msg e +:+ ". Using default fallback.") ;;
             ret default_config
           else raise e
       end).
End LoadConfig.

(** *** What the three nodes share *)

(** [NODE_CONFIG[category]]. *)
Definition getitem (NODE_CONFIG : gmap string (list entry))
           (category : string) : M (list entry) :=
  match NODE_CONFIG !! category with
  | Some records => ret records
  | None => raise (Exn KeyError ("'" +:+ category +:+ "'"))
  end.

(** The names offered by [INPUT_TYPES]:
    [[r["name"] for r in NODE_CONFIG.get(category, [])]]. *)
Definition input_names (NODE_CONFIG : gmap string (list entry))
           (category : string) : list string :=
  name <$> default [] (NODE_CONFIG !! category).

(** The search loop: the url of the first record whose name is [n], or
    [None]. *)
Fixpoint find_url (records : list entry) (n : string) : option string :=
  match records with
  | [] => None
  | r :: records' =>
      if String.eqb (name r) n then Some (url r) else find_url records' n
  end.

(** The two [startswith] tests and their [api_key or os.environ.get(...)]. *)
Definition select_api_key (env : environment) (the_url : string)
           (api_key : option string) : option string :=
  let api_key :=
    if startswith the_url "https://civitai.com"
    then py_or api_key (environ env !! "CIVITAI_TOKEN") else api_key in
  let api_key :=
    if startswith the_url "https://huggingface.co"
    then py_or api_key (environ env !! "HUGGINGFACE_TOKEN") else api_key in
  api_key.

(** [str(v)] inside an f-string, for a value that is [None] or a [str]. *)
Definition fmt (v : option string) : string :=
  match v with
  | Some s => s
  | None => "None"
  end.

(** [headers = None], or the [Authorization] header when [api_key] is
    truthy. *)
Definition auth_headers (api_key : option string)
  : M (option (gmap string string)) :=
  if truthy_opt api_key then
    exec log INFO "Using provided API key" ;;
    ret (Some {[ "Authorization" := "Bearer " +:+ fmt api_key ]})
  else ret None.

(** The pattern of [re.search]: the word [filename=], an optional double
    quote, group 1 made of one or more characters other than the double
    quote, an optional double quote. *)
Definition filename_tail : regex :=
  RSeq (ROpt (RChar dquote))
    (RSeq (RGroup (RPlusNot dquote)) (ROpt (RChar dquote))).

Definition filename_re : regex := RLit "filename=" filename_tail.

(** The file name taken from the [Content-Disposition] header: [None]
    when the header is missing or empty or the pattern is not found in
    it, else group 1 of the match, stripped. *)
Definition derive_filename (r : response) : outcome (option string) :=
  match content_disposition r with
  | Some cd =>
      if truthy cd then
        match re_search filename_re cd with
        | Some (Some g) => Returned (Some (strip g))
        | Some None =>
            Raised (Exn AttributeError
                      "'NoneType' object has no attribute 'strip'")
        | None => Returned None
        end
      else Returned None
  | None => Returned None
  end.

(** The [for data in response.iter_content(block_size)] loop. *)
Fixpoint write_chunks (env : environment) (path : string)
         (chunks : list string) : M unit :=
  match chunks with
  | [] => ret tt
  | data :: chunks' =>
      exec emit (EProgressUpdate (Z.of_nat (String.length data))) ;;
      exec write env path data ;;
      write_chunks env path chunks'
  end.

(** The body of the [try] block up to [progress_bar.close()]. *)
Definition stream_to_file (env : environment) (r : response)
           (path : string) (download_chunks : option Z) : M unit :=
  total_size <~ lift (match content_length r with
                      | Some s => py_int s
                      | None => Returned 0
                      end) ;;
  block_size <~ lift (match download_chunks with
                      | Some n => Returned (n * 1024)
                      | None =>
                          Raised (Exn TypeError
                            ("unsupported operand type(s) for *: "
                             +:+ "'NoneType' and 'int'"))
                      end) ;;
  exec tqdm_new env total_size ;;
  exec open_wb env path ;;
  exec emit (EIterContent block_size) ;;
  exec write_chunks env path (fst (iter_content r block_size)) ;;
  exec (match snd (iter_content r block_size) with
        | Some e => raise e
        | None => ret tt
        end) ;;
  emit EProgressClose.

(** *** The three nodes *)

Section Loaders.
Context `{Host}.
Variable env : environment.
Variable NODE_CONFIG : gmap string (list entry).

(** [OnDemandLoraLoader.download_lora]. *)
Definition download_lora (model : Model) (lora_name : string)
           (strength_model strength_clip : Strength) (clip : option Clip)
           (api_key : option string) (download_chunks : option Z)
  : M (Model * option Clip) :=
  loras_models_dir <~ lift (os_path_join (models_dir env) (Some "loras")) ;;
  exec emit (EMakedirs loras_models_dir) ;;
  records <~ getitem NODE_CONFIG "loras" ;;
  let lora_url := find_url records lora_name in
  if negb (truthy_opt lora_url) then
    exec log ERROR ("Lora URL not found for name: " +:+ lora_name) ;;
    ret (model, clip)
  else
    (* from here on [lora_url] is a non-empty [str] *)
    let lora_url := fmt lora_url in
    let api_key := select_api_key env lora_url api_key in
    headers <~ auth_headers api_key ;;
    exec emit (EGet lora_url headers) ;;
    response <~ lift (requests_get env lora_url headers) ;;
    exec raise_for_status response ;;
    lora_filename <~ lift (derive_filename response) ;;
    lora_filepath <~ lift (os_path_join loras_models_dir lora_filename) ;;
    present <~ path_exists env lora_filepath ;;
    early <~
      (if present then
         exec log INFO
           ("LORA file '" +:+ fmt lora_filename +:+ "' already exists at '"
            +:+ lora_filepath +:+ "'. Skipping download.") ;;
         ret None
       else
         exec log INFO
           ("Downloading LORA '" +:+ fmt lora_filename +:+ "' from '"
            +:+ lora_url +:+ "' to '" +:+ lora_filepath +:+ "'") ;;
         try_except
           (exec stream_to_file env response lora_filepath download_chunks ;;
            exec log INFO
              ("Successfully downloaded '" +:+ lora_name +:+ "'.") ;;
            ret None)
           (fun e =>
              if is_RequestException e then
                exec log ERROR
                  ("Error downloading LORA '" +:+ lora_name +:+ "': "
                   +:+ exn_msg e) ;;
                ret (Some (model, clip))
              else if is_Exception e then
                exec log ERROR
                  ("An unexpected error occurred during download of '"
                   +:+ lora_name +:+ "': " +:+ exn_msg e) ;;
                ret (Some (model, clip))
              else raise e)) ;;
    match early with
    | Some unchanged => ret unchanged
    | None =>
        disk <~ get_files ;;
        lift (load_lora disk model clip lora_filename
                strength_model strength_clip)
    end.

(** [OnDemandUNETLoader.download_unet]; the result is [None] or what
    [load_unet] returns. *)
Definition download_unet (unet_name : string) (weight_dtype : string)
           (api_key : option string) (download_chunks : option Z)
  : M (option UnetOut) :=
  diffusion_models_dir <~
    lift (os_path_join (models_dir env) (Some "diffusion_models")) ;;
  exec emit (EMakedirs diffusion_models_dir) ;;
  records <~ getitem NODE_CONFIG "diffusion_models" ;;
  let model_url := find_url records unet_name in
  if negb (truthy_opt model_url) then
    exec log ERROR ("Model URL not found for name: " +:+ unet_name) ;;
    ret None
  else
    (* from here on [model_url] is a non-empty [str] *)
    let model_url := fmt model_url in
    let api_key := select_api_key env model_url api_key in
    headers <~ auth_headers api_key ;;
    exec emit (EGet model_url headers) ;;
    response <~ lift (requests_get env model_url headers) ;;
    exec raise_for_status response ;;
    model_filename <~ lift (derive_filename response) ;;
    model_filepath <~ lift (os_path_join diffusion_models_dir model_filename) ;;
    present <~ path_exists env model_filepath ;;
    early <~
      (if present then
         exec log INFO
           ("Model file '" +:+ fmt model_filename +:+ "' already exists at '"
            +:+ model_filepath +:+ "'. Skipping download.") ;;
         ret false
       else
         exec log INFO
           ("Downloading Model '" +:+ fmt model_filename +:+ "' from '"
            +:+ model_url +:+ "' to '" +:+ model_filepath +:+ "'") ;;
         try_except
           (exec stream_to_file env response model_filepath download_chunks ;;
            exec log INFO
              ("Successfully downloaded '" +:+ unet_name +:+ "'.") ;;
            ret false)
           (fun e =>
              if is_RequestException e then
                exec log ERROR
                  ("Error downloading Model '" +:+ unet_name +:+ "': "
                   +:+ exn_msg e) ;;
                ret true
              else if is_Exception e then
                exec log ERROR
                  ("An unexpected error occurred during download of '"
                   +:+ unet_name +:+ "': " +:+ exn_msg e) ;;
                ret true
              else raise e)) ;;
    if early : bool then ret None
    else
      disk <~ get_files ;;
      model_output <~ lift (load_unet disk model_filename weight_dtype) ;;
      ret (Some model_output).

(** [OnDemandCheckpointLoader.download_checkpoint]; the result is [None]
    or what [load_checkpoint] returns. *)
Definition download_checkpoint (ckpt_name : string)
           (api_key : option string) (download_chunks : option Z)
  : M (option CkptOut) :=
  checkpoint_models_dir <~
    lift (os_path_join (models_dir env) (Some "checkpoints")) ;;
  exec emit (EMakedirs checkpoint_models_dir) ;;
  records <~ getitem NODE_CONFIG "checkpoints" ;;
  let model_url := find_url records ckpt_name in
  if negb (truthy_opt model_url) then
    exec log ERROR ("Model URL not found for name: " +:+ ckpt_name) ;;
    ret None
  else
    (* from here on [model_url] is a non-empty [str] *)
    let model_url := fmt model_url in
    let api_key := select_api_key env model_url api_key in
    headers <~ auth_headers api_key ;;
    exec emit (EGet model_url headers) ;;
    response <~ lift (requests_get env model_url headers) ;;
    exec raise_for_status response ;;
    model_filename <~ lift (derive_filename response) ;;
    model_filepath <~
      lift (os_path_join checkpoint_models_dir model_filename) ;;
    present <~ path_exists env model_filepath ;;
    early <~
      (if present then
         exec log INFO
           ("Checkpoint file '" +:+ fmt model_filename +:+
            "' already exists at '" +:+ model_filepath +:+
            "'. Skipping download.") ;;
         ret false
       else
         exec log INFO
           ("Downloading checkpoint '" +:+ fmt model_filename +:+ "' from '"
            +:+ model_url +:+ "' to '" +:+ model_filepath +:+ "'") ;;
         try_except
           (exec stream_to_file env response model_filepath download_chunks ;;
            exec log INFO
              ("Successfully downloaded checkpoint '" +:+ ckpt_name +:+ "'.") ;;
            ret false)
           (fun e =>
              if is_RequestException e then
                exec log ERROR
                  ("Error downloading checkpoint '" +:+ ckpt_name +:+ "': "
                   +:+ exn_msg e) ;;
                ret true
              else if is_Exception e then
                exec log ERROR
                  ("An unexpected error occurred during download of '"
                   +:+ ckpt_name +:+ "': " +:+ exn_msg e) ;;
                ret true
              else raise e)) ;;
    if early : bool then ret None
    else
      disk <~ get_files ;;
      out <~ lift (load_checkpoint disk model_filename) ;;
      ret (Some out).

End Loaders.

End Nodes.

(** ** Observations on a run *)
Module Obs.
Import Py Effects Nodes.

Definition is_stream (e : event) : bool :=
  match e with EIterContent _ => true | _ => false end.

Definition is_open (e : event) : bool :=
  match e with EOpen _ => true | _ => false end.

Definition is_error_log (e : event) : bool :=
  match e with ELog ERROR _ => true | _ => false end.

(** The number of events of a kind in a trace. *)
Fixpoint count (p : event -> bool) (t : list event) : nat :=
  match t with
  | [] => 0%nat
  | e :: t' => ((if p e then 1 else 0) + count p t')%nat
  end.

(** The [requests.get] calls in a trace: url and headers. *)
Fixpoint requests (t : list event)
  : list (string * option (gmap string string)) :=
  match t with
  | [] => []
  | EGet u h :: t' => (u, h) :: requests t'
  | _ :: t' => requests t'
  end.

(** The number of [requests.get] calls in a trace. *)
Definition gets (t : list event) : nat := length (requests t).

(** The number of response bodies read ([iter_content] loops started). *)
Definition streams (t : list event) : nat := count is_stream t.

(** The number of files opened for writing. *)
Definition opens (t : list event) : nat := count is_open t.


(** The [headers] argument of the request for a selected key. *)
Definition bearer_headers (api_key : option string)
  : option (gmap string string) :=
  if truthy_opt api_key
  then Some {[ "Authorization" := "Bearer " +:+ fmt api_key ]}
  else None.

(** What selecting the key logs. *)
Definition auth_log (api_key : option string) : list event :=
  if truthy_opt api_key then [ELog INFO "Using provided API key"] else [].

(** The directory of a category under the models directory. *)
Definition category_dir (env : environment) (category : string) : string :=
  if negb (truthy (models_dir env)) || ends_with_slash (models_dir env)
  then models_dir env +:+ category
  else models_dir env +:+ "/" +:+ category.

(** The destination of a file name in a directory, as [os.path.join]
    builds it. *)
Definition dest (dir filename : string) : string :=
  if startswith filename "/" then filename
  else if negb (truthy dir) || ends_with_slash dir then dir +:+ filename
  else dir +:+ "/" +:+ filename.

(** The effects of a node up to and including its request. *)
Definition request_trace (env : environment) (category the_url : string)
           (api_key : option string) : list event :=
  [EMakedirs (category_dir env category)]
  ++ auth_log (select_api_key env the_url api_key)
  ++ [EGet the_url (bearer_headers (select_api_key env the_url api_key))].

(** A status that [raise_for_status] rejects. *)
Definition bad_status (r : response) : Prop :=
  400 <= status_code r < 600.

(** A string without a double quote. *)
Fixpoint quote_free (s : string) : bool :=
  match s with
  | EmptyString => true
  | String c s' => negb (Ascii.eqb c dquote) && quote_free s'
  end.

(** A continuation of the matcher that always succeeds with a captured
    group. *)
Definition captures (k : string -> option (option string)) : Prop :=
  forall s, exists g, k s = Some (Some g).

(** The answer of [os.path.exists(path)] in a world. *)
Definition exists_at (env : environment) (w : world) (path : string) : bool :=
  is_dir env path || bool_decide (is_Some (files w !! path)).

(** The world with more effects recorded. *)
Definition record (w : world) (t : list event) : world :=
  World (files w) (trace w ++ t).

(** The chunks of a body, joined in order. *)
Fixpoint joined (chunks : list string) : string :=
  match chunks with
  | [] => EmptyString
  | data :: chunks' => data +:+ joined chunks'
  end.

(** What writing the chunks records. *)
Fixpoint chunk_events (path : string) (chunks : list string) : list event :=
  match chunks with
  | [] => []
  | data :: chunks' =>
      EProgressUpdate (Z.of_nat (String.length data)) :: EWrite path data
      :: chunk_events path chunks'
  end.

(** The content length the progress bar is given. *)
Definition total_size (r : response) : outcome Z :=
  match content_length r with
  | Some s => py_int s
  | None => Returned 0
  end.

(** A content length that [int] accepts and that the progress bar is
    created with. *)
Definition sized (env : environment) (r : response) : Prop :=
  exists total, total_size r = Returned total /\ tqdm_error env total = None.

(** A body that arrives whole and is written without an error: the
    [try] block gets past the content length and the progress bar, the
    file opens, every chunk is written and the stream ends without an
    exception. *)
Definition clean_body (env : environment) (r : response) (path : string)
           (n : Z) : Prop :=
  sized env r
  /\ open_error env path = None
  /\ Forall (fun data => write_error env path data = None)
            (fst (iter_content r (n * 1024)))
  /\ snd (iter_content r (n * 1024)) = None.

(** What the LoRA node logs before it reads the body. *)
Definition lora_downloading (the_url : string) (filename : option string)
           (path : string) : event :=
  ELog INFO ("Downloading LORA '" +:+ fmt filename +:+ "' from '"
             +:+ the_url +:+ "' to '" +:+ path +:+ "'").

(** What the LoRA node logs when the destination exists. *)
Definition lora_skipping (filename : option string) (path : string) : event :=
  ELog INFO ("LORA file '" +:+ fmt filename +:+ "' already exists at '"
             +:+ path +:+ "'. Skipping download.").

(** What the LoRA node logs for an exception caught in the [try] block. *)
Definition lora_failure (lora_name : string) (e : exn) : event :=
  if is_RequestException e
  then ELog ERROR ("Error downloading LORA '" +:+ lora_name +:+ "': "
                   +:+ exn_msg e)
  else ELog ERROR ("An unexpected error occurred during download of '"
                   +:+ lora_name +:+ "': " +:+ exn_msg e).

End Obs.

(** ** Sample inputs *)
Module Sample.
Import Py Effects Nodes Obs.

(** A host whose loaders tag what they are given. *)
#[export] Instance host : Host := {|
  Model := nat;
  Clip := nat;
  Strength := Z;
  UnetOut := nat;
  CkptOut := nat;
  load_lora := fun _ m c _ _ _ => Returned (S m, c);
  load_unet := fun _ _ _ => Returned 7%nat;
  load_checkpoint := fun _ _ => Returned 9%nat
|}.

(** [attachment; filename=] followed by [foo.safetensors] in double
    quotes. *)
Definition cd_foo : string :=
  "attachment; filename="
  +:+ String dquote ("foo.safetensors" +:+ String dquote EmptyString).

Definition loras : list entry :=
  [ Entry "detail" "https://civitai.com/api/download/1";
    Entry "style" "https://huggingface.co/u/r/style.bin";
    Entry "detail" "https://example.org/other" ].

Definition unets : list entry := [ Entry "flux" "https://huggingface.co/f" ].

Definition ckpts : list entry :=
  [ Entry "sdxl" "https://civitai.com/api/download/2" ].

Definition table : gmap string (list entry) :=
  {[ "loras" := loras; "diffusion_models" := unets; "checkpoints" := ckpts ]}.

(** A server that answers every request with the status [st], the header
    value [cd] and a two-chunk body followed by [err]. *)
Definition server (st : Z) (cd : option string) (err : option exn)
  : string -> option (gmap string string) -> outcome response :=
  fun _ _ =>
    Returned (Response st cd (Some "6") (fun _ => (["abc"; "def"], err))).

(** The progress bar of the sample environments: its status line adds
    0.5 to a total that is not zero, and a total that rounds to 2^1024 or
    more is beyond the range of a float. *)
Definition tqdm_float (total : Z) : option exn :=
  if Z.shiftl 1 1024 - Z.shiftl 1 970 <=? Z.abs total
  then Some (Exn OverflowError "int too large to convert to float")
  else None.

Definition env_of (tokens : gmap string string)
           (srv : string -> option (gmap string string) -> outcome response)
  : environment :=
  Environment tokens "/plugin" "/models" (fun _ => false) srv
    (fun _ => None) (fun _ _ => None) tqdm_float.

Definition tokens : gmap string string :=
  {[ "CIVITAI_TOKEN" := "civ-env"; "HUGGINGFACE_TOKEN" := "hf-env" ]}.

Definition env_ok : environment :=
  env_of tokens (server 200 (Some cd_foo) None).

Definition env_404 : environment :=
  env_of tokens (server 404 (Some cd_foo) None).

Definition env_drop : environment :=
  env_of tokens
    (server 200 (Some cd_foo)
       (Some (Exn ChunkedEncodingError "Connection broken"))).

Definition empty_world : world := World ∅ [].

Definition cached_world : world :=
  World {[ "/models/loras/foo.safetensors" := "old" ]} [].

(** A [json.load] that rejects every text. *)
Definition json_reject : string -> outcome (gmap string (list entry)) :=
  fun _ => Raised (Exn JSONDecodeError "Expecting value").

End Sample.

(** ** Observations on the other nodes and on the body *)
Module ObsMore.
Import Py Effects Nodes Obs.

(** The result of a node that returns what its loader returns, or
    [None]: the loader's exception passes through. *)
Definition some_of {A : Type} (o : outcome A) : outcome (option A) :=
  match o with
  | Returned a => Returned (Some a)
  | Raised e => Raised e
  end.

(** The bytes the progress bar has been advanced by. *)
Fixpoint progress (t : list event) : Z :=
  match t with
  | [] => 0
  | EProgressUpdate n :: t' => n + progress t'
  | _ :: t' => progress t'
  end.

(** What the [try] block records when the body arrives whole. *)
Definition body_events (path : string) (total block_size : Z)
           (chunks : list string) : list event :=
  EProgressNew total :: EOpen path :: EIterContent block_size
  :: chunk_events path chunks.

(** A body that breaks off with [e] after its chunks were written. *)
Definition broken_body (env : environment) (r : response) (path : string)
           (n : Z) (e : exn) : Prop :=
  sized env r
  /\ open_error env path = None
  /\ Forall (fun data => write_error env path data = None)
            (fst (iter_content r (n * 1024)))
  /\ snd (iter_content r (n * 1024)) = Some e.

(** The first and the last character of a string. *)
Definition head_char (s : string) : option ascii :=
  match s with
  | EmptyString => None
  | String c _ => Some c
  end.

Fixpoint last_char (s : string) : option ascii :=
  match s with
  | EmptyString => None
  | String c EmptyString => Some c
  | String _ s' => last_char s'
  end.

(** A string that neither starts nor ends with white space. *)
Definition stripped (s : string) : Prop :=
  (forall c, head_char s = Some c -> isspace c = false)
  /\ (forall c, last_char s = Some c -> isspace c = false).

(** What the pattern asks of the text after the word [filename=]: at
    most one double quote, then the text [g] of group 1, which is not
    empty, holds no double quote and runs up to the next double quote or
    to the end. *)
Definition tail_match (s g : string) : Prop :=
  exists q post,
    s = q +:+ g +:+ post
    /\ (q = EmptyString \/ q = String dquote EmptyString)
    /\ g <> EmptyString
    /\ quote_free g = true
    /\ (post = EmptyString \/ exists t, post = String dquote t).

(** The pattern matches in the header [cd] right after [pre], with [g]
    as group 1. *)
Definition match_at (cd pre g : string) : Prop :=
  exists s, cd = pre +:+ "filename=" +:+ s /\ tail_match s g.

(** [g] is group 1 of the leftmost match of the pattern in [cd]. *)
Definition first_named (cd g : string) : Prop :=
  exists pre,
    match_at cd pre g
    /\ forall pre' g',
        match_at cd pre' g' -> (String.length pre <= String.length pre')%nat.

(** A captured group: some text, not empty, without a double quote. *)
Definition group_shape (x : option string) : Prop :=
  exists t, x = Some t /\ quote_free t = true /\ t <> EmptyString.

(** What the UNET node logs. *)
Definition unet_downloading (the_url : string) (filename : option string)
           (path : string) : event :=
  ELog INFO ("Downloading Model '" +:+ fmt filename +:+ "' from '"
             +:+ the_url +:+ "' to '" +:+ path +:+ "'").

Definition unet_skipping (filename : option string) (path : string) : event :=
  ELog INFO ("Model file '" +:+ fmt filename +:+ "' already exists at '"
             +:+ path +:+ "'. Skipping download.").

Definition unet_success (unet_name : string) : event :=
  ELog INFO ("Successfully downloaded '" +:+ unet_name +:+ "'.").

Definition unet_failure (unet_name : string) (e : exn) : event :=
  if is_RequestException e
  then ELog ERROR ("Error downloading Model '" +:+ unet_name +:+ "': "
                   +:+ exn_msg e)
  else ELog ERROR ("An unexpected error occurred during download of '"
                   +:+ unet_name +:+ "': " +:+ exn_msg e).

(** What the checkpoint node logs. *)
Definition ckpt_downloading (the_url : string) (filename : option string)
           (path : string) : event :=
  ELog INFO ("Downloading checkpoint '" +:+ fmt filename +:+ "' from '"
             +:+ the_url +:+ "' to '" +:+ path +:+ "'").

Definition ckpt_skipping (filename : option string) (path : string) : event :=
  ELog INFO ("Checkpoint file '" +:+ fmt filename +:+ "' already exists at '"
             +:+ path +:+ "'. Skipping download.").

Definition ckpt_success (ckpt_name : string) : event :=
  ELog INFO ("Successfully downloaded checkpoint '" +:+ ckpt_name +:+ "'.").

Definition ckpt_failure (ckpt_name : string) (e : exn) : event :=
  if is_RequestException e
  then ELog ERROR ("Error downloading checkpoint '" +:+ ckpt_name +:+ "': "
                   +:+ exn_msg e)
  else ELog ERROR ("An unexpected error occurred during download of '"
                   +:+ ckpt_name +:+ "': " +:+ exn_msg e).

End ObsMore.

(** ** More sample inputs *)
Module SampleMore.
Import Py Effects Nodes Obs ObsMore.

(** A host whose loaders report the file they are asked for and what is
    on disk under the three destinations. *)
Definition disk_view (disk : gmap string string) : list (option string) :=
  [ disk !! "/models/loras/foo.safetensors";
    disk !! "/models/diffusion_models/foo.safetensors";
    disk !! "/models/checkpoints/foo.safetensors" ].

#[export] Instance host_view : Host := {|
  Model := nat;
  Clip := nat;
  Strength := Z;
  UnetOut := option string * list (option string);
  CkptOut := option string * list (option string);
  load_lora := fun _ m c _ _ _ => Returned (S m, c);
  load_unet := fun disk f _ => Returned (f, disk_view disk);
  load_checkpoint := fun disk f => Returned (f, disk_view disk)
|}.

(** One record under the same name in each category. *)
Definition one : list entry := [ Entry "m" "https://example.org/m" ].

Definition table_one : gmap string (list entry) :=
  {[ "loras" := one; "diffusion_models" := one; "checkpoints" := one ]}.

(** An unreachable server. *)
Definition env_down : environment :=
  Sample.env_of Sample.tokens
    (fun _ _ => Raised (Exn ConnectionError "Connection refused")).

(** A file name that is an absolute path. *)
Definition cd_abs : string :=
  "attachment; filename="
  +:+ String dquote ("/tmp/x.bin" +:+ String dquote EmptyString).

Definition env_abs : environment :=
  Sample.env_of Sample.tokens (Sample.server 200 (Some cd_abs) None).


(** A response whose content length is not a number. *)
Definition env_badlen : environment :=
  Sample.env_of Sample.tokens
    (fun _ _ =>
       Returned (Response 200 (Some Sample.cd_foo) (Some "many")
                   (fun _ => (["abc"; "def"], None)))).

(** A content length of 329 digits, beyond the range of a float. *)
Fixpoint zeros (n : nat) : string :=
  match n with
  | O => EmptyString
  | S n' => String "0" (zeros n')
  end.

Definition huge : string := String "1" (zeros 328).

Definition env_huge : environment :=
  Sample.env_of Sample.tokens
    (fun _ _ =>
       Returned (Response 200 (Some Sample.cd_foo) (Some huge)
                   (fun _ => (["abc"; "def"], None)))).

(** A header in which the word [filename=] occurs twice, the first time
    followed by two double quotes. *)
Definition cd_twice : string :=
  "attachment; filename="
  +:+ String dquote (String dquote ("; filename=" +:+ String dquote
        ("x.bin" +:+ String dquote EmptyString))).

(** A download interrupted from the keyboard after two chunks. *)
Definition env_interrupt : environment :=
  Sample.env_of Sample.tokens
    (Sample.server 200 (Some Sample.cd_foo)
       (Some (Exn KeyboardInterrupt "interrupted"))).

(** The response of the sample servers. *)
Definition answer (cd : option string) (err : option exn) : response :=
  Response 200 cd (Some "6") (fun _ => (["abc"; "def"], err)).

(** A [json.load] that accepts every text as the sample table. *)
Definition json_accept : string -> outcome (gmap string (list entry)) :=
  fun _ => Returned Sample.table.

End SampleMore.

(** ** The file name pattern *)
Section Pattern.
Import Py Effects Nodes Obs.

Lemma star_not_captures (c : ascii) (s : string)
      (k : string -> option (option string)) :
  captures k -> exists g, star_not c s k = Some (Some g).
Proof.
  intros Hk. induction s as [|x s IH]; cbn.
  - apply Hk.
  - destruct (Ascii.eqb x c); [apply Hk|].
    destruct IH as [g ->]. eauto.
Qed.

Lemma group_then_quote_captures (s : string) (g : option string)
      (x : option string) :
  rmatch (RSeq (RGroup (RPlusNot dquote)) (ROpt (RChar dquote))) s g
    (fun _ g' => Some g') = Some x ->
  exists t, x = Some t.
Proof.
  cbn [rmatch]. destruct s as [|c s]; [discriminate|].
  destruct (Ascii.eqb c dquote); [discriminate|].
  intros Hm.
  destruct (star_not_captures dquote s
              (fun s'' =>
                 match
                   match s'' with
                   | String x0 s' =>
                       if Ascii.eqb x0 dquote
                       then Some (Some (substring 0
                              (String.length (String c s) - String.length s'')
                              (String c s)))
                       else None
                   | EmptyString => None
                   end
                 with
                 | Some x0 => Some x0
                 | None => Some (Some (substring 0
                              (String.length (String c s) - String.length s'')
                              (String c s)))
                 end)) as [t Ht].
  { intros s''. destruct s'' as [|y s'']; [eauto|].
    destruct (Ascii.eqb y dquote); eauto. }
  rewrite Ht in Hm. injection Hm as <-. eauto.
Qed.

Lemma rmatch_char_inv (c : ascii) (s : string) (g x : option string)
      (k : string -> option string -> option (option string)) :
  rmatch (RChar c) s g k = Some x -> exists s', k s' g = Some x.
Proof.
  cbn [rmatch]. destruct s as [|y s]; [discriminate|].
  destruct (Ascii.eqb y c); [eauto | discriminate].
Qed.

Lemma rmatch_opt_inv (r : regex) (s : string) (g x : option string)
      (k : string -> option string -> option (option string)) :
  rmatch (ROpt r) s g k = Some x ->
  rmatch r s g k = Some x \/ k s g = Some x.
Proof.
  cbn [rmatch]. destruct (rmatch r s g k); [intros [= <-]|]; auto.
Qed.

Lemma filename_tail_captures (s : string) (g x : option string) :
  rmatch filename_tail s g (fun _ g' => Some g') = Some x ->
  exists t, x = Some t.
Proof.
  unfold filename_tail.
  change (rmatch (RSeq (ROpt (RChar dquote))
                    (RSeq (RGroup (RPlusNot dquote)) (ROpt (RChar dquote))))
            s g (fun _ g' => Some g'))
    with (rmatch (ROpt (RChar dquote)) s g
            (fun s' g' =>
               rmatch (RSeq (RGroup (RPlusNot dquote)) (ROpt (RChar dquote)))
                 s' g' (fun _ g'' => Some g''))).
  intros Hm. apply rmatch_opt_inv in Hm as [Hm | Hm].
  - apply rmatch_char_inv in Hm as [s' Hm].
    eapply group_then_quote_captures, Hm.
  - eapply group_then_quote_captures, Hm.
Qed.

Lemma RLit_inv (w : string) (r : regex) (s : string) (g x : option string)
      (k : string -> option string -> option (option string)) :
  rmatch (RLit w r) s g k = Some x ->
  exists s', rmatch r s' g k = Some x.
Proof.
  revert s. induction w as [|c w IH]; intros s; cbn [RLit rmatch].
  - eauto.
  - destruct s as [|y s]; [discriminate|].
    destruct (Ascii.eqb y c); [apply IH | discriminate].
Qed.

(** Group 1 takes part in every match of the pattern. *)
Lemma re_search_group (s : string) (x : option string) :
  re_search filename_re s = Some x -> exists g, x = Some g.
Proof.
  induction s as [|c s IH]; cbn [re_search].
  - destruct (rmatch filename_re EmptyString None (fun _ g => Some g)) eqn:E;
      [|discriminate].
    intros [= <-]. apply RLit_inv in E as [s' E].
    eapply filename_tail_captures, E.
  - destruct (rmatch filename_re (String c s) None (fun _ g => Some g)) eqn:E;
      [|exact IH].
    intros [= <-]. apply RLit_inv in E as [s' E].
    eapply filename_tail_captures, E.
Qed.

(** The greedy run stops at the first double quote when what follows
    matches there. *)
Lemma star_not_to_quote {R : Type} (s rest : string)
      (k : string -> option R) (x : R) :
  quote_free s = true ->
  k (String dquote rest) = Some x ->
  star_not dquote (s +:+ String dquote rest) k = Some x.
Proof.
  intros Hs Hk. induction s as [|c s IH].
  - cbn. exact Hk.
  - cbn in Hs. apply andb_prop in Hs as [Hc Hs].
    apply negb_true_iff in Hc.
    change (String c s +:+ String dquote rest)
      with (String c (s +:+ String dquote rest)).
    cbn [star_not]. rewrite Hc. now rewrite IH.
Qed.

Lemma length_append (a b : string) :
  String.length (a +:+ b) = (String.length a + String.length b)%nat.
Proof.
  induction a as [|c a IH]; [reflexivity|].
  change (S (String.length (a +:+ b))
          = S (String.length a + String.length b)).
  now f_equal.
Qed.

Lemma substring_prefix (a b : string) :
  substring 0 (String.length (a +:+ b) - String.length b) (a +:+ b) = a.
Proof.
  rewrite length_append.
  replace (String.length a + String.length b - String.length b)%nat
    with (String.length a) by lia.
  induction a as [|c a IH].
  - change (EmptyString +:+ b) with b. now destruct b.
  - change (String c a +:+ b) with (String c (a +:+ b)).
    cbn [String.length substring]. now rewrite IH.
Qed.

(** The part of the pattern after the word, on a quoted stem. *)
Lemma filename_tail_quoted (stem rest : string) (g : option string) :
  quote_free stem = true ->
  stem <> EmptyString ->
  rmatch filename_tail (String dquote (stem +:+ String dquote rest)) g
    (fun _ g' => Some g')
  = Some (Some stem).
Proof.
  intros Hfree Hne. destruct stem as [|c stem]; [congruence|].
  cbn in Hfree. apply andb_prop in Hfree as [Hc Hfree].
  apply negb_true_iff in Hc.
  unfold filename_tail. cbn [rmatch].
  rewrite Ascii.eqb_refl.
  pose proof (substring_prefix (String c stem) (String dquote rest)) as Hsub.
  change (String c stem +:+ String dquote rest)
    with (String c (stem +:+ String dquote rest)) in Hsub |- *.
  cbv iota. rewrite Hc.
  erewrite star_not_to_quote; [reflexivity | assumption |].
  rewrite Ascii.eqb_refl. now rewrite Hsub.
Qed.

(** The header [attachment; filename=] with a stem between double
    quotes gives the stem, stripped. *)
Lemma derive_filename_quoted (r : response) (stem : string) :
  quote_free stem = true ->
  stem <> EmptyString ->
  content_disposition r
  = Some ("attachment; filename="
          +:+ String dquote (stem +:+ String dquote EmptyString)) ->
  derive_filename r = Returned (Some (strip stem)).
Proof.
  intros Hfree Hne Hcd. unfold derive_filename. rewrite Hcd.
  pose proof (filename_tail_quoted stem EmptyString None Hfree Hne) as Hm.
  set (quoted := String dquote (stem +:+ String dquote EmptyString)) in *.
  lazy [String.append]. cbn [truthy].
  cbn [re_search filename_re RLit rmatch Ascii.eqb Bool.eqb].
  rewrite Hm. reflexivity.
Qed.

(** Deriving the file name never raises. *)
Lemma derive_filename_total (r : response) :
  exists o, derive_filename r = Returned o.
Proof.
  unfold derive_filename. destruct (content_disposition r) as [cd|]; [|eauto].
  destruct (truthy cd); [|eauto].
  destruct (re_search filename_re cd) as [[g|]|] eqn:E; eauto.
  apply re_search_group in E as [g E]. discriminate.
Qed.


End Pattern.

(** ** The runs of the nodes, path by path *)
Section Runs.
Import Py Effects Nodes Obs.
Context `{Host}.
Variable env : environment.
Variable NODE_CONFIG : gmap string (list entry).

Lemma join_category (category : string) :
  startswith category "/" = false ->
  os_path_join (models_dir env) (Some category)
  = Returned (category_dir env category).
Proof. intros Hc. unfold os_path_join, category_dir. now rewrite Hc. Qed.

Lemma join_dest (dir filename : string) :
  os_path_join dir (Some filename) = Returned (dest dir filename).
Proof. reflexivity. Qed.

Lemma auth_headers_run (api_key : option string) (w : world) :
  auth_headers api_key w
  = (Returned (bearer_headers api_key), record w (auth_log api_key)).
Proof.
  unfold auth_headers, bearer_headers, auth_log, record.
  destruct (truthy_opt api_key); cbn.
  - reflexivity.
  - rewrite app_nil_r. now destruct w.
Qed.

Lemma record_record (w : world) (t1 t2 : list event) :
  record (record w t1) t2 = record w (t1 ++ t2).
Proof. unfold record; cbn. now rewrite <- app_assoc. Qed.

Lemma emit_run (e : event) (w : world) :
  emit e w = (Returned tt, record w [e]).
Proof. reflexivity. Qed.


Lemma path_exists_run (path : string) (w : world) :
  path_exists env path w = (Returned (exists_at env w path), w).
Proof. reflexivity. Qed.

Lemma exists_at_record (w : world) (t : list event) (path : string) :
  exists_at env (record w t) path = exists_at env w path.
Proof. reflexivity. Qed.

Lemma raise_for_status_ok (r : response) (w : world) :
  ~ bad_status r -> raise_for_status r w = (Returned tt, w).
Proof.
  unfold bad_status, raise_for_status. intros Hs.
  destruct (400 <=? status_code r) eqn:E1;
    destruct (status_code r <? 500) eqn:E2;
    destruct (500 <=? status_code r) eqn:E3;
    destruct (status_code r <? 600) eqn:E4; cbn; try reflexivity;
    exfalso; apply Hs; lia.
Qed.

Lemma raise_for_status_bad (r : response) (w : world) :
  bad_status r ->
  exists msg, raise_for_status r w = (Raised (Exn HTTPError msg), w).
Proof.
  unfold bad_status, raise_for_status. intros Hs.
  destruct (400 <=? status_code r) eqn:E1;
    destruct (status_code r <? 500) eqn:E2;
    destruct (500 <=? status_code r) eqn:E3;
    destruct (status_code r <? 600) eqn:E4; cbn; eauto; lia.
Qed.

Lemma bad_status_dec (r : response) : {bad_status r} + {~ bad_status r}.
Proof.
  unfold bad_status.
  destruct (Z_le_dec 400 (status_code r)); [|right; lia].
  destruct (Z_lt_dec (status_code r) 600); [left | right]; lia.
Qed.

Lemma is_RequestException_Exception (e : exn) :
  is_RequestException e = true -> is_Exception e = true.
Proof. unfold is_RequestException, is_Exception. now destruct (exn_cls e). Qed.

(** *** The [try] block *)

Lemma append_assoc (a b c : string) : (a +:+ b) +:+ c = a +:+ (b +:+ c).
Proof.
  induction a as [|x a IH]; [reflexivity|].
  change (String x ((a +:+ b) +:+ c) = String x (a +:+ (b +:+ c))).
  now f_equal.
Qed.

Lemma append_empty (a : string) : a +:+ EmptyString = a.
Proof.
  induction a as [|x a IH]; [reflexivity|].
  change (String x (a +:+ EmptyString) = String x a). now f_equal.
Qed.

Lemma count_app (p : event -> bool) (t1 t2 : list event) :
  count p (t1 ++ t2) = (count p t1 + count p t2)%nat.
Proof. induction t1 as [|e t1 IH]; cbn; [reflexivity | rewrite IH; lia]. Qed.

Lemma count_chunk_events (p : event -> bool) (path : string)
      (chunks : list string) :
  (forall n, p (EProgressUpdate n) = false) ->
  (forall q d, p (EWrite q d) = false) ->
  count p (chunk_events path chunks) = 0%nat.
Proof.
  intros Hp Hw. induction chunks as [|d chunks IH]; cbn; [reflexivity|].
  now rewrite Hp, Hw, IH.
Qed.

Lemma requests_app (t1 t2 : list event) :
  requests (t1 ++ t2) = requests t1 ++ requests t2.
Proof.
  induction t1 as [|e t1 IH]; [reflexivity|].
  destruct e; cbn; rewrite ?IH; reflexivity.
Qed.

Lemma requests_chunk_events (path : string) (chunks : list string) :
  requests (chunk_events path chunks) = [].
Proof. induction chunks as [|d chunks IH]; [reflexivity | exact IH]. Qed.

Lemma requests_request_trace (category the_url : string)
      (api_key : option string) :
  requests (request_trace env category the_url api_key)
  = [(the_url, bearer_headers (select_api_key env the_url api_key))].
Proof.
  unfold request_trace, auth_log. cbn.
  now destruct (truthy_opt (select_api_key env the_url api_key)).
Qed.

Lemma count_request_trace (p : event -> bool) (category the_url : string)
      (key : option string) :
  (forall d, p (EMakedirs d) = false) ->
  (forall l m, p (ELog l m) = false) ->
  (forall v h, p (EGet v h) = false) ->
  count p (request_trace env category the_url key) = 0%nat.
Proof.
  intros Hd Hl Hg. unfold request_trace, auth_log.
  destruct (truthy_opt (select_api_key env the_url key)); cbn;
    now rewrite ?Hd, ?Hl, ?Hg.
Qed.

(** The loop sends no request. *)
Lemma write_chunks_requests (path : string) (chunks : list string)
      (w : world) :
  requests (trace (snd (write_chunks env path chunks w))) = requests (trace w).
Proof.
  revert w. induction chunks as [|d chunks IH]; intros w; [reflexivity|].
  cbn [write_chunks]. unfold bind, write. rewrite emit_run.
  destruct (write_error env path d) as [e|].
  - cbn. rewrite requests_app, app_nil_r. reflexivity.
  - unfold bind. rewrite emit_run. cbn [put_file]. rewrite IH. cbn.
    rewrite !requests_app, !app_nil_r. reflexivity.
Qed.

(** The [try] block sends no request. *)
Lemma stream_to_file_requests (r : response) (path : string)
      (chunks : option Z) (w : world) :
  requests (trace (snd (stream_to_file env r path chunks w)))
  = requests (trace w).
Proof.
  unfold stream_to_file, bind, lift. fold (total_size r).
  destruct (total_size r) as [total|]; [|reflexivity].
  destruct chunks as [n|]; [|reflexivity].
  unfold tqdm_new. destruct (tqdm_error env total); [reflexivity|].
  rewrite !emit_run. unfold open_wb.
  destruct (open_error env path).
  { cbn. now rewrite requests_app, app_nil_r. }
  unfold bind. rewrite !emit_run. cbn [put_file]. rewrite !emit_run.
  match goal with
  | |- context [write_chunks env path ?c ?wa] =>
      pose proof (write_chunks_requests path c wa) as Hreq;
      destruct (write_chunks env path c wa) as [[[]|ea] wa']
  end; cbn [snd] in Hreq.
  - destruct (snd (iter_content r (n * 1024))); cbn [raise ret snd];
      rewrite ?emit_run; cbn [snd record trace];
      rewrite ?requests_app, Hreq; cbn;
      rewrite !requests_app; cbn; rewrite !app_nil_r; reflexivity.
  - cbn [snd]. rewrite Hreq. cbn.
    rewrite !requests_app. cbn. rewrite !app_nil_r. reflexivity.
Qed.

(** Whether the loop raises does not depend on the world it runs in. *)
Lemma write_chunks_outcome (path : string) (chunks : list string)
      (w1 w2 : world) :
  fst (write_chunks env path chunks w1) = fst (write_chunks env path chunks w2).
Proof.
  revert w1 w2. induction chunks as [|d chunks IH]; intros w1 w2.
  - reflexivity.
  - cbn [write_chunks]. unfold bind, write. rewrite !emit_run.
    destruct (write_error env path d) as [e|]; [reflexivity|].
    unfold bind. rewrite !emit_run. cbn [put_file]. apply IH.
Qed.

Lemma write_chunks_clean (path : string) (chunks : list string) (w : world)
      (content : string) :
  Forall (fun data => write_error env path data = None) chunks ->
  files w !! path = Some content ->
  write_chunks env path chunks w
  = (Returned tt,
     World (<[path := content +:+ joined chunks]> (files w))
           (trace w ++ chunk_events path chunks)).
Proof.
  intros Hclean. revert w content.
  induction Hclean as [|d chunks Hd _ IH]; intros w content Hw.
  - cbn. rewrite append_empty, insert_id by assumption.
    rewrite app_nil_r. now destruct w.
  - cbn [write_chunks joined chunk_events]. unfold bind, write.
    rewrite emit_run, Hd. unfold bind. rewrite emit_run.
    cbn [put_file record files trace]. rewrite Hw. cbn [default].
    rewrite (IH _ (content +:+ d)) by (cbn; apply lookup_insert_eq).
    cbn [files trace]. rewrite insert_insert_eq, append_assoc.
    rewrite <- !app_assoc. reflexivity.
Qed.

Lemma stream_to_file_outcome (r : response) (path : string)
      (chunks : option Z) (w1 w2 : world) :
  fst (stream_to_file env r path chunks w1)
  = fst (stream_to_file env r path chunks w2).
Proof.
  unfold stream_to_file, bind, lift. fold (total_size r).
  destruct (total_size r) as [total|]; [|reflexivity].
  destruct chunks as [n|]; [|reflexivity].
  unfold tqdm_new. destruct (tqdm_error env total); [reflexivity|].
  rewrite !emit_run. unfold open_wb.
  destruct (open_error env path); [reflexivity|].
  unfold bind. rewrite !emit_run. cbn [put_file]. rewrite !emit_run.
  match goal with
  | |- fst (let (_, _) := write_chunks _ _ ?c ?wa in _)
       = fst (let (_, _) := write_chunks _ _ _ ?wb in _) =>
      pose proof (write_chunks_outcome path c wa wb) as Hout;
      destruct (write_chunks env path c wa) as [[[]|ea] wa'];
      destruct (write_chunks env path c wb) as [[[]|eb] wb'];
      cbn [fst] in Hout; try discriminate
  end.
  - destruct (snd (iter_content r (n * 1024))); reflexivity.
  - cbn [fst]. congruence.
Qed.

(** A clean body ends up on disk, after one request-free read. *)
Lemma stream_to_file_clean (r : response) (path : string) (n : Z)
      (w : world) :
  clean_body env r path n ->
  exists w2,
    stream_to_file env r path (Some n) w = (Returned tt, w2)
    /\ files w2 = <[path := joined (fst (iter_content r (n * 1024)))]> (files w)
    /\ gets (trace w2) = gets (trace w)
    /\ streams (trace w2) = S (streams (trace w))
    /\ opens (trace w2) = S (opens (trace w)).
Proof.
  intros ((total & Htotal & Hbar) & Hopen & Hwrite & Hiter).
  unfold stream_to_file, bind, lift. fold (total_size r). rewrite Htotal.
  unfold tqdm_new. rewrite Hbar, emit_run.
  unfold open_wb. rewrite Hopen. unfold bind.
  rewrite !emit_run. cbn [put_file record files trace]. rewrite emit_run.
  rewrite (write_chunks_clean _ _ _ EmptyString Hwrite)
    by (cbn; apply lookup_insert_eq).
  rewrite Hiter. cbn [ret emit record files trace].
  eexists. split; [reflexivity|]. cbn [files trace].
  rewrite insert_insert_eq. split; [reflexivity|].
  split.
  { unfold gets. rewrite !requests_app, requests_chunk_events. cbn.
    now rewrite !app_nil_r. }
  unfold streams, opens. rewrite !count_app.
  rewrite !count_chunk_events by reflexivity. cbn. split; lia.
Qed.

(** What [int] raises is a [ValueError]. *)
Lemma py_int_raises (s : string) (e : exn) :
  py_int s = Raised e -> exn_cls e = ValueError.
Proof.
  unfold py_int. intros Hraise.
  repeat case_match; try discriminate; injection Hraise as <-; reflexivity.
Qed.

(** Before the file is opened, the [try] block fails on a block size
    that is [None], on a content length that is not a number and on a
    progress bar that cannot be created, and leaves the world as it
    was. *)
Lemma stream_to_file_early (r : response) (path : string)
      (chunks : option Z) (w : world) :
  chunks = None
  \/ (exists e, total_size r = Raised e)
  \/ (exists total e,
        total_size r = Returned total /\ tqdm_error env total = Some e
        /\ is_Exception e = true) ->
  exists e,
    stream_to_file env r path chunks w = (Raised e, w)
    /\ is_Exception e = true.
Proof.
  intros Hearly. unfold stream_to_file, bind, lift. fold (total_size r).
  destruct (total_size r) as [total|e] eqn:Htotal.
  - destruct chunks as [n|]; [|eexists; split; reflexivity].
    destruct Hearly as [Hnone | [[e He] | (total' & e & Ht & Hbar & Hexn)]];
      [discriminate..|].
    injection Ht as <-. exists e. unfold tqdm_new. rewrite Hbar. auto.
  - exists e. split; [reflexivity|].
    unfold total_size in Htotal.
    destruct (content_length r) as [s|]; [|discriminate].
    apply py_int_raises in Htotal. unfold is_Exception. now rewrite Htotal.
Qed.

(** The steps every run of [download_lora] shares once the name has
    resolved to the non-empty [u]. *)
Ltac lora_request Hcfg Hfind Hu :=
  unfold download_lora, getitem, bind;
  rewrite join_category by reflexivity; cbn [lift];
  rewrite emit_run, Hcfg; cbn [ret];
  rewrite Hfind; cbn [truthy_opt negb fmt]; rewrite Hu; cbn [negb];
  rewrite auth_headers_run, emit_run, !record_record.

Section Resolved.
Variables (model : Model) (lora_name : string) (sm sc : Strength)
          (clip : option Clip) (api_key : option string)
          (chunks : option Z) (records : list entry) (u : string).
Hypothesis Hcfg : NODE_CONFIG !! "loras" = Some records.
Hypothesis Hfind : find_url records lora_name = Some u.
Hypothesis Hu : truthy u = true.

Local Abbreviation run :=
  (download_lora env NODE_CONFIG model lora_name sm sc clip api_key chunks).
Local Abbreviation requested w :=
  (record w (request_trace env "loras" u api_key)).
Local Abbreviation hdrs := (bearer_headers (select_api_key env u api_key)).
Local Abbreviation dir := (category_dir env "loras").

Lemma download_lora_get_raises (w : world) (e : exn) :
  requests_get env u hdrs = Raised e ->
  run w = (Raised e, requested w).
Proof.
  intros Hget. lora_request Hcfg Hfind Hu.
  rewrite Hget. reflexivity.
Qed.

Lemma download_lora_bad_status (w : world) (r : response) :
  requests_get env u hdrs = Returned r ->
  bad_status r ->
  exists msg, run w = (Raised (Exn HTTPError msg), requested w).
Proof.
  intros Hget Hbad.
  destruct (raise_for_status_bad r
              (record w (request_trace env "loras" u api_key)) Hbad)
    as [msg Hmsg].
  exists msg. lora_request Hcfg Hfind Hu.
  rewrite Hget. unfold request_trace in Hmsg. cbn [app] in Hmsg |- *.
  rewrite Hmsg. reflexivity.
Qed.

Lemma download_lora_no_filename (w : world) (r : response) :
  requests_get env u hdrs = Returned r ->
  ~ bad_status r ->
  derive_filename r = Returned None ->
  exists e, os_path_join dir None = Raised e /\ exn_cls e = TypeError
            /\ run w = (Raised e, requested w).
Proof.
  intros Hget Hok Hname.
  eexists. split; [reflexivity|]. split; [reflexivity|].
  lora_request Hcfg Hfind Hu.
  rewrite Hget, raise_for_status_ok by assumption. rewrite Hname.
  reflexivity.
Qed.

Lemma download_lora_cached (w : world) (r : response) (f : string) :
  requests_get env u hdrs = Returned r ->
  ~ bad_status r ->
  derive_filename r = Returned (Some f) ->
  exists_at env w (dest dir f) = true ->
  run w = (load_lora (files w) model clip (Some f) sm sc,
           record (requested w) [lora_skipping (Some f) (dest dir f)]).
Proof.
  intros Hget Hok Hname Hex.   lora_request Hcfg Hfind Hu.
  rewrite Hget, raise_for_status_ok by assumption. rewrite Hname.
  rewrite join_dest, path_exists_run, exists_at_record, Hex.
  unfold log. rewrite emit_run, !record_record. cbn [get_files lift].
  unfold request_trace, record. cbn [files trace].
  rewrite <- !app_assoc. reflexivity.
Qed.

(** The world in which the body is read. *)
Local Abbreviation fetching w f :=
  (record (requested w)
     [lora_downloading u (Some f%string) (dest dir f%string)]).

Lemma download_lora_fetched (w w2 : world) (r : response) (f : string) :
  requests_get env u hdrs = Returned r ->
  ~ bad_status r ->
  derive_filename r = Returned (Some f) ->
  exists_at env w (dest dir f) = false ->
  stream_to_file env r (dest dir f) chunks (fetching w f) = (Returned tt, w2) ->
  run w = (load_lora (files w2) model clip (Some f) sm sc,
           record w2 [ELog INFO ("Successfully downloaded '" +:+ lora_name
                                 +:+ "'.")]).
Proof.
  intros Hget Hok Hname Hex Hstream.   lora_request Hcfg Hfind Hu.
  rewrite Hget, raise_for_status_ok by assumption. rewrite Hname.
  rewrite join_dest, path_exists_run, exists_at_record, Hex.
  unfold log, try_except. rewrite emit_run, !record_record.
  unfold request_trace, lora_downloading in Hstream.
  rewrite !record_record in Hstream. rewrite <- !app_assoc in Hstream.
  cbn [app] in Hstream |- *. rewrite <- ?app_assoc. cbn [app].
  rewrite Hstream.
  rewrite emit_run. reflexivity.
Qed.

Lemma download_lora_caught (w w2 : world) (r : response) (f : string)
      (e : exn) :
  requests_get env u hdrs = Returned r ->
  ~ bad_status r ->
  derive_filename r = Returned (Some f) ->
  exists_at env w (dest dir f) = false ->
  stream_to_file env r (dest dir f) chunks (fetching w f) = (Raised e, w2) ->
  is_Exception e = true ->
  run w = (Returned (model, clip), record w2 [lora_failure lora_name e]).
Proof.
  intros Hget Hok Hname Hex Hstream Hexn.
    lora_request Hcfg Hfind Hu.
  rewrite Hget, raise_for_status_ok by assumption. rewrite Hname.
  rewrite join_dest, path_exists_run, exists_at_record, Hex.
  unfold log, try_except. rewrite emit_run, !record_record.
  unfold request_trace, lora_downloading in Hstream.
  rewrite !record_record in Hstream. rewrite <- !app_assoc in Hstream.
  cbn [app] in Hstream |- *. rewrite <- ?app_assoc. cbn [app].
  rewrite Hstream.
  unfold lora_failure. destruct (is_RequestException e).
  - rewrite emit_run. reflexivity.
  - rewrite Hexn, emit_run. reflexivity.
Qed.

Lemma download_lora_uncaught (w w2 : world) (r : response) (f : string)
      (e : exn) :
  requests_get env u hdrs = Returned r ->
  ~ bad_status r ->
  derive_filename r = Returned (Some f) ->
  exists_at env w (dest dir f) = false ->
  stream_to_file env r (dest dir f) chunks (fetching w f) = (Raised e, w2) ->
  is_Exception e = false ->
  run w = (Raised e, w2).
Proof.
  intros Hget Hok Hname Hex Hstream Hexn.
  assert (is_RequestException e = false) as Hreq.
  { destruct (is_RequestException e) eqn:E; [|reflexivity].
    apply is_RequestException_Exception in E. congruence. }
  lora_request Hcfg Hfind Hu.
  rewrite Hget, raise_for_status_ok by assumption. rewrite Hname.
  rewrite join_dest, path_exists_run, exists_at_record, Hex.
  unfold log, try_except. rewrite emit_run, !record_record.
  unfold request_trace, lora_downloading in Hstream.
  rewrite !record_record in Hstream. rewrite <- !app_assoc in Hstream.
  cbn [app] in Hstream |- *. rewrite <- ?app_assoc. cbn [app].
  rewrite Hstream, Hreq, Hexn. reflexivity.
Qed.

Lemma requests_requested (w : world) :
  requests (trace (requested w)) = requests (trace w) ++ [(u, hdrs)].
Proof.
  unfold record. cbn [trace]. now rewrite requests_app, requests_request_trace.
Qed.

Lemma requests_fetching (w : world) (f : string) :
  requests (trace (fetching w f)) = requests (trace w) ++ [(u, hdrs)].
Proof.
  unfold record. cbn [trace].
  rewrite !requests_app, requests_request_trace. cbn. now rewrite app_nil_r.
Qed.

(** Every run on a resolved name sends exactly one request: a GET of the
    resolved url with the headers of the selected key. *)
Lemma download_lora_requests (w : world) :
  requests (trace (snd (run w))) = requests (trace w) ++ [(u, hdrs)].
Proof.
  destruct (requests_get env u hdrs) as [r|e] eqn:Hget.
  2:{ rewrite (download_lora_get_raises w e Hget). apply requests_requested. }
  destruct (bad_status_dec r) as [Hbad|Hok].
  { destruct (download_lora_bad_status w r Hget Hbad) as [msg ->].
    apply requests_requested. }
  destruct (derive_filename_total r) as [[f|] Hname].
  2:{ destruct (download_lora_no_filename w r Hget Hok Hname)
        as (e & _ & _ & ->).
      apply requests_requested. }
  destruct (exists_at env w (dest dir f)) eqn:Hex.
  { rewrite (download_lora_cached w r f Hget Hok Hname Hex).
    cbn [snd]. unfold record at 1. cbn [trace].
    rewrite requests_app, requests_requested. cbn. now rewrite app_nil_r. }
  pose proof (stream_to_file_requests r (dest dir f) chunks (fetching w f))
    as Hquiet.
  rewrite requests_fetching in Hquiet.
  destruct (stream_to_file env r (dest dir f) chunks (fetching w f))
    as [[[]|e] w2] eqn:Hs; cbn [snd] in Hquiet.
  - rewrite (download_lora_fetched w w2 r f Hget Hok Hname Hex Hs).
    cbn. rewrite requests_app, Hquiet. cbn. now rewrite app_nil_r.
  - destruct (is_Exception e) eqn:Hexn.
    + rewrite (download_lora_caught w w2 r f e Hget Hok Hname Hex Hs Hexn).
      cbn. rewrite requests_app, Hquiet.
      unfold lora_failure. destruct (is_RequestException e); cbn;
        now rewrite app_nil_r.
    + rewrite (download_lora_uncaught w w2 r f e Hget Hok Hname Hex Hs Hexn).
      exact Hquiet.
Qed.

End Resolved.

(** *** A rejected status in the other two nodes *)

Lemma download_unet_bad_status unet_name weight_dtype api_key chunks records
      (u : string) (r : response) (w : world) :
  NODE_CONFIG !! "diffusion_models" = Some records ->
  find_url records unet_name = Some u ->
  truthy u = true ->
  requests_get env u (bearer_headers (select_api_key env u api_key))
  = Returned r ->
  bad_status r ->
  exists msg,
    download_unet env NODE_CONFIG unet_name weight_dtype api_key chunks w
    = (Raised (Exn HTTPError msg),
       record w (request_trace env "diffusion_models" u api_key)).
Proof.
  intros Hcfg Hfind Hu Hget Hbad.
  destruct (raise_for_status_bad r
              (record w (request_trace env "diffusion_models" u api_key)) Hbad)
    as [msg Hmsg].
  exists msg. unfold download_unet, getitem, bind.
  rewrite join_category by reflexivity. cbn [lift].
  rewrite emit_run, Hcfg. cbn [ret].
  rewrite Hfind. cbn [truthy_opt negb fmt]. rewrite Hu. cbn [negb].
  rewrite auth_headers_run, emit_run, !record_record.
  rewrite Hget. unfold request_trace in Hmsg. cbn [app] in Hmsg |- *.
  rewrite Hmsg. reflexivity.
Qed.

Lemma download_checkpoint_bad_status ckpt_name api_key chunks records
      (u : string) (r : response) (w : world) :
  NODE_CONFIG !! "checkpoints" = Some records ->
  find_url records ckpt_name = Some u ->
  truthy u = true ->
  requests_get env u (bearer_headers (select_api_key env u api_key))
  = Returned r ->
  bad_status r ->
  exists msg,
    download_checkpoint env NODE_CONFIG ckpt_name api_key chunks w
    = (Raised (Exn HTTPError msg),
       record w (request_trace env "checkpoints" u api_key)).
Proof.
  intros Hcfg Hfind Hu Hget Hbad.
  destruct (raise_for_status_bad r
              (record w (request_trace env "checkpoints" u api_key)) Hbad)
    as [msg Hmsg].
  exists msg. unfold download_checkpoint, getitem, bind.
  rewrite join_category by reflexivity. cbn [lift].
  rewrite emit_run, Hcfg. cbn [ret].
  rewrite Hfind. cbn [truthy_opt negb fmt]. rewrite Hu. cbn [negb].
  rewrite auth_headers_run, emit_run, !record_record.
  rewrite Hget. unfold request_trace in Hmsg. cbn [app] in Hmsg |- *.
  rewrite Hmsg. reflexivity.
Qed.

(** A request that fails in transport, before there is a response. *)
Lemma download_unet_get_raises unet_name weight_dtype api_key chunks records
      (u : string) (e : exn) (w : world) :
  NODE_CONFIG !! "diffusion_models" = Some records ->
  find_url records unet_name = Some u ->
  truthy u = true ->
  requests_get env u (bearer_headers (select_api_key env u api_key))
  = Raised e ->
  download_unet env NODE_CONFIG unet_name weight_dtype api_key chunks w
  = (Raised e, record w (request_trace env "diffusion_models" u api_key)).
Proof.
  intros Hcfg Hfind Hu Hget. unfold download_unet, getitem, bind.
  rewrite join_category by reflexivity. cbn [lift].
  rewrite emit_run, Hcfg. cbn [ret].
  rewrite Hfind. cbn [truthy_opt negb fmt]. rewrite Hu. cbn [negb].
  rewrite auth_headers_run, emit_run, !record_record.
  rewrite Hget. reflexivity.
Qed.

(** *** Leaving at the table lookup *)






End Runs.

Import Py Effects Nodes Obs.

(** ** The search loop *)
Section Search.


Lemma find_url_present (records : list entry) (n : string) :
  In n (map name records) ->
  exists pre r post,
    records = pre ++ r :: post
    /\ Forall (fun x => name x <> n) pre
    /\ name r = n
    /\ find_url records n = Some (url r).
Proof.
  induction records as [|x records IH]; cbn; [tauto|].
  intros Hin. destruct (String.eqb_spec (name x) n) as [Heq|Hne].
  - exists [], x, records. repeat split; auto.
  - destruct Hin as [Hin|Hin]; [contradiction|].
    destruct (IH Hin) as (pre & r & post & -> & Hpre & Hr & Hfind).
    exists (x :: pre), r, post. repeat split; auto.
Qed.


(** What the loop returns is the url of a record with that name. *)
Lemma find_url_some (records : list entry) (n u : string) :
  find_url records n = Some u -> In (Entry n u) records.
Proof.
  induction records as [|x records IH]; cbn; [discriminate|].
  destruct (String.eqb_spec (name x) n) as [Heq|Hne].
  - intros [= <-]. left. subst n. now destruct x.
  - intros Hf. right. now apply IH.
Qed.

End Search.

(** ** The fallback table *)
Section Fallback.
Context `{Host}.
Variable env : environment.


Lemma select_api_key_not_valid_url (api_key : option string) :
  select_api_key env "not_valid_url" api_key = api_key.
Proof. reflexivity. Qed.

End Fallback.



(** ** Loading the configuration *)
Section Config.
Variable json_load : string -> outcome (gmap string (list entry)).
Variable env : environment.

(** The level at which a caught exception is logged. *)
Lemma load_config_caught (filename : string) (w : world) (e : exn) :
  (open_r env (dest (module_dir env) filename) w = (Raised e, w)
   \/ exists text,
       open_r env (dest (module_dir env) filename) w = (Returned text, w)
       /\ json_load text = Raised e) ->
  is_Exception e = true ->
  exists msg,
    load_config json_load env filename w
    = (Returned default_config,
       record w [ELog (match exn_cls e with
                       | FileNotFoundError => WARNING
                       | _ => ERROR
                       end) msg]).
Proof.
  intros Hbody Hexn. unfold load_config, bind, try_except.
  rewrite join_dest. cbn [lift].
  assert (forall lvl msg,
             (let (o, w') := log lvl msg w in
              match o with
              | Returned _ => ret default_config w'
              | Raised e0 => (Raised e0, w')
              end)
             = (Returned default_config, record w [ELog lvl msg])) as Hlog
    by reflexivity.
  destruct Hbody as [-> | (text & -> & ->)];
    destruct (exn_cls e) eqn:Hcls; rewrite ?Hexn; rewrite Hlog; eauto.
Qed.

End Config.

(** C6.  When the configuration file is missing, or is there and its
    text is rejected by [json.load] with a [JSONDecodeError],
    [load_config] does not raise: it returns the built-in table, whose
    only key [loras] holds the two placeholder records with the url
    [not_valid_url], a url that [requests.get] rejects for want of a
    scheme, and logs one record, a warning or an error. *)
Theorem load_config_fallback
        (json_load : string -> outcome (gmap string (list entry)))
        (env : environment) (filename : string) (w : world) :
  open_error env (dest (module_dir env) filename) = None ->
  (files w !! dest (module_dir env) filename = None
   \/ exists text e,
       files w !! dest (module_dir env) filename = Some text
       /\ json_load text = Raised e
       /\ exn_cls e = JSONDecodeError) ->
  exists lvl msg,
    load_config json_load env filename w
    = (Returned default_config, record w [ELog lvl msg])
    /\ (lvl = WARNING \/ lvl = ERROR)
    /\ default_config
       = {[ "loras" := [ Entry "Lora n1" "not_valid_url";
                         Entry "Lora n2" "not_valid_url" ] ]}
    /\ forall headers,
        exists e, requests_get env "not_valid_url" headers = Raised e
                  /\ exn_cls e = MissingSchema.
Proof.
  assert (forall headers,
             exists e, requests_get env "not_valid_url" headers = Raised e
                       /\ exn_cls e = MissingSchema) as Hinvalid.
  { intros headers. eexists. split; reflexivity. }
  intros Hopen [Hmissing | (text & e & Htext & Hjson & Hcls)].
  - destruct (load_config_caught json_load env filename w
                (Exn FileNotFoundError
                   ("No such file or directory: "
                    +:+ dest (module_dir env) filename))) as [msg Hrun].
    + left. unfold open_r. now rewrite Hopen, Hmissing.
    + reflexivity.
    + exists WARNING, msg. auto.
  - destruct (load_config_caught json_load env filename w e) as [msg Hrun].
    + right. exists text. unfold open_r. now rewrite Hopen, Htext.
    + unfold is_Exception. now rewrite Hcls.
    + rewrite Hcls in Hrun. exists ERROR, msg. auto.
Qed.

(** No file at all: the path [/plugin/config.json] is missing. *)
Lemma load_config_fallback_witness :
  (open_error Sample.env_ok (dest (module_dir Sample.env_ok) "config.json")
   = None
   /\ files Sample.empty_world
        !! dest (module_dir Sample.env_ok) "config.json" = None)
  /\ exists lvl msg,
      load_config Sample.json_reject Sample.env_ok "config.json"
        Sample.empty_world
      = (Returned default_config, record Sample.empty_world [ELog lvl msg])
      /\ (lvl = WARNING \/ lvl = ERROR)
      /\ default_config
         = {[ "loras" := [ Entry "Lora n1" "not_valid_url";
                           Entry "Lora n2" "not_valid_url" ] ]}
      /\ forall headers,
          exists e,
            requests_get Sample.env_ok "not_valid_url" headers = Raised e
            /\ exn_cls e = MissingSchema.
Proof.
  split; [split; reflexivity|].
  apply (load_config_fallback Sample.json_reject Sample.env_ok "config.json"
           Sample.empty_world).
  - reflexivity.
  - left. reflexivity.
Defined.

(** ** The file name of a response *)

(** C7.  A response whose [Content-Disposition] header is
    [attachment; filename=] followed by [foo.safetensors] between double
    quotes gives the file name [foo.safetensors] exactly: the quotes are
    not part of it and no white space surrounds it. *)
Theorem filename_from_content_disposition (r : response) :
  content_disposition r
  = Some ("attachment; filename="
          +:+ String dquote ("foo.safetensors" +:+ String dquote EmptyString)) ->
  derive_filename r = Returned (Some "foo.safetensors").
Proof. intros Hcd. unfold derive_filename. rewrite Hcd. reflexivity. Qed.

Lemma filename_from_content_disposition_witness :
  content_disposition
    (Response 200 (Some Sample.cd_foo) (Some "6") (fun _ => ([], None)))
  = Some ("attachment; filename="
          +:+ String dquote ("foo.safetensors" +:+ String dquote EmptyString))
  /\ derive_filename
       (Response 200 (Some Sample.cd_foo) (Some "6") (fun _ => ([], None)))
     = Returned (Some "foo.safetensors").
Proof.
  split; [reflexivity|].
  apply (filename_from_content_disposition
           (Response 200 (Some Sample.cd_foo) (Some "6")
              (fun _ => ([], None)))).
  reflexivity.
Defined.



(** ** Failures while the body is read *)
Section Body.
Variable env : environment.

(** The body breaks off: [iter_content] raises after its last chunk, and
    nothing before that failed. *)
Lemma stream_to_file_body_error (r : response) (path : string) (n : Z)
      (e : exn) (w : world) :
  sized env r ->
  open_error env path = None ->
  Forall (fun data => write_error env path data = None)
         (fst (iter_content r (n * 1024))) ->
  snd (iter_content r (n * 1024)) = Some e ->
  fst (stream_to_file env r path (Some n) w) = Raised e.
Proof.
  intros (total & Htotal & Hbar) Hopen Hwrite Hiter.
  unfold stream_to_file, bind, lift. fold (total_size r). rewrite Htotal.
  unfold tqdm_new. rewrite Hbar, emit_run.
  unfold open_wb. rewrite Hopen. unfold bind.
  rewrite !emit_run. cbn [put_file record files trace]. rewrite emit_run.
  rewrite (write_chunks_clean _ _ _ _ EmptyString Hwrite)
    by (cbn; apply lookup_insert_eq).
  rewrite Hiter. reflexivity.
Qed.

(** The first chunk that cannot be written. *)
Lemma write_chunks_error (path : string) (pre post : list string)
      (data : string) (e : exn) (w : world) :
  Forall (fun d => write_error env path d = None) pre ->
  write_error env path data = Some e ->
  fst (write_chunks env path (pre ++ data :: post) w) = Raised e.
Proof.
  intros Hpre Hdata. revert w.
  induction Hpre as [|d pre Hd _ IH]; intros w.
  - cbn [app write_chunks]. unfold bind, write.
    rewrite emit_run, Hdata. reflexivity.
  - cbn [app write_chunks]. unfold bind, write. rewrite emit_run, Hd.
    unfold bind. rewrite emit_run. cbn [put_file]. apply IH.
Qed.

Lemma stream_to_file_write_error (r : response) (path : string) (n : Z)
      (pre post : list string) (data : string) (e : exn) (w : world) :
  sized env r ->
  open_error env path = None ->
  fst (iter_content r (n * 1024)) = pre ++ data :: post ->
  Forall (fun d => write_error env path d = None) pre ->
  write_error env path data = Some e ->
  fst (stream_to_file env r path (Some n) w) = Raised e.
Proof.
  intros (total & Htotal & Hbar) Hopen Hchunks Hpre Hdata.
  unfold stream_to_file, bind, lift. fold (total_size r). rewrite Htotal.
  unfold tqdm_new. rewrite Hbar, emit_run.
  unfold open_wb. rewrite Hopen. unfold bind.
  rewrite !emit_run. cbn [put_file record files trace]. rewrite emit_run.
  rewrite Hchunks.
  match goal with
  | |- context [write_chunks env path ?c ?wa] =>
      pose proof (write_chunks_error path pre post data e wa Hpre Hdata)
        as Herr;
      destruct (write_chunks env path c wa) as [[[]|e'] wa']
  end; cbn [fst] in Herr; [discriminate|].
  cbn [fst]. exact Herr.
Qed.

End Body.

(** C4.  When the [try] block of the LoRA node raises an exception that
    derives from [Exception], as every network-layer exception of the
    body stream and every error of the file writes does, the exception is
    caught: the node logs one error record as its last effect, does not
    call the host loader, and returns [model] and [clip] as it was given
    them. *)
Theorem streaming_failure_returns_inputs `{Host} (env : environment)
        (NODE_CONFIG : gmap string (list entry)) (model : Model)
        (lora_name : string) (sm sc : Strength) (clip : option Clip)
        (api_key : option string) (chunks : option Z)
        (records : list entry) (u : string) (r : response) (f : string)
        (e : exn) (w : world) :
  NODE_CONFIG !! "loras" = Some records ->
  find_url records lora_name = Some u ->
  truthy u = true ->
  requests_get env u (bearer_headers (select_api_key env u api_key))
  = Returned r ->
  ~ bad_status r ->
  derive_filename r = Returned (Some f) ->
  exists_at env w (dest (category_dir env "loras") f) = false ->
  fst (stream_to_file env r (dest (category_dir env "loras") f) chunks w)
  = Raised e ->
  is_Exception e = true ->
  exists w2,
    download_lora env NODE_CONFIG model lora_name sm sc clip api_key chunks w
    = (Returned (model, clip), record w2 [lora_failure lora_name e])
    /\ is_error_log (lora_failure lora_name e) = true.
Proof.
  intros Hcfg Hfind Hu Hget Hok Hname Hex Hraise Hexn.
  set (w1 := record (record w (request_trace env "loras" u api_key))
               [lora_downloading u (Some f)
                  (dest (category_dir env "loras") f)]).
  rewrite (stream_to_file_outcome env r _ chunks w w1) in Hraise.
  destruct (stream_to_file env r (dest (category_dir env "loras") f) chunks w1)
    as [o w2] eqn:Hs.
  cbn [fst] in Hraise. subst o. exists w2. split.
  - eapply download_lora_caught; eassumption.
  - unfold lora_failure. now destruct (is_RequestException e).
Qed.

(** The connection breaks after two chunks. *)
Lemma streaming_failure_returns_inputs_witness :
  (Sample.table !! "loras" = Some Sample.loras
   /\ find_url Sample.loras "detail" = Some "https://civitai.com/api/download/1"
   /\ is_RequestException (Exn ChunkedEncodingError "Connection broken") = true
   /\ fst (stream_to_file Sample.env_drop
             (Response 200 (Some Sample.cd_foo) (Some "6")
                (fun _ => (["abc"; "def"],
                           Some (Exn ChunkedEncodingError "Connection broken"))))
             "/models/loras/foo.safetensors" (Some 4) Sample.empty_world)
      = Raised (Exn ChunkedEncodingError "Connection broken"))
  /\ exists w2,
      download_lora (H := Sample.host) Sample.env_drop Sample.table 5%nat
        "detail" 1 1 (Some 2%nat) None (Some 4) Sample.empty_world
      = (Returned (5%nat, Some 2%nat),
         record w2
           [lora_failure "detail"
              (Exn ChunkedEncodingError "Connection broken")])
      /\ is_error_log
           (lora_failure "detail"
              (Exn ChunkedEncodingError "Connection broken")) = true.
Proof.
  split; [repeat split; reflexivity|].
  apply (streaming_failure_returns_inputs (H := Sample.host) Sample.env_drop
           Sample.table 5%nat "detail" 1 1 (Some 2%nat) None (Some 4)
           Sample.loras "https://civitai.com/api/download/1"
           (Response 200 (Some Sample.cd_foo) (Some "6")
              (fun _ => (["abc"; "def"],
                         Some (Exn ChunkedEncodingError "Connection broken"))))
           "foo.safetensors").
  - reflexivity.
  - reflexivity.
  - reflexivity.
  - reflexivity.
  - unfold bad_status; cbn; lia.
  - reflexivity.
  - reflexivity.
  - reflexivity.
  - reflexivity.
Defined.

(** ** A rejected status *)

(** The claim of C1 fails: the server answers 404, and the LoRA node
    raises the [HTTPError] of [raise_for_status] instead of returning
    [model] and [clip]. *)
Lemma bad_status_not_caught :
  requests_get Sample.env_404 "https://civitai.com/api/download/1"
    (bearer_headers
       (select_api_key Sample.env_404 "https://civitai.com/api/download/1"
          None))
  = Returned (Response 404 (Some Sample.cd_foo) (Some "6")
                (fun _ => (["abc"; "def"], None)))
  /\ fst (download_lora (H := Sample.host) Sample.env_404 Sample.table 5%nat
            "detail" 1 1 (Some 2%nat) None (Some 4) Sample.empty_world)
     = Raised (Exn HTTPError "Client Error")
  /\ fst (download_lora (H := Sample.host) Sample.env_404 Sample.table 5%nat
            "detail" 1 1 (Some 2%nat) None (Some 4) Sample.empty_world)
     <> Returned (5%nat, Some 2%nat).
Proof. split; [reflexivity|]. split; [reflexivity | discriminate]. Qed.

(** C1, amended.  When the response to the GET carries a status from 400
    to 599, [raise_for_status] raises an [HTTPError] before the [try]
    block is entered.  Nothing in [download_lora] catches it: the
    invocation ends with that exception raised to the caller, right after
    the request; nothing is returned, the body is not read and no file is
    touched. *)
Theorem bad_status_propagates `{Host} (env : environment)
        (NODE_CONFIG : gmap string (list entry)) (model : Model)
        (lora_name : string) (sm sc : Strength) (clip : option Clip)
        (api_key : option string) (chunks : option Z)
        (records : list entry) (u : string) (r : response) (w : world) :
  NODE_CONFIG !! "loras" = Some records ->
  find_url records lora_name = Some u ->
  truthy u = true ->
  requests_get env u (bearer_headers (select_api_key env u api_key))
  = Returned r ->
  bad_status r ->
  exists msg,
    download_lora env NODE_CONFIG model lora_name sm sc clip api_key chunks w
    = (Raised (Exn HTTPError msg),
       record w (request_trace env "loras" u api_key))
    /\ files (snd (download_lora env NODE_CONFIG model lora_name sm sc clip
                     api_key chunks w)) = files w
    /\ streams (trace (snd (download_lora env NODE_CONFIG model lora_name sm
                              sc clip api_key chunks w)))
       = streams (trace w)
    /\ opens (trace (snd (download_lora env NODE_CONFIG model lora_name sm sc
                            clip api_key chunks w)))
       = opens (trace w).
Proof.
  intros Hcfg Hfind Hu Hget Hbad.
  destruct (download_lora_bad_status env NODE_CONFIG model lora_name sm sc
              clip api_key chunks records u Hcfg Hfind Hu w r Hget Hbad)
    as [msg Hrun].
  exists msg. rewrite Hrun. split; [reflexivity|]. split; [reflexivity|].
  unfold streams, opens, record. cbn [snd trace].
  rewrite !count_app, !count_request_trace by reflexivity. lia.
Qed.

Lemma bad_status_propagates_witness :
  (Sample.table !! "loras" = Some Sample.loras
   /\ find_url Sample.loras "detail" = Some "https://civitai.com/api/download/1"
   /\ bad_status (Response 404 (Some Sample.cd_foo) (Some "6")
                    (fun _ => (["abc"; "def"], None))))
  /\ exists msg,
      fst (download_lora (H := Sample.host) Sample.env_404 Sample.table 5%nat
             "detail" 1 1 (Some 2%nat) None (Some 4) Sample.empty_world)
      = Raised (Exn HTTPError msg).
Proof.
  assert (bad_status (Response 404 (Some Sample.cd_foo) (Some "6")
                        (fun _ => (["abc"; "def"], None)))) as Hbad
    by (unfold bad_status; cbn; lia).
  split; [repeat split; try reflexivity; apply Hbad|].
  destruct (bad_status_propagates (H := Sample.host) Sample.env_404
              Sample.table 5%nat "detail" 1 1 (Some 2%nat) None (Some 4)
              Sample.loras "https://civitai.com/api/download/1"
              (Response 404 (Some Sample.cd_foo) (Some "6")
                 (fun _ => (["abc"; "def"], None)))
              Sample.empty_world eq_refl eq_refl eq_refl eq_refl Hbad)
    as (msg & Hrun & _).
  exists msg. now rewrite Hrun.
Defined.

(** ** The presence guard *)

(** The claim of C2 fails: the destination [foo.safetensors] is on disk,
    and the LoRA node still sends its GET; two invocations in a row, from
    an empty disk, send two. *)
Lemma cached_file_still_requested :
  exists_at Sample.env_ok Sample.cached_world "/models/loras/foo.safetensors"
  = true
  /\ gets (trace (snd (download_lora (H := Sample.host) Sample.env_ok
                         Sample.table 5%nat "detail" 1 1 None None (Some 4)
                         Sample.cached_world)))
     = 1%nat
  /\ gets (trace (snd (download_lora (H := Sample.host) Sample.env_ok
                         Sample.table 5%nat "detail" 1 1 None None (Some 4)
                         (snd (download_lora (H := Sample.host) Sample.env_ok
                                 Sample.table 5%nat "detail" 1 1 None None
                                 (Some 4) Sample.empty_world)))))
     = 2%nat.
Proof. split; [reflexivity|]. split; reflexivity. Qed.

Section Guard.
Context `{Host}.
Variable env : environment.
Variable NODE_CONFIG : gmap string (list entry).
Variables (model : Model) (lora_name : string) (sm sc : Strength)
          (clip : option Clip) (api_key : option string)
          (records : list entry) (u : string) (r : response) (f : string).
Hypothesis Hcfg : NODE_CONFIG !! "loras" = Some records.
Hypothesis Hfind : find_url records lora_name = Some u.
Hypothesis Hu : truthy u = true.
Hypothesis Hget :
  requests_get env u (bearer_headers (select_api_key env u api_key))
  = Returned r.
Hypothesis Hok : ~ bad_status r.
Hypothesis Hname : derive_filename r = Returned (Some f).

Local Abbreviation run chunks :=
  (download_lora env NODE_CONFIG model lora_name sm sc clip api_key chunks).
Local Abbreviation path := (dest (category_dir env "loras") f).

(** One invocation with the destination on disk: one request, no body
    read, no file opened, the disk as it was, and the host loader's
    answer. *)
Lemma download_lora_guarded (chunks : option Z) (w : world) :
  exists_at env w path = true ->
  fst (run chunks w) = load_lora (files w) model clip (Some f) sm sc
  /\ files (snd (run chunks w)) = files w
  /\ gets (trace (snd (run chunks w))) = S (gets (trace w))
  /\ streams (trace (snd (run chunks w))) = streams (trace w)
  /\ opens (trace (snd (run chunks w))) = opens (trace w).
Proof.
  intros Hex.
  pose proof (download_lora_requests env NODE_CONFIG model lora_name sm sc
                clip api_key chunks records u Hcfg Hfind Hu w) as Hreq.
  rewrite (download_lora_cached env NODE_CONFIG model lora_name sm sc clip
             api_key chunks records u Hcfg Hfind Hu w r f Hget Hok Hname Hex)
    in Hreq |- *.
  cbn [fst snd] in Hreq |- *. split; [reflexivity|]. split; [reflexivity|].
  split.
  { unfold gets. rewrite Hreq, length_app. cbn. lia. }
  unfold streams, opens, record. cbn [trace].
  rewrite !count_app, !count_request_trace by reflexivity. cbn. lia.
Qed.

(** One invocation with the destination absent and a clean body: one
    request, one body read into the destination. *)
Lemma download_lora_downloads (n : Z) (w : world) :
  exists_at env w path = false ->
  clean_body env r path n ->
  files (snd (run (Some n) w))
  = <[path := joined (fst (iter_content r (n * 1024)))]> (files w)
  /\ gets (trace (snd (run (Some n) w))) = S (gets (trace w))
  /\ streams (trace (snd (run (Some n) w))) = S (streams (trace w))
  /\ opens (trace (snd (run (Some n) w))) = S (opens (trace w)).
Proof.
  intros Hex Hclean.
  pose proof (download_lora_requests env NODE_CONFIG model lora_name sm sc
                clip api_key (Some n) records u Hcfg Hfind Hu w) as Hreq.
  destruct (stream_to_file_clean env r path n
              (record (record w (request_trace env "loras" u api_key))
                 [lora_downloading u (Some f) path]) Hclean)
    as (w2 & Hs & Hfiles & _ & Hstreams & Hopens).
  rewrite (download_lora_fetched env NODE_CONFIG model lora_name sm sc clip
             api_key (Some n) records u Hcfg Hfind Hu w w2 r f Hget Hok Hname
             Hex Hs) in Hreq |- *.
  cbn [fst snd] in Hreq |- *. split; [exact Hfiles|]. split.
  { unfold gets. rewrite Hreq, length_app. cbn. lia. }
  unfold streams, opens, record in Hstreams, Hopens |- *.
  cbn [trace] in Hstreams, Hopens |- *.
  rewrite !count_app in Hstreams, Hopens |- *.
  rewrite !count_request_trace in Hstreams, Hopens by reflexivity.
  cbn in Hstreams, Hopens |- *. lia.
Qed.

(** One invocation with the destination absent and a [try] block that
    fails before the file is opened: one request, the failure caught,
    nothing read or written. *)
Lemma download_lora_early (chunks : option Z) (w : world) :
  exists_at env w path = false ->
  chunks = None
  \/ (exists e, total_size r = Raised e)
  \/ (exists total e,
        total_size r = Returned total /\ tqdm_error env total = Some e
        /\ is_Exception e = true) ->
  fst (run chunks w) = Returned (model, clip)
  /\ files (snd (run chunks w)) = files w
  /\ gets (trace (snd (run chunks w))) = S (gets (trace w))
  /\ streams (trace (snd (run chunks w))) = streams (trace w)
  /\ opens (trace (snd (run chunks w))) = opens (trace w).
Proof.
  intros Hex Hearly.
  pose proof (download_lora_requests env NODE_CONFIG model lora_name sm sc
                clip api_key chunks records u Hcfg Hfind Hu w) as Hreq.
  destruct (stream_to_file_early env r path chunks
              (record (record w (request_trace env "loras" u api_key))
                 [lora_downloading u (Some f) path]) Hearly)
    as (e & Hs & Hexn).
  rewrite (download_lora_caught env NODE_CONFIG model lora_name sm sc clip
             api_key chunks records u Hcfg Hfind Hu w _ r f e Hget Hok Hname
             Hex Hs Hexn) in Hreq |- *.
  cbn [fst snd] in Hreq |- *. split; [reflexivity|]. split; [reflexivity|].
  split.
  { unfold gets. rewrite Hreq, length_app. cbn. lia. }
  unfold streams, opens, record, lora_failure. cbn [trace].
  rewrite !count_app, !count_request_trace by reflexivity.
  destruct (is_RequestException e); cbn; lia.
Qed.

End Guard.

(** C2, amended.  The node calls [requests.get] before it can look for
    the destination, whose name comes from the response.  Take an
    invocation whose name resolves to a url, whose request is answered
    with a status outside 400 to 599 and whose response names a file.
    It sends one request, whatever the disk holds and whatever the block
    size.  When the destination exists, that one request is all the
    network sees, whatever the block size: the body is not read, no file is
    opened, the disk stays as it was and the host loader is called on the
    file that is there.  When the destination is absent, a block size is
    given and the body arrives whole (the content length, 0 when the
    header is missing, is an integer that the progress bar accepts, the
    file opens, every chunk is written and the stream ends without an
    exception), two invocations in a row send two requests and read the
    body once: the second finds the file that the first wrote.  When the destination is absent and the block
    size is left at its default [None], the [try] block fails before the
    file is opened, so two invocations in a row send two requests and
    read no body at all. *)
Theorem presence_guard `{Host} (env : environment)
        (NODE_CONFIG : gmap string (list entry)) (model : Model)
        (lora_name : string) (sm sc : Strength) (clip : option Clip)
        (api_key : option string) (records : list entry) (u : string)
        (r : response) (f : string) :
  NODE_CONFIG !! "loras" = Some records ->
  find_url records lora_name = Some u ->
  truthy u = true ->
  requests_get env u (bearer_headers (select_api_key env u api_key))
  = Returned r ->
  ~ bad_status r ->
  derive_filename r = Returned (Some f) ->
  let path := dest (category_dir env "loras") f in
  let run chunks w :=
    download_lora env NODE_CONFIG model lora_name sm sc clip api_key chunks
      w in
  (forall chunks w, gets (trace (snd (run chunks w))) = S (gets (trace w)))
  /\ (forall chunks cached,
        exists_at env cached path = true ->
        let once := run chunks cached in
        fst once = load_lora (files cached) model clip (Some f) sm sc
        /\ files (snd once) = files cached
        /\ gets (trace (snd once)) = S (gets (trace cached))
        /\ streams (trace (snd once)) = streams (trace cached)
        /\ opens (trace (snd once)) = opens (trace cached))
  /\ (forall n fresh,
        exists_at env fresh path = false ->
        clean_body env r path n ->
        let first := run (Some n) fresh in
        let second := run (Some n) (snd first) in
        files (snd first) !! path
        = Some (joined (fst (iter_content r (n * 1024))))
        /\ files (snd second) = files (snd first)
        /\ fst second = load_lora (files (snd first)) model clip (Some f) sm sc
        /\ gets (trace (snd second)) = S (S (gets (trace fresh)))
        /\ streams (trace (snd second)) = S (streams (trace fresh))
        /\ opens (trace (snd second)) = S (opens (trace fresh)))
  /\ (forall fresh,
        exists_at env fresh path = false ->
        let first := run None fresh in
        let second := run None (snd first) in
        fst first = Returned (model, clip)
        /\ fst second = Returned (model, clip)
        /\ files (snd second) = files fresh
        /\ gets (trace (snd second)) = S (S (gets (trace fresh)))
        /\ streams (trace (snd second)) = streams (trace fresh)
        /\ opens (trace (snd second)) = opens (trace fresh)).
Proof.
  intros Hcfg Hfind Hu Hget Hok Hname. cbv zeta.
  split; [|split; [|split]].
  - intros chunks w. unfold gets.
    rewrite (download_lora_requests env NODE_CONFIG model lora_name sm sc
               clip api_key chunks records u Hcfg Hfind Hu w).
    rewrite length_app. cbn. lia.
  - intros chunks cached Hcached.
    eapply download_lora_guarded; eassumption.
  - intros n fresh Hfresh Hclean.
    destruct (download_lora_downloads env NODE_CONFIG model lora_name sm sc
                clip api_key records u r f Hcfg Hfind Hu Hget Hok Hname n
                fresh Hfresh Hclean) as (Hfiles & Hg1 & Hs1 & Ho1).
    assert (files (snd (download_lora env NODE_CONFIG model lora_name sm sc
                          clip api_key (Some n) fresh))
              !! dest (category_dir env "loras") f
            = Some (joined (fst (iter_content r (n * 1024))))) as Hthere
      by (rewrite Hfiles; apply lookup_insert_eq).
    assert (exists_at env
              (snd (download_lora env NODE_CONFIG model lora_name sm sc clip
                      api_key (Some n) fresh))
              (dest (category_dir env "loras") f) = true) as Hnow.
    { unfold exists_at. rewrite Hthere.
      rewrite bool_decide_eq_true_2 by eauto. apply orb_true_r. }
    destruct (download_lora_guarded env NODE_CONFIG model lora_name sm sc
                clip api_key records u r f Hcfg Hfind Hu Hget Hok Hname
                (Some n) _ Hnow) as (Hout & Hf2 & Hg2 & Hs2 & Ho2).
    repeat split; try assumption; lia.
  - intros fresh Hfresh.
    destruct (download_lora_early env NODE_CONFIG model lora_name sm sc clip
                api_key records u r f Hcfg Hfind Hu Hget Hok Hname None fresh
                Hfresh (or_introl eq_refl))
      as (Hout1 & Hf1 & Hg1 & Hs1 & Ho1).
    assert (exists_at env
              (snd (download_lora env NODE_CONFIG model lora_name sm sc clip
                      api_key None fresh))
              (dest (category_dir env "loras") f) = false) as Hstill
      by (unfold exists_at in Hfresh |- *; now rewrite Hf1).
    destruct (download_lora_early env NODE_CONFIG model lora_name sm sc clip
                api_key records u r f Hcfg Hfind Hu Hget Hok Hname None _
                Hstill (or_introl eq_refl))
      as (Hout2 & Hf2 & Hg2 & Hs2 & Ho2).
    repeat split; try assumption; congruence.
Qed.

(** The sample server: the file [foo.safetensors] on disk, then two
    invocations from an empty disk with a block size of 4, then two
    without a block size. *)
Lemma presence_guard_witness :
  (Sample.table !! "loras" = Some Sample.loras
   /\ find_url Sample.loras "detail" = Some "https://civitai.com/api/download/1"
   /\ derive_filename (SampleMore.answer (Some Sample.cd_foo) None)
      = Returned (Some "foo.safetensors")
   /\ exists_at Sample.env_ok Sample.cached_world
        (dest (category_dir Sample.env_ok "loras") "foo.safetensors") = true
   /\ exists_at Sample.env_ok Sample.empty_world
        (dest (category_dir Sample.env_ok "loras") "foo.safetensors") = false
   /\ clean_body Sample.env_ok (SampleMore.answer (Some Sample.cd_foo) None)
        (dest (category_dir Sample.env_ok "loras") "foo.safetensors") 4)
  /\ (let once :=
        download_lora (H := Sample.host) Sample.env_ok Sample.table 5%nat
          "detail" 1 1 None None None Sample.cached_world in
      gets (trace (snd once)) = 1%nat /\ streams (trace (snd once)) = 0%nat)
  /\ (let first :=
        download_lora (H := Sample.host) Sample.env_ok Sample.table 5%nat
          "detail" 1 1 None None (Some 4) Sample.empty_world in
      let second :=
        download_lora (H := Sample.host) Sample.env_ok Sample.table 5%nat
          "detail" 1 1 None None (Some 4) (snd first) in
      gets (trace (snd second)) = 2%nat
      /\ streams (trace (snd second)) = 1%nat)
  /\ (let first :=
        download_lora (H := Sample.host) Sample.env_ok Sample.table 5%nat
          "detail" 1 1 None None None Sample.empty_world in
      let second :=
        download_lora (H := Sample.host) Sample.env_ok Sample.table 5%nat
          "detail" 1 1 None None None (snd first) in
      gets (trace (snd second)) = 2%nat
      /\ streams (trace (snd second)) = 0%nat).
Proof.
  assert (clean_body Sample.env_ok (SampleMore.answer (Some Sample.cd_foo) None)
            (dest (category_dir Sample.env_ok "loras") "foo.safetensors") 4)
    as Hclean.
  { split; [exists 6; split; reflexivity|]. split; [reflexivity|].
    split; [cbn; repeat constructor | reflexivity]. }
  assert (~ bad_status (SampleMore.answer (Some Sample.cd_foo) None)) as Hok
    by (unfold bad_status; cbn; lia).
  assert (exists_at Sample.env_ok Sample.cached_world
            (dest (category_dir Sample.env_ok "loras") "foo.safetensors")
          = true) as Hcached by reflexivity.
  assert (exists_at Sample.env_ok Sample.empty_world
            (dest (category_dir Sample.env_ok "loras") "foo.safetensors")
          = false) as Hfresh by reflexivity.
  split; [repeat split; try reflexivity; apply Hclean|].
  destruct (presence_guard (H := Sample.host) Sample.env_ok Sample.table
              5%nat "detail" 1 1 None None Sample.loras
              "https://civitai.com/api/download/1"
              (SampleMore.answer (Some Sample.cd_foo) None) "foo.safetensors"
              eq_refl eq_refl eq_refl eq_refl Hok eq_refl)
    as (_ & Hguard & Htwice & Hnever).
  destruct (Hguard None Sample.cached_world Hcached)
    as (_ & _ & Hg & Hs & _).
  destruct (Htwice 4 Sample.empty_world Hfresh Hclean)
    as (_ & _ & _ & Hg2 & Hs2 & _).
  destruct (Hnever Sample.empty_world Hfresh) as (_ & _ & _ & Hg3 & Hs3 & _).
  cbv zeta. split; [split; assumption|]. split; split; assumption.
Defined.

(** ** The bearer token *)
Section Token.
Variable env : environment.

(** No url starts with both host prefixes. *)
Lemma hosts_exclusive (u : string) :
  startswith u "https://civitai.com" = true ->
  startswith u "https://huggingface.co" = false.
Proof.
  unfold startswith.
  do 9 (destruct u as [|? u]; cbn [String.prefix]; [discriminate|];
        destruct (ascii_dec _ _); [subst | discriminate]).
  intros _. reflexivity.
Qed.

Lemma py_or_truthy (k : string) (o : option string) :
  truthy k = true -> py_or (Some k) o = Some k.
Proof. intros Hk. unfold py_or. cbn. now rewrite Hk. Qed.

Lemma py_or_falsy (a o : option string) :
  truthy_opt a = false -> py_or a o = o.
Proof. intros Ha. unfold py_or. now rewrite Ha. Qed.

Lemma truthy_nonempty (k : string) : k <> EmptyString <-> truthy k = true.
Proof. destruct k; cbn; split; congruence. Qed.

(** A truthy explicit key is the selected key, on every url. *)
Lemma select_explicit (u k : string) :
  truthy k = true -> select_api_key env u (Some k) = Some k.
Proof.
  intros Hk. unfold select_api_key.
  destruct (startswith u "https://civitai.com");
    destruct (startswith u "https://huggingface.co");
    now rewrite ?py_or_truthy.
Qed.

(** A falsy explicit key gives way to [CIVITAI_TOKEN] on a url of the
    first host. *)
Lemma select_civitai (u : string) (api_key : option string) :
  truthy_opt api_key = false ->
  startswith u "https://civitai.com" = true ->
  select_api_key env u api_key = environ env !! "CIVITAI_TOKEN".
Proof.
  intros Hk Hc. unfold select_api_key.
  now rewrite Hc, (hosts_exclusive u Hc), py_or_falsy.
Qed.

(** A falsy explicit key gives way to [HUGGINGFACE_TOKEN] on a url of the
    second host. *)
Lemma select_huggingface (u : string) (api_key : option string) :
  truthy_opt api_key = false ->
  startswith u "https://huggingface.co" = true ->
  select_api_key env u api_key = environ env !! "HUGGINGFACE_TOKEN".
Proof.
  intros Hk Hh. unfold select_api_key.
  destruct (startswith u "https://civitai.com") eqn:Hc.
  - apply hosts_exclusive in Hc. congruence.
  - now rewrite Hh, py_or_falsy.
Qed.

(** On any other url the explicit key is all there is. *)
Lemma select_other (u : string) (api_key : option string) :
  startswith u "https://civitai.com" = false ->
  startswith u "https://huggingface.co" = false ->
  select_api_key env u api_key = api_key.
Proof. intros Hc Hh. unfold select_api_key. now rewrite Hc, Hh. Qed.

Lemma bearer_headers_truthy (t : string) :
  truthy t = true ->
  bearer_headers (Some t) = Some {[ "Authorization" := "Bearer " +:+ t ]}.
Proof. intros Ht. unfold bearer_headers. cbn. now rewrite Ht. Qed.

Lemma bearer_headers_falsy (k : option string) :
  truthy_opt k = false -> bearer_headers k = None.
Proof. intros Hk. unfold bearer_headers. now rewrite Hk. Qed.

End Token.

(** The claim of C5 fails: the explicit key is the empty string, the
    environment holds [CIVITAI_TOKEN], and the request carries the token
    of the environment; had the explicit key come first, the request
    would carry no [Authorization] header. *)
Lemma explicit_empty_key_gives_way :
  select_api_key Sample.env_ok "https://civitai.com/api/download/1"
    (Some EmptyString) = Some "civ-env"
  /\ select_api_key Sample.env_ok "https://civitai.com/api/download/1"
       (Some EmptyString) <> Some EmptyString
  /\ requests
       (trace (snd (download_lora (H := Sample.host) Sample.env_ok Sample.table
                      5%nat "detail" 1 1 None (Some EmptyString) (Some 4)
                      Sample.empty_world)))
     = [("https://civitai.com/api/download/1",
         Some {[ "Authorization" := "Bearer civ-env" ]})]
  /\ bearer_headers (Some EmptyString) = None.
Proof.
  split; [reflexivity|]. split; [discriminate|]. split; reflexivity.
Qed.

(** C5, amended.  The one call of [requests.get] of an invocation is
    given the headers of the selected key.  An explicit key that is not
    the empty string is the selected key whatever the environment holds.
    When the explicit
    key is [None] or the empty string, the selected key is the value of
    [CIVITAI_TOKEN] for a url that starts with [https://civitai.com], the
    value of [HUGGINGFACE_TOKEN] for a url that starts with
    [https://huggingface.co], and the explicit key itself for any other
    url.  A selected key that is a non-empty string [t] is sent as
    [Authorization: Bearer t]; when the selected key is [None] or empty
    the call is given no headers at all. *)
Theorem api_key_selection `{Host} (env : environment)
        (NODE_CONFIG : gmap string (list entry)) (model : Model)
        (lora_name : string) (sm sc : Strength) (clip : option Clip)
        (api_key : option string) (chunks : option Z)
        (records : list entry) (u : string) (w : world) :
  NODE_CONFIG !! "loras" = Some records ->
  find_url records lora_name = Some u ->
  truthy u = true ->
  requests
    (trace (snd (download_lora env NODE_CONFIG model lora_name sm sc clip
                   api_key chunks w)))
  = requests (trace w)
    ++ [(u, bearer_headers (select_api_key env u api_key))]
  /\ (forall k, api_key = Some k -> k <> EmptyString ->
        select_api_key env u api_key = Some k)
  /\ (api_key = None \/ api_key = Some EmptyString ->
      (startswith u "https://civitai.com" = true ->
       select_api_key env u api_key = environ env !! "CIVITAI_TOKEN")
      /\ (startswith u "https://huggingface.co" = true ->
          select_api_key env u api_key = environ env !! "HUGGINGFACE_TOKEN")
      /\ (startswith u "https://civitai.com" = false ->
          startswith u "https://huggingface.co" = false ->
          select_api_key env u api_key = api_key))
  /\ (forall t, select_api_key env u api_key = Some t -> t <> EmptyString ->
        bearer_headers (select_api_key env u api_key)
        = Some {[ "Authorization" := "Bearer " +:+ t ]})
  /\ (select_api_key env u api_key = None
      \/ select_api_key env u api_key = Some EmptyString ->
      bearer_headers (select_api_key env u api_key) = None).
Proof.
  intros Hcfg Hfind Hu.
  split; [eapply download_lora_requests; eassumption|].
  split; [|split; [|split]].
  - intros k -> Hk. apply select_explicit. now apply truthy_nonempty.
  - intros Hk.
    assert (truthy_opt api_key = false) as Hfalsy
      by (destruct Hk as [-> | ->]; reflexivity).
    split; [|split].
    + now apply select_civitai.
    + now apply select_huggingface.
    + apply select_other.
  - intros t -> Ht. apply bearer_headers_truthy. now apply truthy_nonempty.
  - intros [-> | ->]; reflexivity.
Qed.

(** An explicit key and both environment tokens: the explicit key is
    sent. *)
Lemma api_key_selection_witness :
  (Sample.table !! "loras" = Some Sample.loras
   /\ find_url Sample.loras "detail" = Some "https://civitai.com/api/download/1"
   /\ truthy "https://civitai.com/api/download/1" = true)
  /\ requests
       (trace (snd (download_lora (H := Sample.host) Sample.env_ok Sample.table
                      5%nat "detail" 1 1 None (Some "explicit") (Some 4)
                      Sample.empty_world)))
     = requests (trace Sample.empty_world)
       ++ [("https://civitai.com/api/download/1",
            bearer_headers
              (select_api_key Sample.env_ok
                 "https://civitai.com/api/download/1" (Some "explicit")))]
  /\ select_api_key Sample.env_ok "https://civitai.com/api/download/1"
       (Some "explicit") = Some "explicit".
Proof.
  split; [repeat split; reflexivity|].
  destruct (api_key_selection (H := Sample.host) Sample.env_ok Sample.table
              5%nat "detail" 1 1 None (Some "explicit") (Some 4) Sample.loras
              "https://civitai.com/api/download/1" Sample.empty_world
              eq_refl eq_refl eq_refl) as (Hreq & Hexplicit & _).
  split; [exact Hreq|].
  apply (Hexplicit "explicit"); [reflexivity | discriminate].
Defined.

(** The claim of C9 fails for a url of the host that does not start with
    the prefix the node tests: the host of
    [http://civitai.com/api/download/1] is [civitai.com], the explicit key
    is the empty string and [CIVITAI_TOKEN] is set, and the request
    carries no [Authorization] header. *)
Lemma empty_key_on_plain_http :
  environ Sample.env_ok !! "CIVITAI_TOKEN" = Some "civ-env"
  /\ select_api_key Sample.env_ok "http://civitai.com/api/download/1"
       (Some EmptyString) = Some EmptyString
  /\ requests
       (trace (snd (download_lora (H := Sample.host) Sample.env_ok
                      {[ "loras"
                         := [Entry "plain"
                               "http://civitai.com/api/download/1"] ]}
                      5%nat "plain" 1 1 None (Some EmptyString) (Some 4)
                      Sample.empty_world)))
     = [("http://civitai.com/api/download/1", None)].
Proof. split; [reflexivity|]. split; reflexivity. Qed.

(** C9, amended.  The explicit key is the empty string.  When the url
    starts with [https://civitai.com] and [CIVITAI_TOKEN] is set, or
    starts with [https://huggingface.co] and [HUGGINGFACE_TOKEN] is set,
    the selected key is the token of the environment, and when that token
    is not empty it is the one sent in the [Authorization] header of the
    request.  When the url starts with neither prefix, whatever its host,
    the environment is not looked at: the selected key is the empty
    string and the request carries no headers. *)
Theorem empty_api_key_uses_environment `{Host} (env : environment)
        (NODE_CONFIG : gmap string (list entry)) (model : Model)
        (lora_name : string) (sm sc : Strength) (clip : option Clip)
        (chunks : option Z) (records : list entry) (u : string)
        (w : world) :
  NODE_CONFIG !! "loras" = Some records ->
  find_url records lora_name = Some u ->
  truthy u = true ->
  let sent :=
    requests
      (trace (snd (download_lora env NODE_CONFIG model lora_name sm sc clip
                     (Some EmptyString) chunks w))) in
  (forall t,
      (startswith u "https://civitai.com" = true
       /\ environ env !! "CIVITAI_TOKEN" = Some t)
      \/ (startswith u "https://huggingface.co" = true
          /\ environ env !! "HUGGINGFACE_TOKEN" = Some t) ->
      select_api_key env u (Some EmptyString) = Some t
      /\ (t <> EmptyString ->
          sent
          = requests (trace w)
            ++ [(u, Some {[ "Authorization" := "Bearer " +:+ t ]})]))
  /\ (startswith u "https://civitai.com" = false ->
      startswith u "https://huggingface.co" = false ->
      select_api_key env u (Some EmptyString) = Some EmptyString
      /\ sent = requests (trace w) ++ [(u, None)]).
Proof.
  intros Hcfg Hfind Hu. cbv zeta.
  rewrite (download_lora_requests env NODE_CONFIG model lora_name sm sc clip
             (Some EmptyString) chunks records u Hcfg Hfind Hu w).
  split.
  - intros t Hhost.
    assert (select_api_key env u (Some EmptyString) = Some t) as Hsel.
    { destruct Hhost as [[Hc Ht] | [Hh Ht]].
      - now rewrite select_civitai.
      - now rewrite select_huggingface. }
    split; [exact Hsel|]. intros Hne.
    rewrite Hsel, bearer_headers_truthy by now apply truthy_nonempty.
    reflexivity.
  - intros Hc Hh. rewrite (select_other env u _ Hc Hh).
    split; reflexivity.
Qed.

(** The second sample record is on the second host; the url of the
    record [plain] starts with neither prefix. *)
Lemma empty_api_key_uses_environment_witness :
  (Sample.table !! "loras" = Some Sample.loras
   /\ find_url Sample.loras "style"
      = Some "https://huggingface.co/u/r/style.bin"
   /\ startswith "https://huggingface.co/u/r/style.bin"
        "https://huggingface.co" = true
   /\ environ Sample.env_ok !! "HUGGINGFACE_TOKEN" = Some "hf-env")
  /\ select_api_key Sample.env_ok "https://huggingface.co/u/r/style.bin"
       (Some EmptyString) = Some "hf-env"
  /\ requests
       (trace (snd (download_lora (H := Sample.host) Sample.env_ok Sample.table
                      5%nat "style" 1 1 None (Some EmptyString) (Some 4)
                      Sample.empty_world)))
     = [("https://huggingface.co/u/r/style.bin",
         Some {[ "Authorization" := "Bearer hf-env" ]})].
Proof.
  split; [repeat split; reflexivity|].
  destruct (empty_api_key_uses_environment (H := Sample.host) Sample.env_ok
              Sample.table 5%nat "style" 1 1 None (Some 4) Sample.loras
              "https://huggingface.co/u/r/style.bin"
              Sample.empty_world eq_refl eq_refl eq_refl) as [Henv _].
  destruct (Henv "hf-env" (or_intror (conj eq_refl eq_refl))) as [Hsel Hreq].
  split; [exact Hsel|]. apply Hreq. discriminate.
Defined.

Import ObsMore.

(** ** Every outcome of [load_config] *)
Section ConfigOutcomes.
Variable json_load : string -> outcome (gmap string (list entry)).
Variable env : environment.

(** What the three [except] clauses make of an exception. *)
Lemma load_config_handler (filename : string) (w : world) (e : exn) :
  (open_r env (dest (module_dir env) filename) w = (Raised e, w)
   \/ exists text,
       open_r env (dest (module_dir env) filename) w = (Returned text, w)
       /\ json_load text = Raised e) ->
  is_Exception e = false ->
  load_config json_load env filename w = (Raised e, w).
Proof.
  intros Hbody Hexn. unfold load_config, bind, try_except.
  rewrite join_dest. cbn [lift].
  assert (exn_cls e = KeyboardInterrupt) as Hcls.
  { unfold is_Exception in Hexn. destruct (exn_cls e); congruence. }
  destruct Hbody as [-> | (text & -> & ->)]; rewrite Hcls, Hexn; reflexivity.
Qed.

Lemma load_config_returns (filename text : string) (w : world)
      (config : gmap string (list entry)) :
  open_error env (dest (module_dir env) filename) = None ->
  files w !! dest (module_dir env) filename = Some text ->
  json_load text = Returned config ->
  load_config json_load env filename w
  = (Returned config,
     record w [ELog INFO ("Successfully loaded configuration from "
                          +:+ filename)]).
Proof.
  intros Hopen Htext Hjson. unfold load_config, bind, try_except.
  rewrite join_dest. cbn [lift]. unfold open_r.
  rewrite Hopen, Htext, Hjson. reflexivity.
Qed.

End ConfigOutcomes.

(** X1.  [load_config] has three outcomes and no other, whatever the
    file system and [json.load] do.  It returns the table that
    [json.load] made of the text of the file, with one INFO record; or it
    returns the built-in table with one record that is a warning or an
    error; or it raises an exception that does not derive from
    [Exception], the one kind its handlers let through, and logs nothing.
    It never changes a file. *)
Theorem load_config_outcomes
        (json_load : string -> outcome (gmap string (list entry)))
        (env : environment) (filename : string) (w : world) :
  files (snd (load_config json_load env filename w)) = files w
  /\ ((exists text config,
         files w !! dest (module_dir env) filename = Some text
         /\ json_load text = Returned config
         /\ load_config json_load env filename w
            = (Returned config,
               record w [ELog INFO ("Successfully loaded configuration from "
                                    +:+ filename)]))
      \/ (exists lvl msg,
            lvl <> INFO
            /\ load_config json_load env filename w
               = (Returned default_config, record w [ELog lvl msg]))
      \/ (exists e,
            is_Exception e = false
            /\ load_config json_load env filename w = (Raised e, w))).
Proof.
  assert (forall e,
             (open_r env (dest (module_dir env) filename) w = (Raised e, w)
              \/ exists text,
                  open_r env (dest (module_dir env) filename) w
                  = (Returned text, w)
                  /\ json_load text = Raised e) ->
             files (snd (load_config json_load env filename w)) = files w
             /\ ((exists lvl msg,
                    lvl <> INFO
                    /\ load_config json_load env filename w
                       = (Returned default_config, record w [ELog lvl msg]))
                 \/ (exists e',
                       is_Exception e' = false
                       /\ load_config json_load env filename w
                          = (Raised e', w)))) as Hraised.
  { intros e Hbody. destruct (is_Exception e) eqn:Hexn.
    - destruct (load_config_caught json_load env filename w e Hbody Hexn)
        as [msg Hrun].
      rewrite Hrun. split; [reflexivity|]. left.
      eexists _, msg. split; [|reflexivity]. now destruct (exn_cls e).
    - rewrite (load_config_handler json_load env filename w e Hbody Hexn).
      split; [reflexivity|]. right. exists e. auto. }
  destruct (open_error env (dest (module_dir env) filename)) as [e|] eqn:Hopen.
  { destruct (Hraised e) as [Hf Hcases].
    - left. unfold open_r. now rewrite Hopen.
    - split; [exact Hf|]. right. exact Hcases. }
  destruct (files w !! dest (module_dir env) filename) as [text|] eqn:Htext.
  2:{ destruct (Hraised (Exn FileNotFoundError
                           ("No such file or directory: "
                            +:+ dest (module_dir env) filename)))
        as [Hf Hcases].
      - left. unfold open_r. now rewrite Hopen, Htext.
      - split; [exact Hf|]. right. exact Hcases. }
  destruct (json_load text) as [config|e] eqn:Hjson.
  - rewrite (load_config_returns json_load env filename text w config
               Hopen Htext Hjson).
    split; [reflexivity|]. left. eauto.
  - destruct (Hraised e) as [Hf Hcases].
    + right. exists text. unfold open_r. now rewrite Hopen, Htext.
    + split; [exact Hf|]. right. exact Hcases.
Qed.

(** ** What [INPUT_TYPES] offers *)

Lemma fmap_name_map (records : list entry) :
  name <$> records = map name records.
Proof.
  induction records as [|r records IH]; cbn; [|rewrite IH]; reflexivity.
Qed.

(** X2.  The names [INPUT_TYPES] offers for a category are exactly the
    names the search loop of the node finds in that category's list: a
    name is offered when, and only when, the table has the category and
    the loop returns a url for the name. *)
Theorem offered_names_are_found (NODE_CONFIG : gmap string (list entry))
        (category n : string) :
  In n (input_names NODE_CONFIG category)
  <-> exists records u,
        NODE_CONFIG !! category = Some records
        /\ find_url records n = Some u.
Proof.
  unfold input_names. split.
  - destruct (NODE_CONFIG !! category) as [records|]; cbn [default].
    + rewrite fmap_name_map. intros Hin.
      destruct (find_url_present records n Hin) as (_ & r & _ & _ & _ & _ & Hf).
      eauto.
    + intros [].
  - intros (records & u & -> & Hfind). cbn [default].
    rewrite fmap_name_map.
    apply find_url_some in Hfind.
    apply in_map_iff. exists (Entry n u). auto.
Qed.




(** ** The body on disk *)
Section BodyOnDisk.
Variable env : environment.

Lemma progress_app (t1 t2 : list event) :
  progress (t1 ++ t2) = progress t1 + progress t2.
Proof.
  induction t1 as [|e t1 IH]; [reflexivity|].
  destruct e; cbn [app progress]; rewrite ?IH; lia.
Qed.

(** The progress bar is advanced by the length of what is written. *)
Lemma progress_chunk_events (path : string) (chunks : list string) :
  progress (chunk_events path chunks)
  = Z.of_nat (String.length (joined chunks)).
Proof.
  induction chunks as [|d chunks IH]; [reflexivity|].
  cbn [chunk_events progress joined]. rewrite IH, length_append. lia.
Qed.

(** The whole run of the [try] block on a body that arrives whole. *)
Lemma stream_to_file_clean_run (r : response) (path : string) (n total : Z)
      (w : world) :
  total_size r = Returned total ->
  tqdm_error env total = None ->
  open_error env path = None ->
  Forall (fun data => write_error env path data = None)
         (fst (iter_content r (n * 1024))) ->
  snd (iter_content r (n * 1024)) = None ->
  stream_to_file env r path (Some n) w
  = (Returned tt,
     World (<[path := joined (fst (iter_content r (n * 1024)))]> (files w))
           (trace w
            ++ body_events path total (n * 1024)
                 (fst (iter_content r (n * 1024)))
            ++ [EProgressClose])).
Proof.
  intros Htotal Hbar Hopen Hwrite Hiter.
  unfold stream_to_file, bind, lift. fold (total_size r). rewrite Htotal.
  unfold tqdm_new. rewrite Hbar, emit_run.
  unfold open_wb. rewrite Hopen. unfold bind.
  rewrite !emit_run. cbn [put_file record files trace]. rewrite emit_run.
  rewrite (write_chunks_clean _ _ _ _ EmptyString Hwrite)
    by (cbn; apply lookup_insert_eq).
  rewrite Hiter. cbn [ret]. rewrite emit_run.
  unfold record. cbn [files trace]. rewrite ?insert_insert_eq.
  change (EmptyString +:+ joined (fst (iter_content r (n * 1024))))
    with (joined (fst (iter_content r (n * 1024)))).
  unfold body_events. rewrite <- ?app_assoc. reflexivity.
Qed.

(** The whole run of the [try] block on a body that breaks off: what
    arrived is on disk. *)
Lemma stream_to_file_broken_run (r : response) (path : string) (n total : Z)
      (e : exn) (w : world) :
  total_size r = Returned total ->
  tqdm_error env total = None ->
  open_error env path = None ->
  Forall (fun data => write_error env path data = None)
         (fst (iter_content r (n * 1024))) ->
  snd (iter_content r (n * 1024)) = Some e ->
  stream_to_file env r path (Some n) w
  = (Raised e,
     World (<[path := joined (fst (iter_content r (n * 1024)))]> (files w))
           (trace w
            ++ body_events path total (n * 1024)
                 (fst (iter_content r (n * 1024))))).
Proof.
  intros Htotal Hbar Hopen Hwrite Hiter.
  unfold stream_to_file, bind, lift. fold (total_size r). rewrite Htotal.
  unfold tqdm_new. rewrite Hbar, emit_run.
  unfold open_wb. rewrite Hopen. unfold bind.
  rewrite !emit_run. cbn [put_file record files trace]. rewrite emit_run.
  rewrite (write_chunks_clean _ _ _ _ EmptyString Hwrite)
    by (cbn; apply lookup_insert_eq).
  rewrite Hiter. cbn [raise].
  unfold record. cbn [files trace]. rewrite ?insert_insert_eq.
  change (EmptyString +:+ joined (fst (iter_content r (n * 1024))))
    with (joined (fst (iter_content r (n * 1024)))).
  unfold body_events. rewrite <- ?app_assoc. reflexivity.
Qed.

(** The loop changes no file but the one it writes. *)
Lemma write_chunks_frame (path other : string) (chunks : list string)
      (w : world) :
  other <> path ->
  files (snd (write_chunks env path chunks w)) !! other = files w !! other.
Proof.
  intros Hne. revert w.
  induction chunks as [|d chunks IH]; intros w; [reflexivity|].
  cbn [write_chunks]. unfold bind, write. rewrite emit_run.
  destruct (write_error env path d) as [e|]; [reflexivity|].
  unfold bind. rewrite emit_run. cbn [put_file]. rewrite IH.
  cbn [files record]. now rewrite lookup_insert_ne by congruence.
Qed.

(** The [try] block changes no file but the destination. *)
Lemma stream_to_file_frame (r : response) (path other : string)
      (chunks : option Z) (w : world) :
  other <> path ->
  files (snd (stream_to_file env r path chunks w)) !! other
  = files w !! other.
Proof.
  intros Hne. unfold stream_to_file, bind, lift. fold (total_size r).
  destruct (total_size r) as [total|]; [|reflexivity].
  destruct chunks as [n|]; [|reflexivity].
  unfold tqdm_new. destruct (tqdm_error env total); [reflexivity|].
  rewrite !emit_run. unfold open_wb.
  destruct (open_error env path); [reflexivity|].
  unfold bind. rewrite !emit_run. cbn [put_file]. rewrite !emit_run.
  match goal with
  | |- context [write_chunks env path ?c ?wa] =>
      pose proof (write_chunks_frame path other c wa Hne) as Hframe;
      destruct (write_chunks env path c wa) as [[[]|ea] wa']
  end; cbn [snd] in Hframe; cbn [record files] in Hframe;
    rewrite lookup_insert_ne in Hframe by congruence.
  - destruct (snd (iter_content r (n * 1024))); cbn [raise ret snd];
      rewrite ?emit_run; cbn [snd record files]; exact Hframe.
  - exact Hframe.
Qed.

End BodyOnDisk.

(** ** A download from start to end *)
Section Download.
Context `{Host}.
Variable env : environment.
Variable NODE_CONFIG : gmap string (list entry).
Variables (model : Model) (lora_name : string) (sm sc : Strength)
          (clip : option Clip) (api_key : option string)
          (records : list entry) (u : string) (r : response) (f : string).
Hypothesis Hcfg : NODE_CONFIG !! "loras" = Some records.
Hypothesis Hfind : find_url records lora_name = Some u.
Hypothesis Hu : truthy u = true.
Hypothesis Hget :
  requests_get env u (bearer_headers (select_api_key env u api_key))
  = Returned r.
Hypothesis Hname : derive_filename r = Returned (Some f).

Local Abbreviation run chunks :=
  (download_lora env NODE_CONFIG model lora_name sm sc clip api_key chunks).
Local Abbreviation path := (dest (category_dir env "loras") f).
Local Abbreviation before w :=
  (record (record w (request_trace env "loras" u api_key))
     [lora_downloading u (Some f%string) path]).

Lemma progress_request_trace (category the_url : string)
      (key : option string) :
  progress (request_trace env category the_url key) = 0.
Proof.
  unfold request_trace, auth_log.
  now destruct (truthy_opt (select_api_key env the_url key)).
Qed.

(** The run on a body that arrives whole. *)
Lemma download_lora_whole (n total : Z) (w : world) :
  ~ bad_status r ->
  exists_at env w path = false ->
  total_size r = Returned total ->
  tqdm_error env total = None ->
  open_error env path = None ->
  Forall (fun data => write_error env path data = None)
         (fst (iter_content r (n * 1024))) ->
  snd (iter_content r (n * 1024)) = None ->
  run (Some n) w
  = (load_lora (<[path := joined (fst (iter_content r (n * 1024)))]> (files w))
       model clip (Some f) sm sc,
     World (<[path := joined (fst (iter_content r (n * 1024)))]> (files w))
           (trace w
            ++ request_trace env "loras" u api_key
            ++ [lora_downloading u (Some f) path]
            ++ body_events path total (n * 1024)
                 (fst (iter_content r (n * 1024)))
            ++ [EProgressClose;
                ELog INFO ("Successfully downloaded '" +:+ lora_name
                           +:+ "'.")])).
Proof.
  intros Hok Hex Htotal Hbar Hopen Hwrite Hiter.
  pose proof (stream_to_file_clean_run env r path n total (before w)
                Htotal Hbar Hopen Hwrite Hiter) as Hs.
  rewrite (download_lora_fetched env NODE_CONFIG model lora_name sm sc clip
             api_key (Some n) records u Hcfg Hfind Hu w _ r f Hget Hok Hname
             Hex Hs).
  unfold record. cbn [files trace]. rewrite <- !app_assoc. reflexivity.
Qed.

(** The run on a body that breaks off with an exception that is caught. *)
Lemma download_lora_broken (n total : Z) (e : exn) (w : world) :
  ~ bad_status r ->
  exists_at env w path = false ->
  total_size r = Returned total ->
  tqdm_error env total = None ->
  open_error env path = None ->
  Forall (fun data => write_error env path data = None)
         (fst (iter_content r (n * 1024))) ->
  snd (iter_content r (n * 1024)) = Some e ->
  is_Exception e = true ->
  run (Some n) w
  = (Returned (model, clip),
     World (<[path := joined (fst (iter_content r (n * 1024)))]> (files w))
           (trace w
            ++ request_trace env "loras" u api_key
            ++ [lora_downloading u (Some f) path]
            ++ body_events path total (n * 1024)
                 (fst (iter_content r (n * 1024)))
            ++ [lora_failure lora_name e])).
Proof.
  intros Hok Hex Htotal Hbar Hopen Hwrite Hiter Hexn.
  pose proof (stream_to_file_broken_run env r path n total e (before w)
                Htotal Hbar Hopen Hwrite Hiter) as Hs.
  rewrite (download_lora_caught env NODE_CONFIG model lora_name sm sc clip
             api_key (Some n) records u Hcfg Hfind Hu w _ r f e Hget Hok Hname
             Hex Hs Hexn).
  unfold record. cbn [files trace]. rewrite <- !app_assoc. reflexivity.
Qed.

(** Whatever the status and the body, no file but the destination
    changes. *)
Lemma download_lora_frame (chunks : option Z) (other : string) (w : world) :
  other <> path ->
  files (snd (run chunks w)) !! other = files w !! other.
Proof.
  intros Hne.
  destruct (bad_status_dec r) as [Hbad|Hok].
  { destruct (download_lora_bad_status env NODE_CONFIG model lora_name sm sc
                clip api_key chunks records u Hcfg Hfind Hu w r Hget Hbad)
      as [msg ->].
    reflexivity. }
  destruct (exists_at env w path) eqn:Hex.
  { rewrite (download_lora_cached env NODE_CONFIG model lora_name sm sc clip
               api_key chunks records u Hcfg Hfind Hu w r f Hget Hok Hname
               Hex).
    reflexivity. }
  pose proof (stream_to_file_frame env r path other chunks (before w) Hne)
    as Hframe.
  destruct (stream_to_file env r path chunks (before w)) as [[[]|e] w2] eqn:Hs;
    cbn [snd] in Hframe.
  - rewrite (download_lora_fetched env NODE_CONFIG model lora_name sm sc clip
               api_key chunks records u Hcfg Hfind Hu w w2 r f Hget Hok Hname
               Hex Hs).
    exact Hframe.
  - destruct (is_Exception e) eqn:Hexn.
    + rewrite (download_lora_caught env NODE_CONFIG model lora_name sm sc
                 clip api_key chunks records u Hcfg Hfind Hu w w2 r f e Hget
                 Hok Hname Hex Hs Hexn).
      exact Hframe.
    + rewrite (download_lora_uncaught env NODE_CONFIG model lora_name sm sc
                 clip api_key chunks records u Hcfg Hfind Hu w w2 r f e Hget
                 Hok Hname Hex Hs Hexn).
      exact Hframe.
Qed.

End Download.

(** X5.  A download that goes through puts the body on disk as it came:
    the destination holds the chunks of the response joined in the order
    they arrived, the progress bar has advanced by exactly the length of
    that content, the host loader is called with the derived file name on
    the disk that holds the new file, and the last thing logged is the
    success. *)
Theorem download_writes_body `{Host} (env : environment)
        (NODE_CONFIG : gmap string (list entry)) (model : Model)
        (lora_name : string) (sm sc : Strength) (clip : option Clip)
        (api_key : option string) (n : Z) (records : list entry)
        (u : string) (r : response) (f : string) (w : world) :
  NODE_CONFIG !! "loras" = Some records ->
  find_url records lora_name = Some u ->
  truthy u = true ->
  requests_get env u (bearer_headers (select_api_key env u api_key))
  = Returned r ->
  ~ bad_status r ->
  derive_filename r = Returned (Some f) ->
  exists_at env w (dest (category_dir env "loras") f) = false ->
  clean_body env r (dest (category_dir env "loras") f) n ->
  let body := joined (fst (iter_content r (n * 1024))) in
  let out :=
    download_lora env NODE_CONFIG model lora_name sm sc clip api_key (Some n)
      w in
  fst out
  = load_lora (<[dest (category_dir env "loras") f := body]> (files w))
      model clip (Some f) sm sc
  /\ files (snd out) = <[dest (category_dir env "loras") f := body]> (files w)
  /\ progress (trace (snd out))
     = progress (trace w) + Z.of_nat (String.length body)
  /\ last (trace (snd out))
     = Some (ELog INFO ("Successfully downloaded '" +:+ lora_name +:+ "'.")).
Proof.
  intros Hcfg Hfind Hu Hget Hok Hname Hex
         ((total & Htotal & Hbar) & Hopen & Hwrite & Hiter).
  cbv zeta.
  rewrite (download_lora_whole env NODE_CONFIG model lora_name sm sc clip
             api_key records u r f Hcfg Hfind Hu Hget Hname n total w Hok Hex
             Htotal Hbar Hopen Hwrite Hiter).
  cbn [fst snd files trace]. split; [reflexivity|]. split; [reflexivity|].
  split.
  - rewrite !progress_app, progress_request_trace. unfold body_events.
    cbn [progress lora_downloading].
    rewrite progress_chunk_events. lia.
  - change [EProgressClose;
            ELog INFO ("Successfully downloaded '" +:+ lora_name +:+ "'.")]
      with ([EProgressClose]
            ++ [ELog INFO ("Successfully downloaded '" +:+ lora_name
                           +:+ "'.")]).
    rewrite !app_assoc. apply last_snoc.
Qed.

Lemma download_writes_body_witness :
  (exists_at Sample.env_ok Sample.empty_world
     (dest (category_dir Sample.env_ok "loras") "foo.safetensors") = false
   /\ clean_body Sample.env_ok (SampleMore.answer (Some Sample.cd_foo) None)
        (dest (category_dir Sample.env_ok "loras") "foo.safetensors") 4)
  /\ files (snd (download_lora (H := Sample.host) Sample.env_ok Sample.table
                   5%nat "detail" 1 1 None None (Some 4) Sample.empty_world))
     = <[dest (category_dir Sample.env_ok "loras") "foo.safetensors"
         := joined (fst (iter_content
                           (SampleMore.answer (Some Sample.cd_foo) None)
                           (4 * 1024)))]> (files Sample.empty_world).
Proof.
  assert (clean_body Sample.env_ok (SampleMore.answer (Some Sample.cd_foo) None)
            (dest (category_dir Sample.env_ok "loras") "foo.safetensors") 4)
    as Hclean.
  { split; [exists 6; split; reflexivity|]. split; [reflexivity|].
    split; [cbn; repeat constructor | reflexivity]. }
  assert (~ bad_status (SampleMore.answer (Some Sample.cd_foo) None)) as Hok
    by (unfold bad_status; cbn; lia).
  split; [split; [reflexivity | exact Hclean]|].
  destruct (download_writes_body (H := Sample.host) Sample.env_ok Sample.table
              5%nat "detail" 1 1 None None 4 Sample.loras
              "https://civitai.com/api/download/1"
              (SampleMore.answer (Some Sample.cd_foo) None) "foo.safetensors"
              Sample.empty_world eq_refl eq_refl eq_refl eq_refl Hok eq_refl
              eq_refl Hclean) as (_ & Hfiles & _).
  exact Hfiles.
Defined.

(** X6.  Once the response names a file, the node changes no file other
    than the destination, whatever the status of the response, whether or
    not the destination exists, and however the download ends. *)
Theorem download_touches_only_destination `{Host} (env : environment)
        (NODE_CONFIG : gmap string (list entry)) (model : Model)
        (lora_name : string) (sm sc : Strength) (clip : option Clip)
        (api_key : option string) (chunks : option Z)
        (records : list entry) (u : string) (r : response) (f other : string)
        (w : world) :
  NODE_CONFIG !! "loras" = Some records ->
  find_url records lora_name = Some u ->
  truthy u = true ->
  requests_get env u (bearer_headers (select_api_key env u api_key))
  = Returned r ->
  derive_filename r = Returned (Some f) ->
  other <> dest (category_dir env "loras") f ->
  files (snd (download_lora env NODE_CONFIG model lora_name sm sc clip api_key
                chunks w)) !! other
  = files w !! other.
Proof.
  intros Hcfg Hfind Hu Hget Hname Hne.
  now apply (download_lora_frame env NODE_CONFIG model lora_name sm sc clip
               api_key records u r f Hcfg Hfind Hu Hget Hname).
Qed.

(** The body breaks off while [foo.safetensors] is written; the file
    [/models/other.bin] is as it was. *)
Lemma download_touches_only_destination_witness :
  ("/models/other.bin"
   <> dest (category_dir Sample.env_drop "loras") "foo.safetensors"
   /\ derive_filename
        (SampleMore.answer (Some Sample.cd_foo)
           (Some (Exn ChunkedEncodingError "Connection broken")))
      = Returned (Some "foo.safetensors"))
  /\ files (snd (download_lora (H := Sample.host) Sample.env_drop Sample.table
                   5%nat "detail" 1 1 None None (Some 4)
                   (World {[ "/models/other.bin" := "kept" ]} [])))
       !! "/models/other.bin"
     = Some "kept".
Proof.
  assert ("/models/other.bin"
          <> dest (category_dir Sample.env_drop "loras") "foo.safetensors")
    as Hne by discriminate.
  split; [split; [exact Hne | reflexivity]|].
  rewrite (download_touches_only_destination (H := Sample.host)
             Sample.env_drop Sample.table 5%nat "detail" 1 1 None None
             (Some 4) Sample.loras "https://civitai.com/api/download/1"
             (SampleMore.answer (Some Sample.cd_foo)
                (Some (Exn ChunkedEncodingError "Connection broken")))
             "foo.safetensors" "/models/other.bin"
             (World {[ "/models/other.bin" := "kept" ]} [])
             eq_refl eq_refl eq_refl eq_refl eq_refl Hne).
  reflexivity.
Defined.

(** X7.  A download that breaks off leaves what arrived at the
    destination, and the node never looks at it again: the invocation
    that failed returns [model] and [clip], the destination holds the
    chunks that came before the failure, and the next invocation for the
    same name finds the file, reads no body, leaves the file as it is and
    hands it to the host loader. *)
Theorem broken_download_is_reused `{Host} (env : environment)
        (NODE_CONFIG : gmap string (list entry)) (model : Model)
        (lora_name : string) (sm sc : Strength) (clip : option Clip)
        (api_key : option string) (n : Z) (records : list entry)
        (u : string) (r : response) (f : string) (e : exn) (w : world) :
  NODE_CONFIG !! "loras" = Some records ->
  find_url records lora_name = Some u ->
  truthy u = true ->
  requests_get env u (bearer_headers (select_api_key env u api_key))
  = Returned r ->
  ~ bad_status r ->
  derive_filename r = Returned (Some f) ->
  exists_at env w (dest (category_dir env "loras") f) = false ->
  broken_body env r (dest (category_dir env "loras") f) n e ->
  is_Exception e = true ->
  let first :=
    download_lora env NODE_CONFIG model lora_name sm sc clip api_key (Some n)
      w in
  let second :=
    download_lora env NODE_CONFIG model lora_name sm sc clip api_key (Some n)
      (snd first) in
  fst first = Returned (model, clip)
  /\ files (snd first)
     = <[dest (category_dir env "loras") f
         := joined (fst (iter_content r (n * 1024)))]> (files w)
  /\ fst second = load_lora (files (snd first)) model clip (Some f) sm sc
  /\ files (snd second) = files (snd first)
  /\ streams (trace (snd second)) = streams (trace (snd first)).
Proof.
  intros Hcfg Hfind Hu Hget Hok Hname Hex
         ((total & Htotal & Hbar) & Hopen & Hwrite & Hiter) Hexn.
  cbv zeta.
  rewrite (download_lora_broken env NODE_CONFIG model lora_name sm sc clip
             api_key records u r f Hcfg Hfind Hu Hget Hname n total e w Hok
             Hex Htotal Hbar Hopen Hwrite Hiter Hexn).
  cbn [fst snd files]. split; [reflexivity|]. split; [reflexivity|].
  match goal with
  | |- context [download_lora _ _ _ _ _ _ _ _ _ ?w1] =>
      assert (exists_at env w1 (dest (category_dir env "loras") f) = true)
        as Hnow
  end.
  { unfold exists_at. cbn [files]. rewrite lookup_insert_eq.
    rewrite bool_decide_eq_true_2 by eauto. apply orb_true_r. }
  destruct (download_lora_guarded env NODE_CONFIG model lora_name sm sc clip
              api_key records u r f Hcfg Hfind Hu Hget Hok Hname (Some n) _
              Hnow) as (Hout & Hfiles & _ & Hstreams & _).
  cbn [files] in Hout, Hfiles. auto.
Qed.

Lemma broken_download_is_reused_witness :
  (broken_body Sample.env_drop
     (SampleMore.answer (Some Sample.cd_foo)
        (Some (Exn ChunkedEncodingError "Connection broken")))
     (dest (category_dir Sample.env_drop "loras") "foo.safetensors") 4
     (Exn ChunkedEncodingError "Connection broken")
   /\ exists_at Sample.env_drop Sample.empty_world
        (dest (category_dir Sample.env_drop "loras") "foo.safetensors")
      = false)
  /\ fst (download_lora (H := Sample.host) Sample.env_drop Sample.table 5%nat
            "detail" 1 1 None None (Some 4)
            (snd (download_lora (H := Sample.host) Sample.env_drop
                    Sample.table 5%nat "detail" 1 1 None None (Some 4)
                    Sample.empty_world)))
     = @load_lora Sample.host
         (files (snd (download_lora (H := Sample.host) Sample.env_drop
                        Sample.table 5%nat "detail" 1 1 None None (Some 4)
                        Sample.empty_world)))
         5%nat None (Some "foo.safetensors") 1 1.
Proof.
  assert (broken_body Sample.env_drop
            (SampleMore.answer (Some Sample.cd_foo)
               (Some (Exn ChunkedEncodingError "Connection broken")))
            (dest (category_dir Sample.env_drop "loras") "foo.safetensors") 4
            (Exn ChunkedEncodingError "Connection broken")) as Hbroken.
  { split; [exists 6; split; reflexivity|]. split; [reflexivity|].
    split; [cbn; repeat constructor | reflexivity]. }
  assert (~ bad_status
            (SampleMore.answer (Some Sample.cd_foo)
               (Some (Exn ChunkedEncodingError "Connection broken")))) as Hok
    by (unfold bad_status; cbn; lia).
  split; [split; [exact Hbroken | reflexivity]|].
  destruct (broken_download_is_reused (H := Sample.host) Sample.env_drop
              Sample.table 5%nat "detail" 1 1 None None 4 Sample.loras
              "https://civitai.com/api/download/1"
              (SampleMore.answer (Some Sample.cd_foo)
                 (Some (Exn ChunkedEncodingError "Connection broken")))
              "foo.safetensors" (Exn ChunkedEncodingError "Connection broken")
              Sample.empty_world eq_refl eq_refl eq_refl eq_refl Hok eq_refl
              eq_refl Hbroken eq_refl) as (_ & _ & Hsecond & _).
  exact Hsecond.
Defined.

(** X8.  The [try] block computes the total size and the block size
    before it opens the file.  So when the block size argument is [None],
    the default of the method, or when the content length of the response
    is not a number, the failure is caught before anything is written:
    the node logs an error and returns [model] and [clip], no file is
    opened, the disk is as it was, and the destination is still absent
    for the next invocation. *)
Theorem early_failure_leaves_disk `{Host} (env : environment)
        (NODE_CONFIG : gmap string (list entry)) (model : Model)
        (lora_name : string) (sm sc : Strength) (clip : option Clip)
        (api_key : option string) (chunks : option Z)
        (records : list entry) (u : string) (r : response) (f : string)
        (w : world) :
  NODE_CONFIG !! "loras" = Some records ->
  find_url records lora_name = Some u ->
  truthy u = true ->
  requests_get env u (bearer_headers (select_api_key env u api_key))
  = Returned r ->
  ~ bad_status r ->
  derive_filename r = Returned (Some f) ->
  exists_at env w (dest (category_dir env "loras") f) = false ->
  chunks = None \/ (exists e, total_size r = Raised e) ->
  let out :=
    download_lora env NODE_CONFIG model lora_name sm sc clip api_key chunks
      w in
  fst out = Returned (model, clip)
  /\ files (snd out) = files w
  /\ opens (trace (snd out)) = opens (trace w)
  /\ (exists msg, last (trace (snd out)) = Some (ELog ERROR msg))
  /\ exists_at env (snd out) (dest (category_dir env "loras") f) = false.
Proof.
  intros Hcfg Hfind Hu Hget Hok Hname Hex Hearly. cbv zeta.
  destruct (stream_to_file_early env r (dest (category_dir env "loras") f)
              chunks
              (record (record w (request_trace env "loras" u api_key))
                 [lora_downloading u (Some f)
                    (dest (category_dir env "loras") f)])
              (match Hearly with
               | or_introl Hnone => or_introl Hnone
               | or_intror Hlen => or_intror (or_introl Hlen)
               end))
    as (e & Hs & Hexn).
  rewrite (download_lora_caught env NODE_CONFIG model lora_name sm sc clip
             api_key chunks records u Hcfg Hfind Hu w _ r f e Hget Hok Hname
             Hex Hs Hexn).
  cbn [fst snd]. split; [reflexivity|]. split; [reflexivity|].
  split; [|split].
  - unfold opens, record, lora_failure. cbn [trace].
    rewrite !count_app, count_request_trace by reflexivity.
    destruct (is_RequestException e); cbn; lia.
  - unfold record, lora_failure. cbn [trace].
    destruct (is_RequestException e); eexists; apply last_snoc.
  - exact Hex.
Qed.

(** The block size is left at its default [None]. *)
Lemma early_failure_leaves_disk_witness :
  exists_at Sample.env_ok Sample.empty_world
    (dest (category_dir Sample.env_ok "loras") "foo.safetensors") = false
  /\ fst (download_lora (H := Sample.host) Sample.env_ok Sample.table 5%nat
            "detail" 1 1 (Some 2%nat) None None Sample.empty_world)
     = Returned (5%nat, Some 2%nat)
  /\ files (snd (download_lora (H := Sample.host) Sample.env_ok Sample.table
                   5%nat "detail" 1 1 (Some 2%nat) None None
                   Sample.empty_world))
     = files Sample.empty_world.
Proof.
  assert (~ bad_status (SampleMore.answer (Some Sample.cd_foo) None)) as Hok
    by (unfold bad_status; cbn; lia).
  split; [reflexivity|].
  destruct (early_failure_leaves_disk (H := Sample.host) Sample.env_ok
              Sample.table 5%nat "detail" 1 1 (Some 2%nat) None None
              Sample.loras "https://civitai.com/api/download/1"
              (SampleMore.answer (Some Sample.cd_foo) None) "foo.safetensors"
              Sample.empty_world eq_refl eq_refl eq_refl eq_refl Hok eq_refl
              eq_refl (or_introl eq_refl)) as (Hout & Hfiles & _).
  split; assumption.
Defined.

(** X21.  The progress bar is created inside the [try] block, after the
    content length has been read and before the file is opened.  When
    creating it raises an exception that derives from [Exception], as
    [tqdm] does for a total beyond the range of a float, the failure is
    caught before anything is written: the node logs an error and returns
    [model] and [clip], no body is read, no file is opened and the disk
    is as it was. *)
Theorem progress_bar_failure_is_caught `{Host} (env : environment)
        (NODE_CONFIG : gmap string (list entry)) (model : Model)
        (lora_name : string) (sm sc : Strength) (clip : option Clip)
        (api_key : option string) (chunks : option Z)
        (records : list entry) (u : string) (r : response) (f : string)
        (total : Z) (e : exn) (w : world) :
  NODE_CONFIG !! "loras" = Some records ->
  find_url records lora_name = Some u ->
  truthy u = true ->
  requests_get env u (bearer_headers (select_api_key env u api_key))
  = Returned r ->
  ~ bad_status r ->
  derive_filename r = Returned (Some f) ->
  exists_at env w (dest (category_dir env "loras") f) = false ->
  total_size r = Returned total ->
  tqdm_error env total = Some e ->
  is_Exception e = true ->
  let out :=
    download_lora env NODE_CONFIG model lora_name sm sc clip api_key chunks
      w in
  fst out = Returned (model, clip)
  /\ files (snd out) = files w
  /\ streams (trace (snd out)) = streams (trace w)
  /\ opens (trace (snd out)) = opens (trace w)
  /\ (exists msg, last (trace (snd out)) = Some (ELog ERROR msg)).
Proof.
  intros Hcfg Hfind Hu Hget Hok Hname Hex Htotal Hbar Hexn. cbv zeta.
  destruct (stream_to_file_early env r (dest (category_dir env "loras") f)
              chunks
              (record (record w (request_trace env "loras" u api_key))
                 [lora_downloading u (Some f)
                    (dest (category_dir env "loras") f)])
              (or_intror (or_intror
                 (ex_intro _ total (ex_intro _ e
                    (conj Htotal (conj Hbar Hexn)))))))
    as (e' & Hs & Hexn').
  rewrite (download_lora_caught env NODE_CONFIG model lora_name sm sc clip
             api_key chunks records u Hcfg Hfind Hu w _ r f e' Hget Hok Hname
             Hex Hs Hexn').
  cbn [fst snd]. split; [reflexivity|]. split; [reflexivity|].
  unfold streams, opens, record, lora_failure. cbn [trace].
  rewrite !count_app, !count_request_trace by reflexivity.
  destruct (is_RequestException e'); cbn;
    (split; [lia|]); (split; [lia|]); eexists; apply last_snoc.
Qed.

(** The content length has 329 digits: [int] accepts it and the progress
    bar of the sample environment does not. *)
Lemma progress_bar_failure_is_caught_witness :
  (total_size (Response 200 (Some Sample.cd_foo) (Some SampleMore.huge)
                 (fun _ => (["abc"; "def"], None)))
   = Returned (10 ^ 328)
   /\ tqdm_error SampleMore.env_huge (10 ^ 328)
      = Some (Exn OverflowError "int too large to convert to float"))
  /\ fst (download_lora (H := Sample.host) SampleMore.env_huge Sample.table
            5%nat "detail" 1 1 (Some 2%nat) None (Some 4) Sample.empty_world)
     = Returned (5%nat, Some 2%nat)
  /\ files (snd (download_lora (H := Sample.host) SampleMore.env_huge
                   Sample.table 5%nat "detail" 1 1 (Some 2%nat) None (Some 4)
                   Sample.empty_world))
     = files Sample.empty_world.
Proof.
  assert (total_size (Response 200 (Some Sample.cd_foo) (Some SampleMore.huge)
                        (fun _ => (["abc"; "def"], None)))
          = Returned (10 ^ 328)) as Htotal by (vm_compute; reflexivity).
  assert (tqdm_error SampleMore.env_huge (10 ^ 328)
          = Some (Exn OverflowError "int too large to convert to float"))
    as Hbar by (vm_compute; reflexivity).
  assert (~ bad_status
            (Response 200 (Some Sample.cd_foo) (Some SampleMore.huge)
               (fun _ => (["abc"; "def"], None)))) as Hok
    by (unfold bad_status; cbn; lia).
  split; [split; assumption|].
  destruct (progress_bar_failure_is_caught (H := Sample.host)
              SampleMore.env_huge Sample.table 5%nat "detail" 1 1
              (Some 2%nat) None (Some 4) Sample.loras
              "https://civitai.com/api/download/1"
              (Response 200 (Some Sample.cd_foo) (Some SampleMore.huge)
                 (fun _ => (["abc"; "def"], None)))
              "foo.safetensors" (10 ^ 328)
              (Exn OverflowError "int too large to convert to float")
              Sample.empty_world eq_refl eq_refl eq_refl eq_refl Hok eq_refl
              eq_refl Htotal Hbar eq_refl) as (Hout & Hfiles & _).
  split; assumption.
Defined.


(** *** What the [try] block records *)
Section BodyTrace.
Variable env : environment.
Variable p : event -> bool.
Hypothesis Hnew : forall n, p (EProgressNew n) = false.
Hypothesis Hupdate : forall n, p (EProgressUpdate n) = false.
Hypothesis Hclose : p EProgressClose = false.
Hypothesis Hopen : forall q, p (EOpen q) = false.
Hypothesis Hwrite : forall q d, p (EWrite q d) = false.
Hypothesis Hiter : forall n, p (EIterContent n) = false.

Lemma write_chunks_count (path : string) (chunks : list string) (w : world) :
  count p (trace (snd (write_chunks env path chunks w))) = count p (trace w).
Proof.
  revert w. induction chunks as [|d chunks IH]; intros w; [reflexivity|].
  cbn [write_chunks]. unfold bind, write. rewrite emit_run.
  destruct (write_error env path d).
  - cbn [raise snd record trace]. rewrite count_app. cbn [count].
    rewrite Hupdate. lia.
  - unfold bind. rewrite emit_run. cbn [put_file]. rewrite IH.
    cbn [record trace]. rewrite !count_app. cbn [count].
    rewrite Hupdate, Hwrite. lia.
Qed.

(** The [try] block records progress, one opening, one read and writes,
    and nothing of another kind. *)
Lemma stream_to_file_count (r : response) (path : string)
      (chunks : option Z) (w : world) :
  count p (trace (snd (stream_to_file env r path chunks w)))
  = count p (trace w).
Proof.
  unfold stream_to_file, bind, lift. fold (total_size r).
  destruct (total_size r) as [total|]; [|reflexivity].
  destruct chunks as [n|]; [|reflexivity].
  unfold tqdm_new. destruct (tqdm_error env total); [reflexivity|].
  rewrite !emit_run. unfold open_wb.
  destruct (open_error env path).
  { cbn [raise snd record trace]. rewrite count_app. cbn [count].
    rewrite Hnew. lia. }
  unfold bind. rewrite !emit_run. cbn [put_file]. rewrite !emit_run.
  match goal with
  | |- context [write_chunks env path ?c ?wa] =>
      pose proof (write_chunks_count path c wa) as Hloop;
      destruct (write_chunks env path c wa) as [[[]|ea] wa']
  end; cbn [snd] in Hloop; cbn [record trace] in Hloop;
    rewrite !count_app in Hloop; cbn [count] in Hloop;
    rewrite Hnew, Hopen, Hiter in Hloop.
  - destruct (snd (iter_content r (n * 1024))); cbn [raise ret snd];
      rewrite ?emit_run; cbn [snd record trace];
      rewrite ?count_app; cbn [count]; rewrite ?Hclose; lia.
  - cbn [snd]. lia.
Qed.

End BodyTrace.

(** X10.  The two [except] clauses of the [try] block catch what derives
    from [Exception] and nothing else.  An exception outside that class,
    such as a [KeyboardInterrupt] while the body is read, is raised to the
    caller; the node returns nothing and logs no error. *)
Theorem interrupt_propagates `{Host} (env : environment)
        (NODE_CONFIG : gmap string (list entry)) (model : Model)
        (lora_name : string) (sm sc : Strength) (clip : option Clip)
        (api_key : option string) (chunks : option Z)
        (records : list entry) (u : string) (r : response) (f : string)
        (e : exn) (w : world) :
  NODE_CONFIG !! "loras" = Some records ->
  find_url records lora_name = Some u ->
  truthy u = true ->
  requests_get env u (bearer_headers (select_api_key env u api_key))
  = Returned r ->
  ~ bad_status r ->
  derive_filename r = Returned (Some f) ->
  exists_at env w (dest (category_dir env "loras") f) = false ->
  fst (stream_to_file env r (dest (category_dir env "loras") f) chunks w)
  = Raised e ->
  is_Exception e = false ->
  let out :=
    download_lora env NODE_CONFIG model lora_name sm sc clip api_key chunks
      w in
  fst out = Raised e
  /\ count is_error_log (trace (snd out)) = count is_error_log (trace w).
Proof.
  intros Hcfg Hfind Hu Hget Hok Hname Hex Hraise Hexn. cbv zeta.
  set (w1 := record (record w (request_trace env "loras" u api_key))
               [lora_downloading u (Some f)
                  (dest (category_dir env "loras") f)]).
  rewrite (stream_to_file_outcome env r _ chunks w w1) in Hraise.
  assert (count is_error_log
            (trace (snd (stream_to_file env r
                           (dest (category_dir env "loras") f) chunks w1)))
          = count is_error_log (trace w)) as Hquiet.
  { rewrite stream_to_file_count by reflexivity.
    unfold w1, record, request_trace, auth_log. cbn [trace].
    rewrite !count_app.
    destruct (truthy_opt (select_api_key env u api_key)); cbn; lia. }
  destruct (stream_to_file env r (dest (category_dir env "loras") f) chunks w1)
    as [o w2] eqn:Hs.
  cbn [fst] in Hraise. cbn [snd] in Hquiet. subst o.
  rewrite (download_lora_uncaught env NODE_CONFIG model lora_name sm sc clip
             api_key chunks records u Hcfg Hfind Hu w w2 r f e Hget Hok Hname
             Hex Hs Hexn).
  split; [reflexivity | exact Hquiet].
Qed.

Lemma interrupt_propagates_witness :
  (is_Exception (Exn KeyboardInterrupt "interrupted") = false
   /\ fst (stream_to_file SampleMore.env_interrupt
             (SampleMore.answer (Some Sample.cd_foo)
                (Some (Exn KeyboardInterrupt "interrupted")))
             (dest (category_dir SampleMore.env_interrupt "loras")
                "foo.safetensors")
             (Some 4) Sample.empty_world)
      = Raised (Exn KeyboardInterrupt "interrupted"))
  /\ fst (download_lora (H := Sample.host) SampleMore.env_interrupt
            Sample.table 5%nat "detail" 1 1 None None (Some 4)
            Sample.empty_world)
     = Raised (Exn KeyboardInterrupt "interrupted").
Proof.
  assert (~ bad_status
            (SampleMore.answer (Some Sample.cd_foo)
               (Some (Exn KeyboardInterrupt "interrupted")))) as Hok
    by (unfold bad_status; cbn; lia).
  split; [split; reflexivity|].
  destruct (interrupt_propagates (H := Sample.host) SampleMore.env_interrupt
              Sample.table 5%nat "detail" 1 1 None None (Some 4) Sample.loras
              "https://civitai.com/api/download/1"
              (SampleMore.answer (Some Sample.cd_foo)
                 (Some (Exn KeyboardInterrupt "interrupted")))
              "foo.safetensors" (Exn KeyboardInterrupt "interrupted")
              Sample.empty_world eq_refl eq_refl eq_refl eq_refl Hok eq_refl
              eq_refl eq_refl eq_refl) as [Hout _].
  exact Hout.
Defined.

(** ** The runs of the UNET node and of the checkpoint node *)

(** The steps every run shares once the name has resolved to the
    non-empty url. *)
Ltac node_request Hcfg Hfind Hu :=
  unfold getitem, bind;
  rewrite join_category by reflexivity; cbn [lift];
  rewrite emit_run, Hcfg; cbn [ret];
  rewrite Hfind; cbn [truthy_opt negb fmt]; rewrite Hu; cbn [negb];
  rewrite auth_headers_run, emit_run, !record_record.

(** The steps from the response to the presence check. *)
Ltac node_response Hget Hok Hname :=
  rewrite Hget, raise_for_status_ok by assumption; rewrite Hname;
  rewrite join_dest, path_exists_run, exists_at_record.

(** Bringing the world of the [try] block into the shape of the goal. *)
Ltac node_stream Hstream :=
  unfold log, try_except; rewrite emit_run, !record_record;
  unfold request_trace in Hstream;
  rewrite !record_record in Hstream; rewrite <- !app_assoc in Hstream;
  cbn [app] in Hstream |- *; rewrite <- ?app_assoc; cbn [app];
  rewrite Hstream.


Section ResolvedUnet.
Context `{Host}.
Variable env : environment.
Variable NODE_CONFIG : gmap string (list entry).
Variables (unet_name weight_dtype : string) (api_key : option string)
          (chunks : option Z) (records : list entry) (u : string).
Hypothesis Hcfg : NODE_CONFIG !! "diffusion_models" = Some records.
Hypothesis Hfind : find_url records unet_name = Some u.
Hypothesis Hu : truthy u = true.

Local Abbreviation run :=
  (download_unet env NODE_CONFIG unet_name weight_dtype api_key chunks).
Local Abbreviation requested w :=
  (record w (request_trace env "diffusion_models" u api_key)).
Local Abbreviation hdrs := (bearer_headers (select_api_key env u api_key)).
Local Abbreviation dir := (category_dir env "diffusion_models").
Local Abbreviation fetching w f :=
  (record (requested w)
     [unet_downloading u (Some f%string) (dest dir f%string)]).

Lemma download_unet_no_filename (w : world) (r : response) :
  requests_get env u hdrs = Returned r ->
  ~ bad_status r ->
  derive_filename r = Returned None ->
  exists e, os_path_join dir None = Raised e /\ exn_cls e = TypeError
            /\ run w = (Raised e, requested w).
Proof.
  intros Hget Hok Hname.
  eexists. split; [reflexivity|]. split; [reflexivity|].
  unfold download_unet. node_request Hcfg Hfind Hu.
  rewrite Hget, raise_for_status_ok by assumption. rewrite Hname.
  reflexivity.
Qed.

Lemma download_unet_cached (w : world) (r : response) (f : string) :
  requests_get env u hdrs = Returned r ->
  ~ bad_status r ->
  derive_filename r = Returned (Some f) ->
  exists_at env w (dest dir f) = true ->
  run w = (some_of (load_unet (files w) (Some f) weight_dtype),
           record (requested w) [unet_skipping (Some f) (dest dir f)]).
Proof.
  intros Hget Hok Hname Hex.
  unfold download_unet. node_request Hcfg Hfind Hu.
  node_response Hget Hok Hname. rewrite Hex.
  unfold log. rewrite emit_run, !record_record. cbn [get_files lift ret].
  unfold request_trace, record, unet_skipping. cbn [files trace].
  rewrite <- !app_assoc.
  destruct (load_unet (files w) (Some f) weight_dtype); reflexivity.
Qed.

Lemma download_unet_fetched (w w2 : world) (r : response) (f : string) :
  requests_get env u hdrs = Returned r ->
  ~ bad_status r ->
  derive_filename r = Returned (Some f) ->
  exists_at env w (dest dir f) = false ->
  stream_to_file env r (dest dir f) chunks (fetching w f) = (Returned tt, w2) ->
  run w = (some_of (load_unet (files w2) (Some f) weight_dtype),
           record w2 [unet_success unet_name]).
Proof.
  intros Hget Hok Hname Hex Hstream.
  unfold download_unet. node_request Hcfg Hfind Hu.
  node_response Hget Hok Hname. rewrite Hex.
  unfold unet_downloading in Hstream. node_stream Hstream.
  rewrite emit_run. cbn [ret get_files lift record files].
  destruct (load_unet (files w2) (Some f) weight_dtype); reflexivity.
Qed.

Lemma download_unet_caught (w w2 : world) (r : response) (f : string)
      (e : exn) :
  requests_get env u hdrs = Returned r ->
  ~ bad_status r ->
  derive_filename r = Returned (Some f) ->
  exists_at env w (dest dir f) = false ->
  stream_to_file env r (dest dir f) chunks (fetching w f) = (Raised e, w2) ->
  is_Exception e = true ->
  run w = (Returned None, record w2 [unet_failure unet_name e]).
Proof.
  intros Hget Hok Hname Hex Hstream Hexn.
  unfold download_unet. node_request Hcfg Hfind Hu.
  node_response Hget Hok Hname. rewrite Hex.
  unfold unet_downloading in Hstream. node_stream Hstream.
  unfold unet_failure. destruct (is_RequestException e).
  - rewrite emit_run. reflexivity.
  - rewrite Hexn, emit_run. reflexivity.
Qed.



End ResolvedUnet.

Section ResolvedCheckpoint.
Context `{Host}.
Variable env : environment.
Variable NODE_CONFIG : gmap string (list entry).
Variables (ckpt_name : string) (api_key : option string)
          (chunks : option Z) (records : list entry) (u : string).
Hypothesis Hcfg : NODE_CONFIG !! "checkpoints" = Some records.
Hypothesis Hfind : find_url records ckpt_name = Some u.
Hypothesis Hu : truthy u = true.

Local Abbreviation run :=
  (download_checkpoint env NODE_CONFIG ckpt_name api_key chunks).
Local Abbreviation requested w :=
  (record w (request_trace env "checkpoints" u api_key)).
Local Abbreviation hdrs := (bearer_headers (select_api_key env u api_key)).
Local Abbreviation dir := (category_dir env "checkpoints").
Local Abbreviation fetching w f :=
  (record (requested w)
     [ckpt_downloading u (Some f%string) (dest dir f%string)]).

Lemma download_checkpoint_get_raises (w : world) (e : exn) :
  requests_get env u hdrs = Raised e ->
  run w = (Raised e, requested w).
Proof.
  intros Hget. unfold download_checkpoint. node_request Hcfg Hfind Hu.
  rewrite Hget. reflexivity.
Qed.

Lemma download_checkpoint_no_filename (w : world) (r : response) :
  requests_get env u hdrs = Returned r ->
  ~ bad_status r ->
  derive_filename r = Returned None ->
  exists e, os_path_join dir None = Raised e /\ exn_cls e = TypeError
            /\ run w = (Raised e, requested w).
Proof.
  intros Hget Hok Hname.
  eexists. split; [reflexivity|]. split; [reflexivity|].
  unfold download_checkpoint. node_request Hcfg Hfind Hu.
  rewrite Hget, raise_for_status_ok by assumption. rewrite Hname.
  reflexivity.
Qed.

Lemma download_checkpoint_cached (w : world) (r : response) (f : string) :
  requests_get env u hdrs = Returned r ->
  ~ bad_status r ->
  derive_filename r = Returned (Some f) ->
  exists_at env w (dest dir f) = true ->
  run w = (some_of (load_checkpoint (files w) (Some f)),
           record (requested w) [ckpt_skipping (Some f) (dest dir f)]).
Proof.
  intros Hget Hok Hname Hex.
  unfold download_checkpoint. node_request Hcfg Hfind Hu.
  node_response Hget Hok Hname. rewrite Hex.
  unfold log. rewrite emit_run, !record_record. cbn [get_files lift ret].
  unfold request_trace, record, ckpt_skipping. cbn [files trace].
  rewrite <- !app_assoc.
  destruct (load_checkpoint (files w) (Some f)); reflexivity.
Qed.

Lemma download_checkpoint_fetched (w w2 : world) (r : response)
      (f : string) :
  requests_get env u hdrs = Returned r ->
  ~ bad_status r ->
  derive_filename r = Returned (Some f) ->
  exists_at env w (dest dir f) = false ->
  stream_to_file env r (dest dir f) chunks (fetching w f) = (Returned tt, w2) ->
  run w = (some_of (load_checkpoint (files w2) (Some f)),
           record w2 [ckpt_success ckpt_name]).
Proof.
  intros Hget Hok Hname Hex Hstream.
  unfold download_checkpoint. node_request Hcfg Hfind Hu.
  node_response Hget Hok Hname. rewrite Hex.
  unfold ckpt_downloading in Hstream. node_stream Hstream.
  rewrite emit_run. cbn [ret get_files lift record files].
  destruct (load_checkpoint (files w2) (Some f)); reflexivity.
Qed.

Lemma download_checkpoint_caught (w w2 : world) (r : response) (f : string)
      (e : exn) :
  requests_get env u hdrs = Returned r ->
  ~ bad_status r ->
  derive_filename r = Returned (Some f) ->
  exists_at env w (dest dir f) = false ->
  stream_to_file env r (dest dir f) chunks (fetching w f) = (Raised e, w2) ->
  is_Exception e = true ->
  run w = (Returned None, record w2 [ckpt_failure ckpt_name e]).
Proof.
  intros Hget Hok Hname Hex Hstream Hexn.
  unfold download_checkpoint. node_request Hcfg Hfind Hu.
  node_response Hget Hok Hname. rewrite Hex.
  unfold ckpt_downloading in Hstream. node_stream Hstream.
  unfold ckpt_failure. destruct (is_RequestException e).
  - rewrite emit_run. reflexivity.
  - rewrite Hexn, emit_run. reflexivity.
Qed.



End ResolvedCheckpoint.

(** ** Name resolution *)






(** X11.  A failure of [requests.get] itself, such as a refused
    connection, is not handled by the LoRA node: the call is outside the
    [try] block, so the exception is raised to the caller right after the
    call, whatever its class; [model] and [clip] are not returned, no
    error is logged and the disk is not touched. *)
Theorem transport_failure_escapes `{Host} (env : environment)
        (NODE_CONFIG : gmap string (list entry)) (model : Model)
        (lora_name : string) (sm sc : Strength) (clip : option Clip)
        (api_key : option string) (chunks : option Z)
        (records : list entry) (u : string) (e : exn) (w : world) :
  NODE_CONFIG !! "loras" = Some records ->
  find_url records lora_name = Some u ->
  truthy u = true ->
  requests_get env u (bearer_headers (select_api_key env u api_key))
  = Raised e ->
  let out :=
    download_lora env NODE_CONFIG model lora_name sm sc clip api_key chunks
      w in
  fst out = Raised e
  /\ files (snd out) = files w
  /\ trace (snd out) = trace w ++ request_trace env "loras" u api_key
  /\ count is_error_log (trace (snd out)) = count is_error_log (trace w).
Proof.
  intros Hcfg Hfind Hu Hget. cbv zeta.
  rewrite (download_lora_get_raises env NODE_CONFIG model lora_name sm sc
             clip api_key chunks records u Hcfg Hfind Hu w e Hget).
  cbn [fst snd record files trace]. repeat split.
  unfold request_trace, auth_log. rewrite !count_app.
  destruct (truthy_opt (select_api_key env u api_key)); cbn; lia.
Qed.

Lemma transport_failure_escapes_witness :
  (SampleMore.table_one !! "loras" = Some SampleMore.one
   /\ requests_get SampleMore.env_down "https://example.org/m"
        (bearer_headers
           (select_api_key SampleMore.env_down "https://example.org/m" None))
      = Raised (Exn ConnectionError "Connection refused"))
  /\ fst (download_lora (H := Sample.host) SampleMore.env_down
            SampleMore.table_one 5%nat "m" 1 1 None None (Some 4)
            Sample.empty_world)
     = Raised (Exn ConnectionError "Connection refused").
Proof.
  split; [split; reflexivity|].
  destruct (transport_failure_escapes (H := Sample.host) SampleMore.env_down
              SampleMore.table_one 5%nat "m" 1 1 None None (Some 4)
              SampleMore.one "https://example.org/m"
              (Exn ConnectionError "Connection refused") Sample.empty_world
              eq_refl eq_refl eq_refl eq_refl) as [Hout _].
  exact Hout.
Defined.

(** X12.  The UNET node has no fallback value for what happens before
    its [try] block: a failure of [requests.get], a status from 400 to
    599 and a response without a usable file name each end the invocation
    with an exception raised to the caller, the last one a [TypeError]
    from [os.path.join]; in none of them is [None] returned. *)
Theorem download_unet_escapes `{Host} (env : environment)
        (NODE_CONFIG : gmap string (list entry))
        (unet_name weight_dtype : string) (api_key : option string)
        (chunks : option Z) (records : list entry) (u : string) (w : world) :
  NODE_CONFIG !! "diffusion_models" = Some records ->
  find_url records unet_name = Some u ->
  truthy u = true ->
  (forall e,
      requests_get env u (bearer_headers (select_api_key env u api_key))
      = Raised e ->
      download_unet env NODE_CONFIG unet_name weight_dtype api_key chunks w
      = (Raised e, record w (request_trace env "diffusion_models" u api_key)))
  /\ (forall r,
        requests_get env u (bearer_headers (select_api_key env u api_key))
        = Returned r ->
        bad_status r ->
        exists msg,
          download_unet env NODE_CONFIG unet_name weight_dtype api_key chunks
            w
          = (Raised (Exn HTTPError msg),
             record w (request_trace env "diffusion_models" u api_key)))
  /\ (forall r,
        requests_get env u (bearer_headers (select_api_key env u api_key))
        = Returned r ->
        ~ bad_status r ->
        derive_filename r = Returned None ->
        exists e,
          exn_cls e = TypeError
          /\ download_unet env NODE_CONFIG unet_name weight_dtype api_key
               chunks w
             = (Raised e,
                record w (request_trace env "diffusion_models" u api_key))).
Proof.
  intros Hcfg Hfind Hu. split; [|split].
  - intros e Hget.
    exact (download_unet_get_raises env NODE_CONFIG unet_name weight_dtype
             api_key chunks records u e w Hcfg Hfind Hu Hget).
  - intros r Hget Hbad.
    exact (download_unet_bad_status env NODE_CONFIG unet_name weight_dtype
             api_key chunks records u r w Hcfg Hfind Hu Hget Hbad).
  - intros r Hget Hok Hname.
    destruct (download_unet_no_filename env NODE_CONFIG unet_name weight_dtype
                api_key chunks records u Hcfg Hfind Hu w r Hget Hok Hname)
      as (e & _ & Hcls & Hrun).
    eauto.
Qed.

Lemma download_unet_escapes_witness :
  (SampleMore.table_one !! "diffusion_models" = Some SampleMore.one
   /\ find_url SampleMore.one "m" = Some "https://example.org/m")
  /\ fst (download_unet (H := Sample.host) SampleMore.env_down
            SampleMore.table_one "m" "default" None (Some 4)
            Sample.empty_world)
     = Raised (Exn ConnectionError "Connection refused").
Proof.
  split; [split; reflexivity|].
  destruct (download_unet_escapes (H := Sample.host) SampleMore.env_down
              SampleMore.table_one "m" "default" None (Some 4) SampleMore.one
              "https://example.org/m" Sample.empty_world
              eq_refl eq_refl eq_refl) as [Hraise _].
  now rewrite (Hraise (Exn ConnectionError "Connection refused") eq_refl).
Defined.

(** X13.  In the UNET node every exception that derives from
    [Exception] and is raised in the [try] block, while the body is read
    or the file written, is caught: one error is logged as the last
    effect, the host loader is not called, and the node returns [None]. *)
Theorem download_unet_failure_returns_none `{Host} (env : environment)
        (NODE_CONFIG : gmap string (list entry))
        (unet_name weight_dtype : string) (api_key : option string)
        (chunks : option Z) (records : list entry) (u : string)
        (r : response) (f : string) (e : exn) (w : world) :
  NODE_CONFIG !! "diffusion_models" = Some records ->
  find_url records unet_name = Some u ->
  truthy u = true ->
  requests_get env u (bearer_headers (select_api_key env u api_key))
  = Returned r ->
  ~ bad_status r ->
  derive_filename r = Returned (Some f) ->
  exists_at env w (dest (category_dir env "diffusion_models") f) = false ->
  fst (stream_to_file env r (dest (category_dir env "diffusion_models") f)
         chunks w)
  = Raised e ->
  is_Exception e = true ->
  exists w2,
    download_unet env NODE_CONFIG unet_name weight_dtype api_key chunks w
    = (Returned None, record w2 [unet_failure unet_name e])
    /\ is_error_log (unet_failure unet_name e) = true.
Proof.
  intros Hcfg Hfind Hu Hget Hok Hname Hex Hraise Hexn.
  set (w1 := record (record w (request_trace env "diffusion_models" u api_key))
               [unet_downloading u (Some f)
                  (dest (category_dir env "diffusion_models") f)]).
  rewrite (stream_to_file_outcome env r _ chunks w w1) in Hraise.
  destruct (stream_to_file env r
              (dest (category_dir env "diffusion_models") f) chunks w1)
    as [o w2] eqn:Hs.
  cbn [fst] in Hraise. subst o. exists w2. split.
  - eapply download_unet_caught; eassumption.
  - unfold unet_failure. now destruct (is_RequestException e).
Qed.

Lemma download_unet_failure_returns_none_witness :
  (Sample.table !! "diffusion_models" = Some Sample.unets
   /\ fst (stream_to_file Sample.env_drop
             (SampleMore.answer (Some Sample.cd_foo)
                (Some (Exn ChunkedEncodingError "Connection broken")))
             (dest (category_dir Sample.env_drop "diffusion_models")
                "foo.safetensors")
             (Some 4) Sample.empty_world)
      = Raised (Exn ChunkedEncodingError "Connection broken"))
  /\ fst (download_unet (H := Sample.host) Sample.env_drop Sample.table
            "flux" "default" None (Some 4) Sample.empty_world)
     = Returned None.
Proof.
  assert (~ bad_status
            (SampleMore.answer (Some Sample.cd_foo)
               (Some (Exn ChunkedEncodingError "Connection broken")))) as Hok
    by (unfold bad_status; cbn; lia).
  split; [split; reflexivity|].
  destruct (download_unet_failure_returns_none (H := Sample.host)
              Sample.env_drop Sample.table "flux" "default" None (Some 4)
              Sample.unets "https://huggingface.co/f"
              (SampleMore.answer (Some Sample.cd_foo)
                 (Some (Exn ChunkedEncodingError "Connection broken")))
              "foo.safetensors" (Exn ChunkedEncodingError "Connection broken")
              Sample.empty_world eq_refl eq_refl eq_refl eq_refl Hok eq_refl
              eq_refl eq_refl eq_refl) as (w2 & Hrun & _).
  now rewrite Hrun.
Defined.

(** X14.  Take an invocation of the UNET node whose name resolves to a
    url, whose request is answered with a status outside 400 to 599 and
    whose response names a file.  The node returns what the host loader
    returns for the derived file name and the weight type it was given,
    an exception of the loader passing through, in two cases.  When the
    destination exists, whatever the block size, the loader sees the disk
    as it was and no body is read.  When the destination is absent, a
    block size is given and the body arrives whole, the loader sees the
    disk with the body at the destination. *)
Theorem download_unet_loads `{Host} (env : environment)
        (NODE_CONFIG : gmap string (list entry))
        (unet_name weight_dtype : string) (api_key : option string)
        (records : list entry) (u : string) (r : response) (f : string) :
  NODE_CONFIG !! "diffusion_models" = Some records ->
  find_url records unet_name = Some u ->
  truthy u = true ->
  requests_get env u (bearer_headers (select_api_key env u api_key))
  = Returned r ->
  ~ bad_status r ->
  derive_filename r = Returned (Some f) ->
  let path := dest (category_dir env "diffusion_models") f in
  (forall chunks cached,
      exists_at env cached path = true ->
      let once :=
        download_unet env NODE_CONFIG unet_name weight_dtype api_key chunks
          cached in
      fst once = some_of (load_unet (files cached) (Some f) weight_dtype)
      /\ files (snd once) = files cached
      /\ streams (trace (snd once)) = streams (trace cached))
  /\ (forall n fresh,
        exists_at env fresh path = false ->
        clean_body env r path n ->
        let body := joined (fst (iter_content r (n * 1024))) in
        let out :=
          download_unet env NODE_CONFIG unet_name weight_dtype api_key
            (Some n) fresh in
        fst out
        = some_of
            (load_unet (<[path := body]> (files fresh)) (Some f) weight_dtype)
        /\ files (snd out) = <[path := body]> (files fresh)
        /\ streams (trace (snd out)) = S (streams (trace fresh))).
Proof.
  intros Hcfg Hfind Hu Hget Hok Hname. cbv zeta. split.
  - intros chunks cached Hcached.
    rewrite (download_unet_cached env NODE_CONFIG unet_name weight_dtype
               api_key chunks records u Hcfg Hfind Hu cached r f Hget Hok
               Hname Hcached).
    cbn [fst snd record files trace]. repeat split.
    unfold streams. rewrite !count_app, count_request_trace by reflexivity.
    cbn. lia.
  - intros n fresh Hfresh ((total & Htotal & Hbar) & Hopen & Hwrite & Hiter).
    pose proof (stream_to_file_clean_run env r
                  (dest (category_dir env "diffusion_models") f) n total
                  (record
                     (record fresh
                        (request_trace env "diffusion_models" u api_key))
                     [unet_downloading u (Some f)
                        (dest (category_dir env "diffusion_models") f)])
                  Htotal Hbar Hopen Hwrite Hiter) as Hs.
    rewrite (download_unet_fetched env NODE_CONFIG unet_name weight_dtype
               api_key (Some n) records u Hcfg Hfind Hu fresh _ r f Hget Hok
               Hname Hfresh Hs).
    cbn [fst snd record files trace]. repeat split.
    unfold streams, body_events. rewrite !count_app.
    rewrite count_request_trace by reflexivity. cbn [count is_stream].
    rewrite count_chunk_events by reflexivity. cbn. lia.
Qed.

(** The loader of the sample host reports the file name and the disk:
    an old file that is kept, and a new one that is downloaded. *)
Lemma download_unet_loads_witness :
  (exists_at Sample.env_ok
     (World {[ "/models/diffusion_models/foo.safetensors" := "old" ]} [])
     (dest (category_dir Sample.env_ok "diffusion_models") "foo.safetensors")
   = true
   /\ exists_at Sample.env_ok Sample.empty_world
        (dest (category_dir Sample.env_ok "diffusion_models")
           "foo.safetensors")
      = false
   /\ clean_body Sample.env_ok (SampleMore.answer (Some Sample.cd_foo) None)
        (dest (category_dir Sample.env_ok "diffusion_models")
           "foo.safetensors") 4)
  /\ fst (download_unet (H := SampleMore.host_view) Sample.env_ok Sample.table
            "flux" "default" None None
            (World {[ "/models/diffusion_models/foo.safetensors" := "old" ]}
               []))
     = Returned (Some (Some "foo.safetensors", [None; Some "old"; None]))
  /\ fst (download_unet (H := SampleMore.host_view) Sample.env_ok Sample.table
            "flux" "default" None (Some 4) Sample.empty_world)
     = Returned (Some (Some "foo.safetensors", [None; Some "abcdef"; None])).
Proof.
  assert (clean_body Sample.env_ok (SampleMore.answer (Some Sample.cd_foo) None)
            (dest (category_dir Sample.env_ok "diffusion_models")
               "foo.safetensors") 4) as Hclean.
  { split; [exists 6; split; reflexivity|]. split; [reflexivity|].
    split; [cbn; repeat constructor | reflexivity]. }
  assert (~ bad_status (SampleMore.answer (Some Sample.cd_foo) None)) as Hok
    by (unfold bad_status; cbn; lia).
  assert (exists_at Sample.env_ok
            (World {[ "/models/diffusion_models/foo.safetensors" := "old" ]}
               [])
            (dest (category_dir Sample.env_ok "diffusion_models")
               "foo.safetensors") = true) as Hcached by reflexivity.
  assert (exists_at Sample.env_ok Sample.empty_world
            (dest (category_dir Sample.env_ok "diffusion_models")
               "foo.safetensors") = false) as Hfresh by reflexivity.
  split; [repeat split; assumption || apply Hclean|].
  destruct (download_unet_loads (H := SampleMore.host_view) Sample.env_ok
              Sample.table "flux" "default" None Sample.unets
              "https://huggingface.co/f"
              (SampleMore.answer (Some Sample.cd_foo) None) "foo.safetensors"
              eq_refl eq_refl eq_refl eq_refl Hok eq_refl)
    as [Hkept Hloaded].
  destruct (Hkept None _ Hcached) as (Hout1 & _).
  destruct (Hloaded 4 _ Hfresh Hclean) as (Hout2 & _).
  rewrite Hout1, Hout2. split; reflexivity.
Defined.

(** X15.  The checkpoint node has no fallback value for what happens
    before its [try] block: a failure of [requests.get], a status from 400 to
    599 and a response without a usable file name each end the invocation
    with an exception raised to the caller, the last one a [TypeError]
    from [os.path.join]; in none of them is [None] returned. *)
Theorem download_checkpoint_escapes `{Host} (env : environment)
        (NODE_CONFIG : gmap string (list entry))
        (ckpt_name : string) (api_key : option string)
        (chunks : option Z) (records : list entry) (u : string) (w : world) :
  NODE_CONFIG !! "checkpoints" = Some records ->
  find_url records ckpt_name = Some u ->
  truthy u = true ->
  (forall e,
      requests_get env u (bearer_headers (select_api_key env u api_key))
      = Raised e ->
      download_checkpoint env NODE_CONFIG ckpt_name api_key chunks w
      = (Raised e, record w (request_trace env "checkpoints" u api_key)))
  /\ (forall r,
        requests_get env u (bearer_headers (select_api_key env u api_key))
        = Returned r ->
        bad_status r ->
        exists msg,
          download_checkpoint env NODE_CONFIG ckpt_name api_key chunks
            w
          = (Raised (Exn HTTPError msg),
             record w (request_trace env "checkpoints" u api_key)))
  /\ (forall r,
        requests_get env u (bearer_headers (select_api_key env u api_key))
        = Returned r ->
        ~ bad_status r ->
        derive_filename r = Returned None ->
        exists e,
          exn_cls e = TypeError
          /\ download_checkpoint env NODE_CONFIG ckpt_name api_key
               chunks w
             = (Raised e,
                record w (request_trace env "checkpoints" u api_key))).
Proof.
  intros Hcfg Hfind Hu. split; [|split].
  - intros e Hget.
    exact (download_checkpoint_get_raises env NODE_CONFIG ckpt_name api_key
             chunks records u Hcfg Hfind Hu w e Hget).
  - intros r Hget Hbad.
    exact (download_checkpoint_bad_status env NODE_CONFIG ckpt_name api_key
             chunks records u r w Hcfg Hfind Hu Hget Hbad).
  - intros r Hget Hok Hname.
    destruct (download_checkpoint_no_filename env NODE_CONFIG ckpt_name
                api_key chunks records u Hcfg Hfind Hu w r Hget Hok Hname)
      as (e & _ & Hcls & Hrun).
    eauto.
Qed.

Lemma download_checkpoint_escapes_witness :
  (SampleMore.table_one !! "checkpoints" = Some SampleMore.one
   /\ find_url SampleMore.one "m" = Some "https://example.org/m")
  /\ fst (download_checkpoint (H := Sample.host) SampleMore.env_down
            SampleMore.table_one "m" None (Some 4)
            Sample.empty_world)
     = Raised (Exn ConnectionError "Connection refused").
Proof.
  split; [split; reflexivity|].
  destruct (download_checkpoint_escapes (H := Sample.host) SampleMore.env_down
              SampleMore.table_one "m" None (Some 4) SampleMore.one
              "https://example.org/m" Sample.empty_world
              eq_refl eq_refl eq_refl) as [Hraise _].
  now rewrite (Hraise (Exn ConnectionError "Connection refused") eq_refl).
Defined.

(** X16.  In the checkpoint node every exception that derives from
    [Exception] and is raised in the [try] block, while the body is read
    or the file written, is caught: one error is logged as the last
    effect, the host loader is not called, and the node returns [None]. *)
Theorem download_checkpoint_failure_returns_none `{Host} (env : environment)
        (NODE_CONFIG : gmap string (list entry))
        (ckpt_name : string) (api_key : option string)
        (chunks : option Z) (records : list entry) (u : string)
        (r : response) (f : string) (e : exn) (w : world) :
  NODE_CONFIG !! "checkpoints" = Some records ->
  find_url records ckpt_name = Some u ->
  truthy u = true ->
  requests_get env u (bearer_headers (select_api_key env u api_key))
  = Returned r ->
  ~ bad_status r ->
  derive_filename r = Returned (Some f) ->
  exists_at env w (dest (category_dir env "checkpoints") f) = false ->
  fst (stream_to_file env r (dest (category_dir env "checkpoints") f)
         chunks w)
  = Raised e ->
  is_Exception e = true ->
  exists w2,
    download_checkpoint env NODE_CONFIG ckpt_name api_key chunks w
    = (Returned None, record w2 [ckpt_failure ckpt_name e])
    /\ is_error_log (ckpt_failure ckpt_name e) = true.
Proof.
  intros Hcfg Hfind Hu Hget Hok Hname Hex Hraise Hexn.
  set (w1 := record (record w (request_trace env "checkpoints" u api_key))
               [ckpt_downloading u (Some f)
                  (dest (category_dir env "checkpoints") f)]).
  rewrite (stream_to_file_outcome env r _ chunks w w1) in Hraise.
  destruct (stream_to_file env r
              (dest (category_dir env "checkpoints") f) chunks w1)
    as [o w2] eqn:Hs.
  cbn [fst] in Hraise. subst o. exists w2. split.
  - eapply download_checkpoint_caught; eassumption.
  - unfold ckpt_failure. now destruct (is_RequestException e).
Qed.

Lemma download_checkpoint_failure_returns_none_witness :
  (Sample.table !! "checkpoints" = Some Sample.ckpts
   /\ fst (stream_to_file Sample.env_drop
             (SampleMore.answer (Some Sample.cd_foo)
                (Some (Exn ChunkedEncodingError "Connection broken")))
             (dest (category_dir Sample.env_drop "checkpoints")
                "foo.safetensors")
             (Some 4) Sample.empty_world)
      = Raised (Exn ChunkedEncodingError "Connection broken"))
  /\ fst (download_checkpoint (H := Sample.host) Sample.env_drop Sample.table
            "sdxl" None (Some 4) Sample.empty_world)
     = Returned None.
Proof.
  assert (~ bad_status
            (SampleMore.answer (Some Sample.cd_foo)
               (Some (Exn ChunkedEncodingError "Connection broken")))) as Hok
    by (unfold bad_status; cbn; lia).
  split; [split; reflexivity|].
  destruct (download_checkpoint_failure_returns_none (H := Sample.host)
              Sample.env_drop Sample.table "sdxl" None (Some 4)
              Sample.ckpts "https://civitai.com/api/download/2"
              (SampleMore.answer (Some Sample.cd_foo)
                 (Some (Exn ChunkedEncodingError "Connection broken")))
              "foo.safetensors" (Exn ChunkedEncodingError "Connection broken")
              Sample.empty_world eq_refl eq_refl eq_refl eq_refl Hok eq_refl
              eq_refl eq_refl eq_refl) as (w2 & Hrun & _).
  now rewrite Hrun.
Defined.

(** X17.  Take an invocation of the checkpoint node whose name resolves
    to a url, whose request is answered with a status outside 400 to 599
    and whose response names a file.  The node returns what the host
    loader returns for the derived file name, an exception of the loader
    passing through, in two cases.  When the destination exists, whatever
    the block size, the loader sees the disk as it was and no body is
    read.  When the destination is absent, a block size is given and the
    body arrives whole, the loader sees the disk with the body at the
    destination. *)
Theorem download_checkpoint_loads `{Host} (env : environment)
        (NODE_CONFIG : gmap string (list entry))
        (ckpt_name : string) (api_key : option string)
        (records : list entry) (u : string) (r : response) (f : string) :
  NODE_CONFIG !! "checkpoints" = Some records ->
  find_url records ckpt_name = Some u ->
  truthy u = true ->
  requests_get env u (bearer_headers (select_api_key env u api_key))
  = Returned r ->
  ~ bad_status r ->
  derive_filename r = Returned (Some f) ->
  let path := dest (category_dir env "checkpoints") f in
  (forall chunks cached,
      exists_at env cached path = true ->
      let once :=
        download_checkpoint env NODE_CONFIG ckpt_name api_key chunks
          cached in
      fst once = some_of (load_checkpoint (files cached) (Some f))
      /\ files (snd once) = files cached
      /\ streams (trace (snd once)) = streams (trace cached))
  /\ (forall n fresh,
        exists_at env fresh path = false ->
        clean_body env r path n ->
        let body := joined (fst (iter_content r (n * 1024))) in
        let out :=
          download_checkpoint env NODE_CONFIG ckpt_name api_key
            (Some n) fresh in
        fst out
        = some_of
            (load_checkpoint (<[path := body]> (files fresh)) (Some f))
        /\ files (snd out) = <[path := body]> (files fresh)
        /\ streams (trace (snd out)) = S (streams (trace fresh))).
Proof.
  intros Hcfg Hfind Hu Hget Hok Hname. cbv zeta. split.
  - intros chunks cached Hcached.
    rewrite (download_checkpoint_cached env NODE_CONFIG ckpt_name
               api_key chunks records u Hcfg Hfind Hu cached r f Hget Hok
               Hname Hcached).
    cbn [fst snd record files trace]. repeat split.
    unfold streams. rewrite !count_app, count_request_trace by reflexivity.
    cbn. lia.
  - intros n fresh Hfresh ((total & Htotal & Hbar) & Hopen & Hwrite & Hiter).
    pose proof (stream_to_file_clean_run env r
                  (dest (category_dir env "checkpoints") f) n total
                  (record
                     (record fresh
                        (request_trace env "checkpoints" u api_key))
                     [ckpt_downloading u (Some f)
                        (dest (category_dir env "checkpoints") f)])
                  Htotal Hbar Hopen Hwrite Hiter) as Hs.
    rewrite (download_checkpoint_fetched env NODE_CONFIG ckpt_name
               api_key (Some n) records u Hcfg Hfind Hu fresh _ r f Hget Hok
               Hname Hfresh Hs).
    cbn [fst snd record files trace]. repeat split.
    unfold streams, body_events. rewrite !count_app.
    rewrite count_request_trace by reflexivity. cbn [count is_stream].
    rewrite count_chunk_events by reflexivity. cbn. lia.
Qed.

(** The loader of the sample host reports the file name and the disk:
    an old file that is kept, and a new one that is downloaded. *)
Lemma download_checkpoint_loads_witness :
  (exists_at Sample.env_ok
     (World {[ "/models/checkpoints/foo.safetensors" := "old" ]} [])
     (dest (category_dir Sample.env_ok "checkpoints") "foo.safetensors")
   = true
   /\ exists_at Sample.env_ok Sample.empty_world
        (dest (category_dir Sample.env_ok "checkpoints")
           "foo.safetensors")
      = false
   /\ clean_body Sample.env_ok (SampleMore.answer (Some Sample.cd_foo) None)
        (dest (category_dir Sample.env_ok "checkpoints")
           "foo.safetensors") 4)
  /\ fst (download_checkpoint (H := SampleMore.host_view) Sample.env_ok
            Sample.table "sdxl" None None
            (World {[ "/models/checkpoints/foo.safetensors" := "old" ]}
               []))
     = Returned (Some (Some "foo.safetensors", [None; None; Some "old"]))
  /\ fst (download_checkpoint (H := SampleMore.host_view) Sample.env_ok
            Sample.table "sdxl" None (Some 4) Sample.empty_world)
     = Returned (Some (Some "foo.safetensors", [None; None; Some "abcdef"])).
Proof.
  assert (clean_body Sample.env_ok (SampleMore.answer (Some Sample.cd_foo) None)
            (dest (category_dir Sample.env_ok "checkpoints")
               "foo.safetensors") 4) as Hclean.
  { split; [exists 6; split; reflexivity|]. split; [reflexivity|].
    split; [cbn; repeat constructor | reflexivity]. }
  assert (~ bad_status (SampleMore.answer (Some Sample.cd_foo) None)) as Hok
    by (unfold bad_status; cbn; lia).
  assert (exists_at Sample.env_ok
            (World {[ "/models/checkpoints/foo.safetensors" := "old" ]}
               [])
            (dest (category_dir Sample.env_ok "checkpoints")
               "foo.safetensors") = true) as Hcached by reflexivity.
  assert (exists_at Sample.env_ok Sample.empty_world
            (dest (category_dir Sample.env_ok "checkpoints")
               "foo.safetensors") = false) as Hfresh by reflexivity.
  split; [repeat split; assumption || apply Hclean|].
  destruct (download_checkpoint_loads (H := SampleMore.host_view) Sample.env_ok
              Sample.table "sdxl" None Sample.ckpts
              "https://civitai.com/api/download/2"
              (SampleMore.answer (Some Sample.cd_foo) None) "foo.safetensors"
              eq_refl eq_refl eq_refl eq_refl Hok eq_refl)
    as [Hkept Hloaded].
  destruct (Hkept None _ Hcached) as (Hout1 & _).
  destruct (Hloaded 4 _ Hfresh Hclean) as (Hout2 & _).
  rewrite Hout1, Hout2. split; reflexivity.
Defined.

(** ** The shape of a derived file name *)
Section Shape.

Lemma lstrip_quote_free (s : string) :
  quote_free s = true -> quote_free (lstrip s) = true.
Proof.
  induction s as [|c s IH]; [reflexivity|]. intros Hs.
  cbn [lstrip]. destruct (isspace c); [|exact Hs].
  cbn in Hs. apply andb_prop in Hs as [_ Hs]. auto.
Qed.

Lemma rstrip_quote_free (s : string) :
  quote_free s = true -> quote_free (rstrip s) = true.
Proof.
  induction s as [|c s IH]; [reflexivity|]. intros Hs.
  cbn in Hs. apply andb_prop in Hs as [Hc Hs]. specialize (IH Hs).
  cbn [rstrip]. destruct (rstrip s) as [|d t].
  - destruct (isspace c); [reflexivity|]. cbn. now rewrite Hc.
  - cbn [quote_free] in IH |- *. now rewrite Hc, IH.
Qed.

(** What [lstrip] leaves is empty or starts with a character that is not
    white space. *)
Lemma lstrip_head (s : string) :
  lstrip s = EmptyString
  \/ exists c t, lstrip s = String c t /\ isspace c = false.
Proof.
  induction s as [|c s IH]; [now left|].
  cbn [lstrip]. destruct (isspace c) eqn:Hc; [exact IH|].
  right. eauto.
Qed.

Lemma rstrip_cons (c : ascii) (s : string) :
  isspace c = false -> rstrip (String c s) = String c (rstrip s).
Proof.
  intros Hc. cbn [rstrip]. destruct (rstrip s); [now rewrite Hc | reflexivity].
Qed.

Lemma rstrip_idempotent (s : string) : rstrip (rstrip s) = rstrip s.
Proof.
  induction s as [|c s IH]; [reflexivity|].
  cbn [rstrip]. destruct (rstrip s) as [|d t] eqn:Hr.
  - destruct (isspace c) eqn:Hc; [reflexivity|].
    cbn [rstrip]. now rewrite Hc.
  - change (rstrip (String c (String d t)) = String c (String d t)).
    cbn [rstrip] in IH |- *.
    destruct (rstrip t) as [|d' t'] eqn:Ht.
    + destruct (isspace d) eqn:Hd; [discriminate|]. now injection IH as <-.
    + now rewrite IH.
Qed.

Lemma rstrip_last (s : string) (c : ascii) :
  last_char (rstrip s) = Some c -> isspace c = false.
Proof.
  induction s as [|x s IH]; [discriminate|].
  cbn [rstrip]. destruct (rstrip s) as [|d t].
  - destruct (isspace x) eqn:Hx; [discriminate|].
    cbn. now intros [= <-].
  - exact IH.
Qed.

(** What [strip] leaves neither starts nor ends with white space. *)
Lemma strip_stripped (s : string) : stripped (strip s).
Proof.
  unfold stripped, strip. split; [|apply rstrip_last].
  destruct (lstrip_head s) as [-> | (c & t & -> & Hc)]; [discriminate|].
  rewrite rstrip_cons by assumption. cbn. now intros c' [= <-].
Qed.

(** What the greedy run hands to its continuation: the rest after a
    prefix without a double quote. *)
Lemma star_not_inv {R : Type} (s : string) (k : string -> option R) (x : R) :
  star_not dquote s k = Some x ->
  exists pre suf,
    s = pre +:+ suf /\ quote_free pre = true /\ k suf = Some x.
Proof.
  induction s as [|c s IH]; cbn [star_not].
  - intros Hk. exists EmptyString, EmptyString. auto.
  - destruct (Ascii.eqb c dquote) eqn:Hc.
    + intros Hk. exists EmptyString, (String c s). auto.
    + destruct (star_not dquote s k) as [y|] eqn:Hs.
      * intros [= <-]. destruct (IH eq_refl) as (pre & suf & -> & Hpre & Hk).
        exists (String c pre), suf. repeat split; [|exact Hk].
        cbn. now rewrite Hc, Hpre.
      * intros Hk. exists EmptyString, (String c s). auto.
Qed.

Lemma group_then_quote_shape (s : string) (g x : option string) :
  rmatch (RSeq (RGroup (RPlusNot dquote)) (ROpt (RChar dquote))) s g
    (fun _ g' => Some g') = Some x ->
  group_shape x.
Proof.
  cbn [rmatch]. destruct s as [|c s]; [discriminate|].
  destruct (Ascii.eqb c dquote) eqn:Hc; [discriminate|].
  intros Hm. apply star_not_inv in Hm as (pre & suf & -> & Hpre & Hk).
  pose proof (substring_prefix (String c pre) suf) as Hsub.
  change (String c pre +:+ suf) with (String c (pre +:+ suf)) in Hsub.
  rewrite Hsub in Hk.
  assert (x = Some (String c pre)) as ->.
  { destruct suf as [|d suf]; [congruence|].
    destruct (Ascii.eqb d dquote); congruence. }
  exists (String c pre). repeat split; [|discriminate].
  cbn. now rewrite Hc, Hpre.
Qed.

Lemma filename_tail_shape (s : string) (g x : option string) :
  rmatch filename_tail s g (fun _ g' => Some g') = Some x -> group_shape x.
Proof.
  unfold filename_tail.
  change (rmatch (RSeq (ROpt (RChar dquote))
                    (RSeq (RGroup (RPlusNot dquote)) (ROpt (RChar dquote))))
            s g (fun _ g' => Some g'))
    with (rmatch (ROpt (RChar dquote)) s g
            (fun s' g' =>
               rmatch (RSeq (RGroup (RPlusNot dquote)) (ROpt (RChar dquote)))
                 s' g' (fun _ g'' => Some g''))).
  intros Hm. apply rmatch_opt_inv in Hm as [Hm | Hm].
  - apply rmatch_char_inv in Hm as [s' Hm].
    eapply group_then_quote_shape, Hm.
  - eapply group_then_quote_shape, Hm.
Qed.

Lemma re_search_shape (s : string) (x : option string) :
  re_search filename_re s = Some x -> group_shape x.
Proof.
  induction s as [|c s IH]; cbn [re_search].
  - destruct (rmatch filename_re EmptyString None (fun _ g => Some g)) eqn:E;
      [|discriminate].
    intros [= <-]. apply RLit_inv in E as [s' E].
    eapply filename_tail_shape, E.
  - destruct (rmatch filename_re (String c s) None (fun _ g => Some g)) eqn:E;
      [|exact IH].
    intros [= <-]. apply RLit_inv in E as [s' E].
    eapply filename_tail_shape, E.
Qed.

(** The greedy run goes to the end of a text without a double quote. *)
Lemma star_not_to_end {R : Type} (s : string) (k : string -> option R)
      (x : R) :
  quote_free s = true ->
  k EmptyString = Some x ->
  star_not dquote s k = Some x.
Proof.
  intros Hs Hk. induction s as [|c s IH]; [exact Hk|].
  cbn in Hs. apply andb_prop in Hs as [Hc Hs]. apply negb_true_iff in Hc.
  cbn [star_not]. rewrite Hc. now rewrite IH.
Qed.


(** *** The match of the pattern, place and text *)

(** A continuation that hands back group 1. *)
Local Abbreviation K := (fun (_ : string) (g' : option string) => Some g').

(** The greedy run ends at the first double quote, or at the end of the
    text, when the continuation cannot fail. *)
Lemma star_not_max {R : Type} (s : string) (k : string -> option R) :
  (forall suf, k suf <> None) ->
  exists pre suf,
    s = pre +:+ suf
    /\ quote_free pre = true
    /\ (suf = EmptyString \/ exists t, suf = String dquote t)
    /\ star_not dquote s k = k suf.
Proof.
  intros Hk. induction s as [|c s IH]; cbn [star_not].
  - exists EmptyString, EmptyString. auto.
  - destruct (Ascii.eqb c dquote) eqn:Hc.
    + apply Ascii.eqb_eq in Hc as ->.
      exists EmptyString, (String dquote s). eauto 6.
    + destruct IH as (pre & suf & -> & Hpre & Hsuf & Hrun).
      exists (String c pre), suf. rewrite Hrun.
      repeat split; [cbn; now rewrite Hc, Hpre | exact Hsuf |].
      destruct (k suf) eqn:E; [reflexivity | now apply Hk in E].
Qed.

Lemma rmatch_char_eq (c : ascii) (s : string) (g x : option string)
      (k : string -> option string -> option (option string)) :
  rmatch (RChar c) s g k = Some x ->
  exists s', s = String c s' /\ k s' g = Some x.
Proof.
  cbn [rmatch]. destruct s as [|y s]; [discriminate|].
  destruct (Ascii.eqb y c) eqn:Hy; [|discriminate].
  apply Ascii.eqb_eq in Hy as ->. eauto.
Qed.

(** The group and the optional closing quote: what matched. *)
Lemma group_then_quote_sound (s : string) (g0 x : option string) :
  rmatch (RSeq (RGroup (RPlusNot dquote)) (ROpt (RChar dquote))) s g0 K
  = Some x ->
  exists g post,
    s = g +:+ post
    /\ g <> EmptyString
    /\ quote_free g = true
    /\ (post = EmptyString \/ exists t, post = String dquote t)
    /\ x = Some g.
Proof.
  cbn [rmatch]. destruct s as [|c s]; [discriminate|].
  destruct (Ascii.eqb c dquote) eqn:Hc; [discriminate|].
  match goal with
  | |- star_not dquote s ?k = _ -> _ =>
      destruct (star_not_max s k) as (pre & suf & -> & Hpre & Hsuf & ->)
  end.
  { intros suf. destruct suf as [|d suf]; [discriminate|].
    destruct (Ascii.eqb d dquote); discriminate. }
  pose proof (substring_prefix (String c pre) suf) as Hsub.
  change (String c pre +:+ suf) with (String c (pre +:+ suf)) in Hsub.
  rewrite Hsub. intros Hx.
  exists (String c pre), suf.
  repeat split; [discriminate | cbn; now rewrite Hc, Hpre | exact Hsuf |].
  destruct suf as [|d suf]; [congruence|].
  destruct (Ascii.eqb d dquote); congruence.
Qed.

(** The group and the optional closing quote: what matches. *)
Lemma group_then_quote_run (g post : string) (g0 : option string) :
  g <> EmptyString ->
  quote_free g = true ->
  post = EmptyString \/ (exists t, post = String dquote t) ->
  rmatch (RSeq (RGroup (RPlusNot dquote)) (ROpt (RChar dquote))) (g +:+ post)
    g0 K
  = Some (Some g).
Proof.
  intros Hne Hfree Hpost. destruct g as [|c g]; [congruence|].
  cbn in Hfree. apply andb_prop in Hfree as [Hc Hfree].
  apply negb_true_iff in Hc.
  pose proof (substring_prefix (String c g) post) as Hsub.
  change (String c g +:+ post) with (String c (g +:+ post)) in Hsub |- *.
  cbn [rmatch]. rewrite Hc.
  destruct Hpost as [-> | [t ->]].
  - rewrite append_empty in Hsub |- *.
    erewrite star_not_to_end; [reflexivity | assumption |].
    now rewrite Hsub.
  - erewrite star_not_to_quote; [reflexivity | assumption |].
    rewrite Ascii.eqb_refl. now rewrite Hsub.
Qed.

Lemma filename_tail_seq (s : string) (g0 : option string) :
  rmatch filename_tail s g0 K
  = rmatch (ROpt (RChar dquote)) s g0
      (fun s' g' =>
         rmatch (RSeq (RGroup (RPlusNot dquote)) (ROpt (RChar dquote)))
           s' g' K).
Proof. reflexivity. Qed.

Lemma filename_tail_sound (s : string) (g0 x : option string) :
  rmatch filename_tail s g0 K = Some x ->
  exists g, x = Some g /\ tail_match s g.
Proof.
  rewrite filename_tail_seq. intros Hm.
  apply rmatch_opt_inv in Hm as [Hm | Hm].
  - apply rmatch_char_eq in Hm as (s' & -> & Hm).
    apply group_then_quote_sound in Hm
      as (g & post & -> & Hne & Hfree & Hpost & ->).
    exists g. split; [reflexivity|].
    exists (String dquote EmptyString), post. auto 6.
  - apply group_then_quote_sound in Hm
      as (g & post & -> & Hne & Hfree & Hpost & ->).
    exists g. split; [reflexivity|]. exists EmptyString, post. auto 6.
Qed.

Lemma filename_tail_complete (s g : string) (g0 : option string) :
  tail_match s g -> rmatch filename_tail s g0 K = Some (Some g).
Proof.
  intros (q & post & -> & Hq & Hne & Hfree & Hpost).
  rewrite filename_tail_seq.
  pose proof (group_then_quote_run g post g0 Hne Hfree Hpost) as Hrun.
  destruct Hq as [-> | ->].
  - change (EmptyString +:+ g +:+ post) with (g +:+ post).
    destruct g as [|c g]; [congruence|].
    cbn in Hfree. apply andb_prop in Hfree as [Hc _].
    apply negb_true_iff in Hc.
    change (String c g +:+ post) with (String c (g +:+ post)) in Hrun |- *.
    cbn [rmatch] in Hrun |- *. rewrite Hc in Hrun |- *. exact Hrun.
  - change (String dquote EmptyString +:+ g +:+ post)
      with (String dquote (g +:+ post)).
    change (rmatch (ROpt (RChar dquote)) (String dquote (g +:+ post)) g0
              (fun s' g' =>
                 rmatch (RSeq (RGroup (RPlusNot dquote))
                           (ROpt (RChar dquote))) s' g' K))
      with (match
               (if Ascii.eqb dquote dquote
                then rmatch (RSeq (RGroup (RPlusNot dquote))
                               (ROpt (RChar dquote))) (g +:+ post) g0 K
                else None)
             with
             | Some x => Some x
             | None =>
                 rmatch (RSeq (RGroup (RPlusNot dquote))
                           (ROpt (RChar dquote)))
                   (String dquote (g +:+ post)) g0 K
             end).
    rewrite Ascii.eqb_refl, Hrun. reflexivity.
Qed.

Lemma RLit_eq (w : string) (r : regex) (s : string) (g x : option string)
      (k : string -> option string -> option (option string)) :
  rmatch (RLit w r) s g k = Some x ->
  exists s', s = w +:+ s' /\ rmatch r s' g k = Some x.
Proof.
  revert s. induction w as [|c w IH]; intros s; cbn [RLit rmatch].
  - eauto.
  - destruct s as [|y s]; [discriminate|].
    destruct (Ascii.eqb y c) eqn:Hy; [|discriminate].
    apply Ascii.eqb_eq in Hy as ->. intros Hm.
    apply IH in Hm as (s' & -> & Hm). eauto.
Qed.

Lemma RLit_run (w : string) (r : regex) (s : string) (g : option string)
      (k : string -> option string -> option (option string)) :
  rmatch (RLit w r) (w +:+ s) g k = rmatch r s g k.
Proof.
  induction w as [|c w IH]; [reflexivity|].
  change (String c w +:+ s) with (String c (w +:+ s)).
  cbn [RLit rmatch]. now rewrite Ascii.eqb_refl.
Qed.

(** The pattern matches at the start of [s] with [g] as group 1. *)
Lemma match_here (s g : string) :
  rmatch filename_re s None K = Some (Some g) <-> match_at s EmptyString g.
Proof.
  unfold filename_re, match_at. split.
  - intros Hm. apply RLit_eq in Hm as (s' & -> & Hm).
    apply filename_tail_sound in Hm as (g' & [= <-] & Ht). eauto.
  - intros (s' & -> & Ht).
    change (EmptyString +:+ "filename=" +:+ s') with ("filename=" +:+ s').
    rewrite RLit_run. now apply filename_tail_complete.
Qed.

Lemma match_here_group (s : string) (x : option string) :
  rmatch filename_re s None K = Some x -> exists g, x = Some g.
Proof.
  unfold filename_re. intros Hm. apply RLit_eq in Hm as (s' & -> & Hm).
  apply filename_tail_sound in Hm as (g & -> & _). eauto.
Qed.

Lemma match_at_cons (c : ascii) (s pre g : string) :
  match_at (String c s) (String c pre) g <-> match_at s pre g.
Proof.
  unfold match_at.
  split; intros (s' & Heq & Ht); exists s'; split; try exact Ht.
  - change (String c pre +:+ "filename=" +:+ s')
      with (String c (pre +:+ "filename=" +:+ s')) in Heq.
    now injection Heq.
  - now rewrite Heq.
Qed.

(** [re.search] finds the leftmost match, and nothing else. *)
Lemma re_search_first (s g : string) :
  re_search filename_re s = Some (Some g) <-> first_named s g.
Proof.
  revert g. induction s as [|c s IH]; intros g; cbn [re_search].
  - split.
    + destruct (rmatch filename_re EmptyString None K) eqn:E; discriminate.
    + intros (pre & (s' & Heq & _) & _). destruct pre; discriminate.
  - destruct (rmatch filename_re (String c s) None K) as [x|] eqn:E.
    + destruct (match_here_group _ _ E) as [g1 ->].
      apply match_here in E. split.
      * intros [= <-]. exists EmptyString. split; [exact E|].
        intros. cbn. lia.
      * intros (pre & Hm & Hleft).
        specialize (Hleft _ _ E). destruct pre; [|cbn in Hleft; lia].
        apply match_here in Hm, E. congruence.
    + rewrite IH. split.
      * intros (pre & Hm & Hleft). exists (String c pre). split.
        { apply match_at_cons. exact Hm. }
        intros pre' g' Hm'. destruct pre' as [|c' pre'].
        { apply match_here in Hm'. congruence. }
        assert (c' = c) as ->.
        { destruct Hm' as (s' & Heq & _). now injection Heq. }
        apply match_at_cons in Hm'. specialize (Hleft _ _ Hm'). cbn. lia.
      * intros (pre & Hm & Hleft). destruct pre as [|c' pre].
        { apply match_here in Hm. congruence. }
        assert (c' = c) as ->.
        { destruct Hm as (s' & Heq & _). now injection Heq. }
        exists pre. split; [apply (match_at_cons c); exact Hm|].
        intros pre' g' Hm'. apply (match_at_cons c) in Hm'.
        specialize (Hleft _ _ Hm'). cbn in Hleft. lia.
Qed.

End Shape.

(** X18.  Deriving the file name never raises.  A name is derived
    exactly when the pattern occurs in the [Content-Disposition] header,
    and it is what [strip] leaves of group 1 of the leftmost match: the
    text that follows the word [filename=] and at most one double quote,
    is not empty, and runs up to the next double quote or to the end of
    the header.  A derived name holds no double quote, and neither its
    first nor its last character is white space. *)
Theorem derived_filename_shape (r : response) :
  (exists o, derive_filename r = Returned o)
  /\ (forall f,
        derive_filename r = Returned (Some f)
        <-> exists cd g,
              content_disposition r = Some cd
              /\ first_named cd g
              /\ f = strip g)
  /\ (forall f,
        derive_filename r = Returned (Some f) ->
        quote_free f = true /\ stripped f).
Proof.
  split; [apply derive_filename_total|]. split.
  - intros f. unfold derive_filename.
    destruct (content_disposition r) as [cd|].
    2:{ split; [discriminate|]. intros (cd & g & Hcd & _). discriminate. }
    assert (forall g, first_named cd g ->
                      truthy cd = true
                      /\ re_search filename_re cd = Some (Some g)) as Hfound.
    { intros g Hg. apply re_search_first in Hg.
      split; [|exact Hg]. destruct cd; [discriminate | reflexivity]. }
    destruct (truthy cd) eqn:Hcd.
    2:{ split; [discriminate|]. intros (cd' & g & [= <-] & Hg & _).
        apply Hfound in Hg as [Ht _]. discriminate. }
    destruct (re_search filename_re cd) as [[g|]|] eqn:Hm.
    + split.
      * intros [= <-]. exists cd, g.
        split; [reflexivity|]. split; [|reflexivity].
        now apply re_search_first.
      * intros (cd' & g' & [= <-] & Hg & ->).
        apply Hfound in Hg as [_ Hg]. now injection Hg as <-.
    + split; [discriminate|]. intros (cd' & g & [= <-] & Hg & _).
      apply Hfound in Hg as [_ Hg]. discriminate.
    + split; [discriminate|]. intros (cd' & g & [= <-] & Hg & _).
      apply Hfound in Hg as [_ Hg]. discriminate.
  - intros f. unfold derive_filename.
    destruct (content_disposition r) as [cd|]; [|discriminate].
    destruct (truthy cd); [|discriminate].
    destruct (re_search filename_re cd) as [x|] eqn:Hm; [|discriminate].
    apply re_search_shape in Hm as (g & -> & Hfree & Hne).
    intros [= <-]. split.
    + unfold strip. now apply rstrip_quote_free, lstrip_quote_free.
    + apply strip_stripped.
Qed.

(** The pattern does not match at the first [filename=], which no name
    follows; the name is taken from the second. *)
Lemma derived_filename_shape_witness :
  derive_filename (SampleMore.answer (Some SampleMore.cd_twice) None)
  = Returned (Some "x.bin")
  /\ exists cd g,
      content_disposition (SampleMore.answer (Some SampleMore.cd_twice) None)
      = Some cd
      /\ first_named cd g
      /\ "x.bin" = strip g.
Proof.
  split; [reflexivity|].
  apply (derived_filename_shape
           (SampleMore.answer (Some SampleMore.cd_twice) None)).
  reflexivity.
Defined.



(** X20.  The derived file name is joined to the models directory as it
    is.  When it starts with a slash, [os.path.join] drops the directory:
    the destination is the name itself, the body is written there,
    outside the models directory, and the host loader is given that
    name. *)
Theorem absolute_filename_leaves_models_dir `{Host} (env : environment)
        (NODE_CONFIG : gmap string (list entry)) (model : Model)
        (lora_name : string) (sm sc : Strength) (clip : option Clip)
        (api_key : option string) (n : Z) (records : list entry)
        (u : string) (r : response) (f : string) (w : world) :
  NODE_CONFIG !! "loras" = Some records ->
  find_url records lora_name = Some u ->
  truthy u = true ->
  requests_get env u (bearer_headers (select_api_key env u api_key))
  = Returned r ->
  ~ bad_status r ->
  derive_filename r = Returned (Some f) ->
  startswith f "/" = true ->
  exists_at env w f = false ->
  clean_body env r f n ->
  let out :=
    download_lora env NODE_CONFIG model lora_name sm sc clip api_key (Some n)
      w in
  dest (category_dir env "loras") f = f
  /\ files (snd out)
     = <[f := joined (fst (iter_content r (n * 1024)))]> (files w)
  /\ fst out
     = load_lora (<[f := joined (fst (iter_content r (n * 1024)))]> (files w))
         model clip (Some f) sm sc.
Proof.
  intros Hcfg Hfind Hu Hget Hok Hname Hslash Hex
         ((total & Htotal & Hbar) & Hopen & Hwrite & Hiter).
  cbv zeta.
  assert (dest (category_dir env "loras") f = f) as Hdest
    by (unfold dest; now rewrite Hslash).
  split; [exact Hdest|].
  rewrite <- Hdest in Hex, Hopen, Hwrite.
  rewrite (download_lora_whole env NODE_CONFIG model lora_name sm sc clip
             api_key records u r f Hcfg Hfind Hu Hget Hname n total w Hok Hex
             Htotal Hbar Hopen Hwrite Hiter).
  cbn [fst snd files]. rewrite Hdest. split; reflexivity.
Qed.

Lemma absolute_filename_leaves_models_dir_witness :
  (derive_filename (SampleMore.answer (Some SampleMore.cd_abs) None)
   = Returned (Some "/tmp/x.bin")
   /\ startswith "/tmp/x.bin" "/" = true)
  /\ files (snd (download_lora (H := Sample.host) SampleMore.env_abs
                   Sample.table 5%nat "detail" 1 1 None None (Some 4)
                   Sample.empty_world))
     = <[ "/tmp/x.bin" := "abcdef" ]> (files Sample.empty_world).
Proof.
  assert (clean_body SampleMore.env_abs
            (SampleMore.answer (Some SampleMore.cd_abs) None) "/tmp/x.bin" 4)
    as Hclean.
  { split; [exists 6; split; reflexivity|]. split; [reflexivity|].
    split; [cbn; repeat constructor | reflexivity]. }
  assert (~ bad_status (SampleMore.answer (Some SampleMore.cd_abs) None))
    as Hok by (unfold bad_status; cbn; lia).
  assert (exists_at SampleMore.env_abs Sample.empty_world "/tmp/x.bin" = false)
    as Hex by reflexivity.
  split; [split; reflexivity|].
  destruct (absolute_filename_leaves_models_dir (H := Sample.host)
              SampleMore.env_abs Sample.table 5%nat "detail" 1 1 None None 4
              Sample.loras "https://civitai.com/api/download/1"
              (SampleMore.answer (Some SampleMore.cd_abs) None) "/tmp/x.bin"
              Sample.empty_world eq_refl eq_refl eq_refl eq_refl Hok eq_refl
              eq_refl Hex Hclean) as (_ & Hfiles & _).
  exact Hfiles.
Defined.
